(** * Time-series forecast dashboard ([app.py]): loader and chart projection

    A shallow embedding of the two pieces of logic of [app.py]:
    the module-level loading loop that turns every model CSV into a daily,
    interpolated table ([models_data], [date_list]), and the Dash callback
    [update_graph] that turns a selection of models and a slider range into
    a figure.

    Modelling conventions.
    - A date is a midnight [Timestamp]; it is represented by its day number
      ([Z]), so that [freq="D"] is [+1].
    - A numeric cell is [option Q]: [None] is NaN, [Some q] the exact value
      of a float64 number.  Linear interpolation is carried out exactly on
      rationals, without binary rounding; the arithmetic of the y axis
      (line 184) is carried out in binary64, rounding included.
    - A [DataFrame] is row oriented.  The program only ever reads the columns
      [dates], [groundtruth], [predictions] and [predicted values]; the list
      [columns] records which column labels the table has, which is what the
      tests ["groundtruth" in df.columns] inspect.
    - Raising an exception is the left injection of a sum; the [try]/[except]
      of [update_graph] is a [match] on that sum.
    - [models_data] is a Python [dict] keyed by strings: a [gmap string]. *)

From Stdlib Require Import ZArith QArith Qround Lia Permutation.
From stdpp Require Import gmap strings list.

(** ** Exceptions *)

Inductive Exception : Type :=
| FileNotFoundError (msg : string)
| ValueError (msg : string)
| KeyError (key : string)
| IndexError (msg : string).

Definition result (A : Type) : Type := (Exception + A)%type.

Definition Ok {A : Type} (a : A) : result A := inr a.
Definition raise {A : Type} (e : Exception) : result A := inl e.

Definition bind {A B : Type} (c : result A) (k : A -> result B) : result B :=
  match c with
  | inl e => inl e
  | inr a => k a
  end.

Declare Scope py_scope.
Delimit Scope py_scope with py.
Notation "x <- c ;; k" := (bind c (fun x => k))
  (at level 100, c at next level, right associativity) : py_scope.
Open Scope py_scope.

(** [for x in xs: st = body st x], stopping at the first exception. *)
Fixpoint for_each {S A : Type} (body : S -> A -> result S) (xs : list A) (st : S)
  : result S :=
  match xs with
  | [] => Ok st
  | a :: rest => st' <- body st a ;; for_each body rest st'
  end.

(** ** Python built-ins used by the program *)

(** [s.endswith(suffix)] *)
Definition endswith (s suffix : string) : bool :=
  let n := String.length s in
  let k := String.length suffix in
  (k <=? n)%nat && String.eqb (String.substring (n - k) k s) suffix.

(** [s.replace(old, new)] for a non-empty [old]: every non-overlapping
    occurrence, scanning from the left.  [skip] counts the characters of an
    occurrence still to be dropped. *)
Fixpoint replace_from (old new : string) (skip : nat) (s : string) : string :=
  match s with
  | EmptyString => EmptyString
  | String c rest =>
      match skip with
      | S k => replace_from old new k rest
      | O =>
          if String.prefix old s
          then new +:+ replace_from old new (String.length old - 1) rest
          else String c (replace_from old new 0 rest)
      end
  end.

Definition replace (old new s : string) : string := replace_from old new 0 s.

(** [l[i]] on a list, with Python's negative indices. *)
Definition getitem {A : Type} (l : list A) (i : Z) : result A :=
  let n := Z.of_nat (length l) in
  let j := if (i <? 0)%Z then (i + n)%Z else i in
  if (0 <=? j)%Z && (j <? n)%Z
  then match l !! Z.to_nat j with
       | Some a => Ok a
       | None => raise (IndexError "list index out of range")
       end
  else raise (IndexError "list index out of range").

(** [max(values)] on a non-empty list: the first maximal element. *)
Definition py_max (v : Q) (values : list Q) : Q :=
  fold_left (fun m a => if Qle_bool a m then m else a) values v.

(** ** binary64 arithmetic

    A column with a missing value or a decimal is a float column: [pandas]
    hands its values over as Python floats, and line 184 computes on them in
    binary64 (for a column of integers see [y_max_of]).  A float is
    represented by its exact rational value; every operation that rounds
    goes through [round64].  The sign of a zero is not represented: no
    result of line 184 depends on it. *)

(** A binary64 result: a finite value, or an infinity after an overflow. *)
Inductive Float : Type :=
| Finite (q : Q)
| Infinity (negative : bool).

(** [n / d] rounded to the nearest integer, ties to even. *)
Definition round_half_even (n d : Z) : Z :=
  let fl := (n / d)%Z in
  match (2 * (n mod d) ?= d)%Z with
  | Lt => fl
  | Gt => (fl + 1)%Z
  | Eq => if Z.even fl then fl else (fl + 1)%Z
  end.

(** The [e] with [2^e <= n / d < 2^(e+1)]. *)
Definition exponent_of (n d : positive) : Z :=
  let e0 := (Z.log2 (Zpos n) - Z.log2 (Zpos d))%Z in
  if (Zpos n * 2 ^ Z.max 0 (- e0) <? Zpos d * 2 ^ Z.max 0 e0)%Z
  then (e0 - 1)%Z else e0.

(** [m * 2^u] *)
Definition scale2 (m u : Z) : Q :=
  if (0 <=? u)%Z then inject_Z (m * 2 ^ u)
  else Qmake m (Z.to_pos (2 ^ (- u))).

(** Rounding of the positive number [n / d] to binary64 (53 significant
    bits, least exponent -1074, nearest with ties to even), with its sign
    put back. *)
Definition round_pos (negative : bool) (n d : positive) : Float :=
  let u := Z.max (exponent_of n d - 52) (-1074) in
  let m :=
    if (0 <=? u)%Z then round_half_even (Zpos n) (Zpos d * 2 ^ u)
    else round_half_even (Zpos n * 2 ^ (- u)) (Zpos d) in
  if (0 <=? u)%Z && (2 ^ 1024 <=? m * 2 ^ u)%Z then Infinity negative
  else Finite (Qred (if negative then - scale2 m u else scale2 m u)).

Definition round64 (q : Q) : Float :=
  match Qnum (Qred q) with
  | Z0 => Finite 0
  | Zpos n => round_pos false n (Qden (Qred q))
  | Zneg n => round_pos true n (Qden (Qred q))
  end.

Definition float_bind (a : Float) (k : Q -> Float) : Float :=
  match a with
  | Finite q => k q
  | Infinity negative => Infinity negative
  end.

(** C's [fmod(x, y)]: exact, with the sign of [x]. *)
Definition fmod (x y : Q) : Q :=
  let t := if Qle_bool 0 (x / y) then Qfloor (x / y) else Qceiling (x / y) in
  x - inject_Z t * y.

(** [vx // wx] on floats, as CPython's [float_floor_div] computes it. *)
Definition float_floordiv (vx wx : Q) : Float :=
  let mod_ := fmod vx wx in
  float_bind (round64 (vx - mod_)) (fun a =>
  float_bind (round64 (a / wx)) (fun div0 =>
  float_bind
    (if negb (Qeq_bool mod_ 0)
        && negb (Bool.eqb (negb (Qle_bool 0 wx)) (negb (Qle_bool 0 mod_)))
     then round64 (div0 - 1) else Finite div0) (fun div =>
  if Qeq_bool div 0 then Finite 0
  else
    let floordiv := inject_Z (Qfloor div) in
    float_bind (round64 (div - floordiv)) (fun r =>
    if negb (Qle_bool r (1 # 2)) then round64 (floordiv + 1)
    else Finite floordiv)))).

(** [((m // 2000) + 1) * 2000] on floats. *)
Definition y_max_float (m : Q) : Float :=
  float_bind (float_floordiv (Qred m) 2000) (fun f =>
  float_bind (round64 (f + 1)) (fun g => round64 (g * 2000))).

(** [q] is the value of a binary64 number: rounding leaves it as it is. *)
Definition representable (q : Q) : bool :=
  match round64 q with
  | Finite r => Qeq_bool r q
  | Infinity _ => false
  end.

(** ** Data frames *)

Record Row : Type := {
  dates : Z;
  groundtruth : option Q;
  predictions : option Q;
  predicted_values : option Q
}.

Record DataFrame : Type := {
  columns : list string;
  rows : list Row
}.

Definition has_column (c : string) (df : DataFrame) : bool :=
  bool_decide (c ∈ columns df).

(** [df[c]] for the three numeric columns the program reads. *)
Definition column (c : string) (df : DataFrame) : list (option Q) :=
  if String.eqb c "groundtruth" then map groundtruth (rows df)
  else if String.eqb c "predictions" then map predictions (rows df)
  else if String.eqb c "predicted values" then map predicted_values (rows df)
  else [].

(** [series.dropna().tolist()] *)
Definition dropna (ys : list (option Q)) : list Q := omap id ys.

(** [series.min()] and [series.max()] of a date column; [None] is NaT. *)
Definition series_min (ds : list Z) : option Z :=
  match ds with
  | [] => None
  | d :: rest => Some (fold_left Z.min rest d)
  end.

Definition series_max (ds : list Z) : option Z :=
  match ds with
  | [] => None
  | d :: rest => Some (fold_left Z.max rest d)
  end.

(** [pd.date_range(start=.., end=.., freq="D")] *)
Definition date_range (start end_ : option Z) : result (list Z) :=
  match start, end_ with
  | Some s, Some e =>
      Ok (map (fun i => (s + Z.of_nat i)%Z) (seq 0 (Z.to_nat (e - s + 1))))
  | _, _ => raise (ValueError "Neither `start` nor `end` can be NaT")
  end.

(** [df.sort_values("dates")]: rows in ascending date order.  The default
    sort of pandas does not fix the order of rows with the same date; here
    they keep their original order, and no property below depends on it. *)
Fixpoint insert_by_date (r : Row) (sorted : list Row) : list Row :=
  match sorted with
  | [] => [r]
  | r' :: rest =>
      if (dates r' <? dates r)%Z then r' :: insert_by_date r rest
      else r :: sorted
  end.

Definition sort_values (rs : list Row) : list Row :=
  foldr insert_by_date [] rs.

(** [pd.merge(df_full, df, on="dates", how="left")]: the calendar's order is
    kept; a day with matching rows yields all of them, a day without yields
    one row of NaN. *)
Definition nan_row (d : Z) : Row :=
  {| dates := d; groundtruth := None; predictions := None;
     predicted_values := None |}.

Definition merge_left (full : list Z) (right : list Row) : list Row :=
  flat_map
    (fun d =>
       match List.filter (fun r => (dates r =? d)%Z) right with
       | [] => [nan_row d]
       | matched => matched
       end)
    full.

(** ** [Series.interpolate(method="linear")]

    With the default arguments ([limit=None], [limit_direction="forward"],
    [limit_area=None]) pandas
    - returns the column unchanged when it has no valid or only valid cells;
    - treats the cells as equally spaced (positions [0, 1, ..]);
    - fills every NaN with [np.interp] over the valid cells;
    - and puts NaN back on the cells before the first valid one.
    [np.interp] is constant outside the range of its sample points. *)

(** The valid cells with their positions, from position [i] on. *)
Fixpoint valid_points (i : Z) (ys : list (option Q)) : list (Z * Q) :=
  match ys with
  | [] => []
  | Some v :: rest => (i, v) :: valid_points (i + 1) rest
  | None :: rest => valid_points (i + 1) rest
  end.

(** [np.interp(x, xp, fp)] for sample points in increasing order. *)
Fixpoint np_interp (x : Z) (pts : list (Z * Q)) : option Q :=
  match pts with
  | [] => None
  | (x0, y0) :: rest =>
      if (x <=? x0)%Z then Some y0
      else match rest with
           | [] => Some y0
           | (x1, y1) :: _ =>
               if (x <? x1)%Z
               then Some (Qred ((y1 - y0) / inject_Z (x1 - x0)
                                * inject_Z (x - x0) + y0))
               else np_interp x rest
           end
  end.

Fixpoint fill_from (i first_valid : Z) (pts : list (Z * Q))
    (ys : list (option Q)) : list (option Q) :=
  match ys with
  | [] => []
  | Some v :: rest => Some v :: fill_from (i + 1) first_valid pts rest
  | None :: rest =>
      (if (i <? first_valid)%Z then None else np_interp i pts)
        :: fill_from (i + 1) first_valid pts rest
  end.

Definition interpolate (ys : list (option Q)) : list (option Q) :=
  match valid_points 0 ys with
  | [] => ys
  | (first_valid, v) :: more =>
      let pts := (first_valid, v) :: more in
      if (length pts =? length ys)%nat then ys
      else fill_from 0 first_valid pts ys
  end.

(** [df[c] = series] for the three numeric columns. *)
Definition set_groundtruth (v : option Q) (r : Row) : Row :=
  {| dates := dates r; groundtruth := v; predictions := predictions r;
     predicted_values := predicted_values r |}.

Definition set_predictions (v : option Q) (r : Row) : Row :=
  {| dates := dates r; groundtruth := groundtruth r; predictions := v;
     predicted_values := predicted_values r |}.

Definition set_predicted_values (v : option Q) (r : Row) : Row :=
  {| dates := dates r; groundtruth := groundtruth r;
     predictions := predictions r; predicted_values := v |}.

Definition interpolate_column (get : Row -> option Q)
    (set : option Q -> Row -> Row) (rs : list Row) : list Row :=
  zip_with set (interpolate (map get rs)) rs.

(** ** The loading loop (lines 34-59)

    [load_model] is lines 39-59 on the table that line 37 leaves, restricted
    to its rows that have a date (see [read_model] below for lines 36-37).
    Reading [df["dates"]] raises [KeyError] when the label is missing. *)
Definition load_model (df : DataFrame) : result DataFrame :=
  if negb (has_column "dates" df) then raise (KeyError "dates")
  else
    let sorted := sort_values (rows df) in
    let ds := map dates sorted in
    full_date_range <- date_range (series_min ds) (series_max ds) ;;
    let merged := merge_left full_date_range sorted in
    let with_gt :=
      if has_column "groundtruth" df
      then interpolate_column groundtruth set_groundtruth merged
      else merged in
    let with_pred :=
      if has_column "predictions" df
      then interpolate_column predictions set_predictions with_gt
      else if has_column "predicted values" df
      then interpolate_column predicted_values set_predicted_values with_gt
      else with_gt in
    Ok {| columns := "dates" :: List.filter (fun c => negb (String.eqb c "dates")) (columns df);
          rows := with_pred |}.

(** ** Reading the dates (lines 36-37)

    [pd.read_csv] gives the [dates] column as texts, with nothing in a blank
    field.  [pd.to_datetime(.., format='%m/%d/%y')] turns a blank field into
    NaT and parses a text; [strptime] is that parser: the day number of the
    text, or the exception raised for a text that is not of the form
    month/day/two-digit year. *)

Record CsvRow : Type := {
  csv_dates : option string;
  csv_groundtruth : option Q;
  csv_predictions : option Q;
  csv_predicted_values : option Q
}.

Record CsvFrame : Type := {
  csv_columns : list string;
  csv_rows : list CsvRow
}.

Fixpoint to_datetime (strptime : string -> result Z)
    (cells : list (option string)) : result (list (option Z)) :=
  match cells with
  | [] => Ok []
  | None :: rest =>
      ds <- to_datetime strptime rest ;; Ok (None :: ds)
  | Some text :: rest =>
      d <- strptime text ;;
      ds <- to_datetime strptime rest ;;
      Ok (Some d :: ds)
  end.

(** The rows that have a date after line 37.  A row whose date is NaT takes
    no part in lines 39-59: [min] and [max] skip it, and the left merge onto
    the calendar never matches it. *)
Fixpoint dated_rows (ds : list (option Z)) (rs : list CsvRow) : list Row :=
  match ds, rs with
  | Some d :: ds', r :: rs' =>
      {| dates := d; groundtruth := csv_groundtruth r;
         predictions := csv_predictions r;
         predicted_values := csv_predicted_values r |} :: dated_rows ds' rs'
  | None :: ds', _ :: rs' => dated_rows ds' rs'
  | _, _ => []
  end.

(** Lines 36-59 for one file: [load_model] on the table that line 37
    leaves. *)
Definition read_model (strptime : string -> result Z) (raw : CsvFrame)
  : result DataFrame :=
  if negb (bool_decide ("dates" ∈ csv_columns raw)) then raise (KeyError "dates")
  else
    ds <- to_datetime strptime (map csv_dates (csv_rows raw)) ;;
    load_model {| columns := csv_columns raw;
                  rows := dated_rows ds (csv_rows raw) |}.

Fixpoint load_models (model_files : list (string * DataFrame))
    (models_data : gmap string DataFrame) : result (gmap string DataFrame) :=
  match model_files with
  | [] => Ok models_data
  | (file, df) :: rest =>
      let model_name := replace ".csv" "" file in
      df_interpolated <- load_model df ;;
      load_models rest (<[model_name := df_interpolated]> models_data)
  end.

(** Module level code up to [date_list] (lines 17-65).  [listing] is the
    content of [models_dir]: [None] when the directory does not exist,
    otherwise the file names, each with its table as line 37 leaves it (the
    rows that have a date; see [read_model]).  The directory name of line 18
    is the parameter [models_dir]. *)
Definition startup (models_dir : string)
    (listing : option (list (string * DataFrame)))
  : result (gmap string DataFrame * list Z) :=
  match listing with
  | None => raise (FileNotFoundError ("Directory not found: " +:+ models_dir))
  | Some files =>
      let model_files := List.filter (fun f => endswith (fst f) ".csv") files in
      match model_files with
      | [] =>
          raise (ValueError ("No CSV files found in " +:+ models_dir +:+
            ". Please add your model CSV files to this directory."))
      | _ =>
          models_data <- load_models model_files ∅ ;;
          let all_dates :=
            concat (map (fun kv => map dates (rows (snd kv)))
                        (map_to_list models_data)) in
          date_list <- date_range (series_min all_dates) (series_max all_dates) ;;
          Ok (models_data, date_list)
      end
  end.

(** ** Figures

    A figure is the list of its traces and its layout.  [go.Figure()] has no
    trace and an untouched layout.  The two f-string titles are kept as a
    template with its arguments: the dates and the exception are the data,
    their rendering ([strftime], [str]) is not. *)

Record Line : Type := {
  color : option string;
  dash : option string;
  width : Z;
  shape : string
}.

Record Scatter : Type := {
  x : list Z;
  y : list (option Q);
  mode : string;
  name : string;
  line : Line
}.

Inductive TitleText : Type :=
| SmoothTitle (start_date end_date : Z)
    (* "Smooth Time-Series Data from {start_date} to {end_date}" *)
| ErrorTitle (e : Exception)
    (* "Error loading data: {str(e)}" *).

Record YAxis : Type := {
  range : Q * Float;
  tickmode : string;
  dtick : Z
}.

Record Layout : Type := {
  title : option TitleText;
  xaxis_title : option string;
  yaxis_title : option string;
  template : option string;
  hovermode : option string;
  showlegend : option bool;
  plot_bgcolor : option string;
  yaxis : option YAxis;
  showgrid : option bool
}.

Record Figure : Type := {
  data : list Scatter;
  layout : Layout
}.

Definition empty_layout : Layout :=
  {| title := None; xaxis_title := None; yaxis_title := None;
     template := None; hovermode := None; showlegend := None;
     plot_bgcolor := None; yaxis := None; showgrid := None |}.

(** ** [update_graph] (lines 127-234) *)

(** What the loop of [update_graph] carries from one model to the next. *)
Record LoopState : Type := {
  fig_data : list Scatter;
  ground_truth_plotted : bool;
  all_values : list Q
}.

Definition initial_state : LoopState :=
  {| fig_data := []; ground_truth_plotted := false; all_values := [] |}.

(** [df[(df["dates"] >= start_date) & (df["dates"] <= end_date)]] *)
Definition df_filter (start_date end_date : Z) (df : DataFrame) : DataFrame :=
  {| columns := columns df;
     rows := List.filter
               (fun r => (start_date <=? dates r)%Z && (dates r <=? end_date)%Z)
               (rows df) |}.

Definition actual_trace (df_filtered : DataFrame) : Scatter :=
  {| x := map dates (rows df_filtered);
     y := column "groundtruth" df_filtered;
     mode := "lines";
     name := "Actual Values";
     line := {| color := Some "black"; dash := None; width := 2;
                shape := "spline" |} |}.

Definition display_name (model : string) : string :=
  replace "result-csv_" "" (replace "results-csv_" "" model).

Definition predicted_trace (model pred_col : string) (df_filtered : DataFrame)
  : Scatter :=
  {| x := map dates (rows df_filtered);
     y := column pred_col df_filtered;
     mode := "lines";
     name := display_name model;
     line := {| color := None; dash := Some "dash"; width := 2;
                shape := "spline" |} |}.

Definition pred_col_of (df_filtered : DataFrame) : option string :=
  if has_column "predictions" df_filtered then Some "predictions"
  else if has_column "predicted values" df_filtered then Some "predicted values"
  else None.

(** The body of [for model in selected_models] (lines 145-179). *)
Definition plot_model (models_data : gmap string DataFrame)
    (start_date end_date : Z) (st : LoopState) (model : string)
  : result LoopState :=
  df <- match models_data !! model with
        | Some df => Ok df
        | None => raise (KeyError model)
        end ;;
  let df_filtered := df_filter start_date end_date df in
  let st1 :=
    if negb (ground_truth_plotted st) && has_column "groundtruth" df_filtered
    then {| fig_data := fig_data st ++ [actual_trace df_filtered];
            ground_truth_plotted := true;
            all_values :=
              all_values st ++ dropna (column "groundtruth" df_filtered) |}
    else st in
  match pred_col_of df_filtered with
  | Some pred_col =>
      Ok {| fig_data :=
              fig_data st1 ++ [predicted_trace model pred_col df_filtered];
            ground_truth_plotted := ground_truth_plotted st1;
            all_values :=
              all_values st1 ++ dropna (column pred_col df_filtered) |}
  | None => Ok st1
  end.

(** [((max(all_values) // 2000) + 1) * 2000], on floats.  (A column that
    holds integers only and has no missing day keeps its integer type, and
    Python then computes on integers, without rounding; the two computations
    agree whenever the maximum has magnitude at most [2^52], where nothing
    rounds.) *)
Definition y_max_of (v : Q) (values : list Q) : Float :=
  y_max_float (py_max v values).

Definition scaled_layout (start_date end_date : Z) (y_max : Float) : Layout :=
  {| title := Some (SmoothTitle start_date end_date);
     xaxis_title := Some "Date";
     yaxis_title := Some "Value";
     template := Some "plotly_white";
     hovermode := Some "x unified";
     showlegend := Some true;
     plot_bgcolor := Some "white";
     yaxis := Some {| range := (0%Q, y_max); tickmode := "linear";
                      dtick := 2000 |};
     showgrid := Some true |}.

(** Lines 133-144: the two dates, then the loop over the selection. *)
Definition update_graph_loop (models_data : gmap string DataFrame)
    (date_list : list Z) (selected_models : list string)
    (slider_range : list Z) : result (Z * Z * LoopState) :=
  i0 <- getitem slider_range 0 ;;
  start_date <- getitem date_list i0 ;;
  i1 <- getitem slider_range 1 ;;
  end_date <- getitem date_list i1 ;;
  st <- for_each (plot_model models_data start_date end_date)
          selected_models initial_state ;;
  Ok (start_date, end_date, st).

(** Lines 181-222: the layout is only written when [all_values] is not
    empty. *)
Definition finish_figure (start_date end_date : Z) (st : LoopState) : Figure :=
  match all_values st with
  | [] => {| data := fig_data st; layout := empty_layout |}
  | v :: values =>
      {| data := fig_data st;
         layout := scaled_layout start_date end_date (y_max_of v values) |}
  end.

(** The [try] block. *)
Definition update_graph_try (models_data : gmap string DataFrame)
    (date_list : list Z) (selected_models : list string)
    (slider_range : list Z) : result Figure :=
  r <- update_graph_loop models_data date_list selected_models slider_range ;;
  Ok (finish_figure (fst (fst r)) (snd (fst r)) (snd r)).

(** The [except Exception as e] block. *)
Definition error_figure (e : Exception) : Figure :=
  {| data := [];
     layout := {| title := Some (ErrorTitle e); xaxis_title := None;
                  yaxis_title := None; template := None; hovermode := None;
                  showlegend := None; plot_bgcolor := None; yaxis := None;
                  showgrid := None |} |}.

Definition update_graph (models_data : gmap string DataFrame)
    (date_list : list Z) (selected_models : list string)
    (slider_range : list Z) : Figure :=
  match update_graph_try models_data date_list selected_models slider_range with
  | inr fig => fig
  | inl e => error_figure e
  end.

(** The solid line of actual values, as opposed to the dashed lines. *)
Definition is_actual (t : Scatter) : bool :=
  String.eqb (name t) "Actual Values"
  && match dash (line t) with None => true | Some _ => false end.

Definition is_dashed (t : Scatter) : bool :=
  match dash (line t) with Some d => String.eqb d "dash" | None => false end.

(** ** Sample data *)

Definition mk_row (d : Z) (gt pred : option Q) : Row :=
  {| dates := d; groundtruth := gt; predictions := pred;
     predicted_values := None |}.

(** Model A of the worked example: 2024-01-01 and 2024-01-03 are days 19723
    and 19725. *)
Definition csv_A : DataFrame :=
  {| columns := ["dates"; "groundtruth"; "predictions"];
     rows := [mk_row 19723 (Some 100%Q) None; mk_row 19725 None (Some 110%Q)] |}.

Definition csv_B : DataFrame :=
  {| columns := ["dates"; "groundtruth"; "predicted values"];
     rows := [ {| dates := 19724; groundtruth := Some 50%Q;
                  predictions := None; predicted_values := Some 60%Q |};
               {| dates := 19726; groundtruth := Some 70%Q;
                  predictions := None; predicted_values := Some 80%Q |} ] |}.

(** A ground-truth column without a single value. *)
Definition csv_E : DataFrame :=
  {| columns := ["dates"; "groundtruth"; "predictions"];
     rows := [mk_row 19723 None (Some 10%Q); mk_row 19724 None (Some 20%Q)] |}.

(** Ground truth only: no predicted column under either label. *)
Definition csv_G : DataFrame :=
  {| columns := ["dates"; "groundtruth"];
     rows := [mk_row 19723 (Some 5%Q) None; mk_row 19724 (Some 6%Q) None] |}.


(** Two rows on the same day. *)
Definition csv_dup : DataFrame :=
  {| columns := ["dates"; "predictions"];
     rows := [mk_row 19723 None (Some 1%Q); mk_row 19723 None (Some 2%Q);
              mk_row 19724 None (Some 3%Q)] |}.

(** A header line and nothing else. *)
Definition csv_empty : DataFrame :=
  {| columns := ["dates"; "predictions"]; rows := [] |}.

Definition sample_listing : list (string * DataFrame) :=
  [("A.csv", csv_A); ("B.csv", csv_B); ("E.csv", csv_E); ("G.csv", csv_G);
   ("README.md", csv_empty)].

Definition sample_models_data : gmap string DataFrame :=
  match startup "model_data" (Some sample_listing) with
  | inr (models_data, _) => models_data
  | inl _ => ∅
  end.

Definition sample_date_list : list Z :=
  match startup "model_data" (Some sample_listing) with
  | inr (_, date_list) => date_list
  | inl _ => []
  end.

(** The loaded table of a model of the sample store. *)
Definition sample_df (model : string) : DataFrame :=
  match sample_models_data !! model with
  | Some df => df
  | None => {| columns := []; rows := [] |}
  end.

(** The loop state reached on the sample store. *)
Definition sample_state (selected_models : list string) (slider_range : list Z)
  : LoopState :=
  match update_graph_loop sample_models_data sample_date_list
          selected_models slider_range with
  | inr (_, _, st) => st
  | inl _ => initial_state
  end.

(** A prediction of 1e20, and one of 3e17. *)
Definition csv_H : DataFrame :=
  {| columns := ["dates"; "predictions"];
     rows := [mk_row 19723 None (Some (inject_Z (10 ^ 20)))] |}.

(** A parser for the sample texts: 01/01/24 is day 19723. *)
Definition sample_strptime (text : string) : result Z :=
  if String.eqb text "01/01/24" then Ok 19723%Z
  else if String.eqb text "01/02/24" then Ok 19724%Z
  else if String.eqb text "01/03/24" then Ok 19725%Z
  else raise (ValueError "time data does not match format %m/%d/%y").

Definition mk_csv_row (text : option string) (gt pred : option Q) : CsvRow :=
  {| csv_dates := text; csv_groundtruth := gt; csv_predictions := pred;
     csv_predicted_values := None |}.


(** A prediction on the first and on the third day. *)
Definition raw_P : CsvFrame :=
  {| csv_columns := ["dates"; "predictions"];
     csv_rows := [mk_csv_row (Some "01/01/24") None (Some 1%Q);
                  mk_csv_row (Some "01/03/24") None (Some 3%Q)] |}.



(** The first selected model whose table has a [groundtruth] column. *)
Fixpoint first_with_groundtruth (models_data : gmap string DataFrame)
    (selected_models : list string) : option DataFrame :=
  match selected_models with
  | [] => None
  | model :: rest =>
      match models_data !! model with
      | Some df =>
          if has_column "groundtruth" df then Some df
          else first_with_groundtruth models_data rest
      | None => first_with_groundtruth models_data rest
      end
  end.

(** The dashed line a selected model contributes, if it has a predicted
    column. *)
Definition predicted_traces_of (models_data : gmap string DataFrame)
    (start_date end_date : Z) (model : string) : list Scatter :=
  match models_data !! model with
  | Some df =>
      match pred_col_of df with
      | Some pred_col =>
          [predicted_trace model pred_col (df_filter start_date end_date df)]
      | None => []
      end
  | None => []
  end.

(** What a model found in the store adds to the loop state. *)
Definition actual_part (plotted : bool) (df_filtered : DataFrame) : list Scatter :=
  if negb plotted && has_column "groundtruth" df_filtered
  then [actual_trace df_filtered] else [].

Definition actual_values_part (plotted : bool) (df_filtered : DataFrame) : list Q :=
  if negb plotted && has_column "groundtruth" df_filtered
  then dropna (column "groundtruth" df_filtered) else [].

Definition predicted_part (model : string) (df_filtered : DataFrame) : list Scatter :=
  match pred_col_of df_filtered with
  | Some pred_col => [predicted_trace model pred_col df_filtered]
  | None => []
  end.

Definition predicted_values_part (df_filtered : DataFrame) : list Q :=
  match pred_col_of df_filtered with
  | Some pred_col => dropna (column pred_col df_filtered)
  | None => []
  end.

(** ** Further module-level values and widgets *)

(** [all_dates] (line 62): the dates of every stored table. *)
Definition all_dates (models_data : gmap string DataFrame) : list Z :=
  concat (map (fun kv => map dates (rows (snd kv))) (map_to_list models_data)).

(** The [dcc.RangeSlider] of the layout (lines 104-115).  [marks] is a dict:
    when the date list has one day, the second key replaces the first. *)
Record RangeSlider : Type := {
  slider_min : Z;
  slider_max : Z;
  slider_step : Z;
  slider_value : list Z;
  slider_marks : gmap Z Z
}.

Definition date_range_slider (date_list : list Z) (min_date max_date : Z)
  : RangeSlider :=
  let last := (Z.of_nat (length date_list) - 1)%Z in
  {| slider_min := 0;
     slider_max := last;
     slider_step := 1;
     slider_value := [0%Z; last];
     slider_marks := <[last := max_date]> (<[0%Z := min_date]> ∅) |}.

(** ** Vocabulary of the further properties *)

(** The number of nulls a column starts with. *)
Fixpoint leading_nulls (ys : list (option Q)) : nat :=
  match ys with
  | None :: rest => S (leading_nulls rest)
  | _ => O
  end.

(** The number of rows of a table on a given day. *)
Definition count_date (d : Z) (rs : list Row) : nat :=
  length (List.filter (fun r => (dates r =? d)%Z) rs).

(** The days from [lo] to [hi], both included. *)
Definition days (lo hi : Z) : list Z :=
  map (fun i => (lo + Z.of_nat i)%Z) (seq 0 (Z.to_nat (hi - lo + 1))).

(** [old in s]: the string [old] occurs somewhere in [s]. *)
Fixpoint occurs (old s : string) : bool :=
  String.prefix old s
  || match s with
     | EmptyString => false
     | String _ rest => occurs old rest
     end.

(** * Properties *)

(** ** The error monad and the loop *)

Lemma bind_inr {A B : Type} (c : result A) (k : A -> result B) (b : B) :
  bind c k = inr b -> exists a, c = inr a /\ k a = inr b.
Proof. destruct c as [e | a]; simpl; [discriminate | eauto]. Qed.

Lemma bind_inl {A B : Type} (c : result A) (k : A -> result B) (e : Exception) :
  bind c k = inl e -> c = inl e \/ exists a, c = inr a /\ k a = inl e.
Proof. destruct c as [e' | a]; simpl; [intros [= ->]; auto | eauto]. Qed.

(** ** One iteration of the loop *)

Lemma plot_model_found models_data start_date end_date st model df :
  models_data !! model = Some df ->
  let f := df_filter start_date end_date df in
  plot_model models_data start_date end_date st model =
    inr {| fig_data := fig_data st ++ actual_part (ground_truth_plotted st) f
                         ++ predicted_part model f;
           ground_truth_plotted :=
             ground_truth_plotted st || has_column "groundtruth" f;
           all_values := all_values st
                         ++ actual_values_part (ground_truth_plotted st) f
                         ++ predicted_values_part f |}.
Proof.
  intros Hdf f. unfold plot_model. rewrite Hdf. simpl. fold f.
  unfold actual_part, actual_values_part, predicted_part, predicted_values_part.
  destruct st as [tr plotted vals]. simpl.
  destruct plotted, (has_column "groundtruth" f), (pred_col_of f); simpl;
    rewrite ?app_nil_r, <- ?app_assoc; reflexivity.
Qed.

Lemma plot_model_missing models_data start_date end_date st model :
  models_data !! model = None ->
  plot_model models_data start_date end_date st model = inl (KeyError model).
Proof. intros H. unfold plot_model. rewrite H. reflexivity. Qed.

Lemma plot_model_inr models_data start_date end_date st model st' :
  plot_model models_data start_date end_date st model = inr st' ->
  exists df, models_data !! model = Some df.
Proof.
  destruct (models_data !! model) as [df |] eqn:E; [eauto |].
  rewrite plot_model_missing by assumption. discriminate.
Qed.

Lemma has_column_filter c start_date end_date df :
  has_column c (df_filter start_date end_date df) = has_column c df.
Proof. reflexivity. Qed.

Lemma pred_col_of_filter start_date end_date df :
  pred_col_of (df_filter start_date end_date df) = pred_col_of df.
Proof. reflexivity. Qed.

Lemma for_each_plot_ok models_data start_date end_date selected_models :
  Forall (fun m => is_Some (models_data !! m)) selected_models ->
  forall st, exists st',
    for_each (plot_model models_data start_date end_date) selected_models st
      = inr st'.
Proof.
  induction 1 as [| m ms [df Hm] _ IH]; intros st; simpl; [eexists; reflexivity |].
  rewrite (plot_model_found _ _ _ _ _ _ Hm). simpl. apply IH.
Qed.

Lemma for_each_plot_inr models_data start_date end_date selected_models :
  forall st st',
    for_each (plot_model models_data start_date end_date) selected_models st
      = inr st' ->
    Forall (fun m => is_Some (models_data !! m)) selected_models.
Proof.
  induction selected_models as [| m ms IH]; intros st st' H; [constructor |].
  simpl in H. apply bind_inr in H as (st1 & H1 & H2).
  constructor; [| eapply IH; eassumption].
  apply plot_model_inr in H1 as [df ->]. eauto.
Qed.

Lemma update_graph_loop_inr models_data date_list selected_models slider_range
    start_date end_date st :
  update_graph_loop models_data date_list selected_models slider_range
    = inr (start_date, end_date, st) ->
  exists i0 i1,
    getitem slider_range 0 = inr i0 /\ getitem date_list i0 = inr start_date /\
    getitem slider_range 1 = inr i1 /\ getitem date_list i1 = inr end_date /\
    for_each (plot_model models_data start_date end_date) selected_models
      initial_state = inr st.
Proof.
  unfold update_graph_loop. intros H.
  apply bind_inr in H as (i0 & H0 & H). apply bind_inr in H as (s & Hs & H).
  apply bind_inr in H as (i1 & H1 & H). apply bind_inr in H as (e & He & H).
  apply bind_inr in H as (st0 & Hst & H). injection H as -> -> ->.
  exists i0, i1. auto.
Qed.

Lemma update_graph_loop_ok models_data date_list selected_models i0 i1
    start_date end_date :
  getitem date_list i0 = inr start_date ->
  getitem date_list i1 = inr end_date ->
  Forall (fun m => is_Some (models_data !! m)) selected_models ->
  exists st,
    for_each (plot_model models_data start_date end_date) selected_models
      initial_state = inr st /\
    update_graph_loop models_data date_list selected_models [i0; i1]
      = inr (start_date, end_date, st).
Proof.
  intros H0 H1 Hsel.
  destruct (for_each_plot_ok _ start_date end_date _ Hsel initial_state) as [st Hst].
  exists st. split; [assumption |].
  unfold update_graph_loop. change (getitem [i0; i1] 0) with (@inr Exception Z i0).
  change (getitem [i0; i1] 1) with (@inr Exception Z i1).
  simpl. rewrite H0. simpl. rewrite H1. simpl. rewrite Hst. reflexivity.
Qed.

Lemma update_graph_of_loop models_data date_list selected_models slider_range
    start_date end_date st :
  update_graph_loop models_data date_list selected_models slider_range
    = inr (start_date, end_date, st) ->
  update_graph_try models_data date_list selected_models slider_range
    = inr (finish_figure start_date end_date st) /\
  update_graph models_data date_list selected_models slider_range
    = finish_figure start_date end_date st.
Proof.
  intros H. unfold update_graph, update_graph_try. rewrite H. simpl. auto.
Qed.

Lemma data_finish_figure start_date end_date st :
  data (finish_figure start_date end_date st) = fig_data st.
Proof. unfold finish_figure. destruct (all_values st); reflexivity. Qed.

(** ** Solid and dashed traces along the loop *)

Lemma filter_actual_actual_part plotted f :
  List.filter is_actual (actual_part plotted f) = actual_part plotted f.
Proof. unfold actual_part. destruct (negb plotted && has_column "groundtruth" f); reflexivity. Qed.

Lemma filter_actual_predicted_part model f :
  List.filter is_actual (predicted_part model f) = [].
Proof.
  unfold predicted_part. destruct (pred_col_of f); [| reflexivity].
  simpl. unfold is_actual. simpl. rewrite andb_false_r. reflexivity.
Qed.

Lemma filter_dashed_actual_part plotted f :
  List.filter is_dashed (actual_part plotted f) = [].
Proof. unfold actual_part. destruct (negb plotted && has_column "groundtruth" f); reflexivity. Qed.

Lemma filter_dashed_predicted_part model f :
  List.filter is_dashed (predicted_part model f) = predicted_part model f.
Proof. unfold predicted_part. destruct (pred_col_of f); reflexivity. Qed.

(** The solid traces after the loop: those before it, and, unless the flag
    was already set, the one of the first model with a [groundtruth]
    column. *)
Lemma actual_traces_of_loop models_data start_date end_date selected_models :
  forall st st',
    for_each (plot_model models_data start_date end_date) selected_models st
      = inr st' ->
    List.filter is_actual (fig_data st') =
      List.filter is_actual (fig_data st) ++
      (if ground_truth_plotted st then []
       else match first_with_groundtruth models_data selected_models with
            | Some df => [actual_trace (df_filter start_date end_date df)]
            | None => []
            end).
Proof.
  induction selected_models as [| m ms IH]; intros st st' H; simpl in H.
  - injection H as <-. destruct (ground_truth_plotted st); simpl;
      rewrite app_nil_r; reflexivity.
  - apply bind_inr in H as (st1 & H1 & H2).
    destruct (plot_model_inr _ _ _ _ _ _ H1) as [df Hdf].
    rewrite (plot_model_found _ _ _ _ _ _ Hdf) in H1. injection H1 as <-.
    rewrite (IH _ _ H2). simpl. rewrite Hdf.
    rewrite !List.filter_app, filter_actual_actual_part, filter_actual_predicted_part.
    rewrite has_column_filter. unfold actual_part. rewrite has_column_filter.
    destruct (ground_truth_plotted st), (has_column "groundtruth" df); simpl;
      rewrite ?app_nil_r, <- ?app_assoc; reflexivity.
Qed.

Lemma dashed_traces_of_loop models_data start_date end_date selected_models :
  forall st st',
    for_each (plot_model models_data start_date end_date) selected_models st
      = inr st' ->
    List.filter is_dashed (fig_data st') =
      List.filter is_dashed (fig_data st) ++
      flat_map (predicted_traces_of models_data start_date end_date)
        selected_models.
Proof.
  induction selected_models as [| m ms IH]; intros st st' H; simpl in H.
  - injection H as <-. simpl. rewrite app_nil_r. reflexivity.
  - apply bind_inr in H as (st1 & H1 & H2).
    destruct (plot_model_inr _ _ _ _ _ _ H1) as [df Hdf].
    rewrite (plot_model_found _ _ _ _ _ _ Hdf) in H1. injection H1 as <-.
    rewrite (IH _ _ H2). simpl.
    rewrite !List.filter_app, filter_dashed_actual_part, filter_dashed_predicted_part.
    unfold predicted_traces_of at 2. rewrite Hdf.
    unfold predicted_part. rewrite pred_col_of_filter.
    simpl. rewrite <- app_assoc. reflexivity.
Qed.

(** [all_values] only grows, and keeps what every iteration appended. *)
Lemma all_values_grow models_data start_date end_date selected_models :
  forall st st',
    for_each (plot_model models_data start_date end_date) selected_models st
      = inr st' ->
    forall v, In v (all_values st) -> In v (all_values st').
Proof.
  induction selected_models as [| m ms IH]; intros st st' H v Hv; simpl in H.
  - injection H as <-. assumption.
  - apply bind_inr in H as (st1 & H1 & H2).
    destruct (plot_model_inr _ _ _ _ _ _ H1) as [df Hdf].
    rewrite (plot_model_found _ _ _ _ _ _ Hdf) in H1. injection H1 as <-.
    apply (IH _ _ H2). simpl. apply in_or_app. auto.
Qed.

Lemma predicted_values_in_all_values models_data start_date end_date
    selected_models :
  forall st st',
    for_each (plot_model models_data start_date end_date) selected_models st
      = inr st' ->
    forall model df pred_col v,
      In model selected_models ->
      models_data !! model = Some df ->
      pred_col_of df = Some pred_col ->
      In v (dropna (column pred_col (df_filter start_date end_date df))) ->
      In v (all_values st').
Proof.
  induction selected_models as [| m ms IH]; intros st st' H model df c v Hin Hdf Hc Hv;
    [destruct Hin |].
  simpl in H. apply bind_inr in H as (st1 & H1 & H2).
  destruct Hin as [-> | Hin].
  - rewrite (plot_model_found _ _ _ _ _ _ Hdf) in H1. injection H1 as <-.
    apply (all_values_grow _ _ _ _ _ _ H2). simpl.
    apply in_or_app. right. apply in_or_app. right.
    unfold predicted_values_part. rewrite pred_col_of_filter, Hc. assumption.
  - eapply IH; eassumption.
Qed.

(** ** Exceptions inside the [try] block *)

Lemma getitem_inl {A : Type} (l : list A) (i : Z) (e : Exception) :
  getitem l i = inl e -> e = IndexError "list index out of range".
Proof.
  unfold getitem.
  destruct (_ && _); [destruct (l !! _) |]; unfold Ok, raise; congruence.
Qed.

Lemma for_each_plot_inl models_data start_date end_date selected_models :
  forall st e,
    for_each (plot_model models_data start_date end_date) selected_models st
      = inl e ->
    exists model,
      e = KeyError model /\ In model selected_models /\
      models_data !! model = None.
Proof.
  induction selected_models as [| m ms IH]; intros st e H; simpl in H;
    [discriminate |].
  apply bind_inl in H as [H | (st1 & _ & H)].
  - destruct (models_data !! m) as [df |] eqn:Hm.
    + rewrite (plot_model_found _ _ _ _ _ _ Hm) in H. discriminate.
    + rewrite plot_model_missing in H by assumption. injection H as <-.
      exists m. simpl. auto.
  - destruct (IH _ _ H) as (m' & -> & Hin & Hm'). exists m'. simpl. auto.
Qed.

Lemma update_graph_loop_inl models_data date_list selected_models slider_range e :
  update_graph_loop models_data date_list selected_models slider_range = inl e ->
  e = IndexError "list index out of range" \/
  exists model,
    e = KeyError model /\ In model selected_models /\
    models_data !! model = None.
Proof.
  unfold update_graph_loop. intros H.
  apply bind_inl in H as [H | (i0 & _ & H)]; [left; eapply getitem_inl; eassumption |].
  apply bind_inl in H as [H | (s & _ & H)]; [left; eapply getitem_inl; eassumption |].
  apply bind_inl in H as [H | (i1 & _ & H)]; [left; eapply getitem_inl; eassumption |].
  apply bind_inl in H as [H | (e' & _ & H)]; [left; eapply getitem_inl; eassumption |].
  apply bind_inl in H as [H | (st & _ & H)]; [| discriminate].
  right. eapply for_each_plot_inl. eassumption.
Qed.

(** ** Ground truth is drawn at most once *)

(** C7: every figure returned by [update_graph], whatever the store, the
    selection and the slider range, has at most one solid "Actual Values"
    trace, however many of the selected models have ground-truth data. *)
Theorem at_most_one_actual_line (models_data : gmap string DataFrame)
    (date_list : list Z) (selected_models : list string) (slider_range : list Z) :
  (length (List.filter is_actual
     (data (update_graph models_data date_list selected_models slider_range)))
   <= 1)%nat.
Proof.
  unfold update_graph, update_graph_try.
  destruct (update_graph_loop models_data date_list selected_models slider_range)
    as [e | [[s e'] st]] eqn:H; simpl.
  - lia.
  - rewrite data_finish_figure.
    apply update_graph_loop_inr in H as (i0 & i1 & _ & _ & _ & _ & Hloop).
    rewrite (actual_traces_of_loop _ _ _ _ _ _ Hloop). simpl.
    destruct (first_with_groundtruth models_data selected_models); simpl; lia.
Qed.

(** ** The callback never raises *)

Lemma for_each_plot_missing models_data start_date end_date
    (pre : list string) (model : string) (post : list string) :
  Forall (fun m => is_Some (models_data !! m)) pre ->
  models_data !! model = None ->
  forall st,
    for_each (plot_model models_data start_date end_date)
      (pre ++ model :: post) st = inl (KeyError model).
Proof.
  intros Hpre Hmiss. induction Hpre as [| m ms [df Hm] _ IH]; intros st; simpl.
  - rewrite plot_model_missing by assumption. reflexivity.
  - rewrite (plot_model_found _ _ _ _ _ _ Hm). simpl. apply IH.
Qed.

Lemma for_each_plot_inl_first models_data start_date end_date selected_models :
  forall st e,
    for_each (plot_model models_data start_date end_date) selected_models st
      = inl e ->
    exists pre model post,
      selected_models = pre ++ model :: post /\
      Forall (fun m => is_Some (models_data !! m)) pre /\
      models_data !! model = None /\ e = KeyError model.
Proof.
  induction selected_models as [| m ms IH]; intros st e H; simpl in H;
    [discriminate |].
  destruct (models_data !! m) as [df |] eqn:Hm.
  - rewrite (plot_model_found _ _ _ _ _ _ Hm) in H. simpl in H.
    destruct (IH _ _ H) as (pre & model & post & -> & Hpre & Hmiss & ->).
    exists (m :: pre), model, post. split; [reflexivity |].
    split; [constructor; eauto | auto].
  - rewrite plot_model_missing in H by assumption. injection H as <-.
    exists [], m, ms. split; [reflexivity |]. split; [constructor | auto].
Qed.

(** C10: [update_graph] returns a figure on every input, and which one is
    decided by what the [try] block does.  Either the block raises nothing:
    then both slider positions resolve to dates, every selected model is a
    key of [models_data], and the figure is the chart of the loop.  Or the
    block raises an exception: then the figure has no trace and an otherwise
    untouched layout whose title carries that exception, which is the
    [IndexError] of a slider position or the [KeyError] of the first
    selected model that is not a key of [models_data].  In particular, with
    slider positions that resolve, a selection containing a model absent
    from the store yields the figure titled with the [KeyError] of the first
    such model. *)
Theorem update_graph_never_raises (models_data : gmap string DataFrame)
    (date_list : list Z) (selected_models : list string) (slider_range : list Z) :
  ((exists start_date end_date st,
      update_graph_loop models_data date_list selected_models slider_range
        = inr (start_date, end_date, st) /\
      update_graph models_data date_list selected_models slider_range
        = finish_figure start_date end_date st /\
      Forall (fun m => is_Some (models_data !! m)) selected_models) \/
   (exists e,
      update_graph_try models_data date_list selected_models slider_range
        = inl e /\
      update_graph models_data date_list selected_models slider_range
        = {| data := [];
             layout := {| title := Some (ErrorTitle e); xaxis_title := None;
                          yaxis_title := None; template := None;
                          hovermode := None; showlegend := None;
                          plot_bgcolor := None; yaxis := None;
                          showgrid := None |} |} /\
      (e = IndexError "list index out of range" \/
       exists pre model post,
         selected_models = pre ++ model :: post /\
         Forall (fun m => is_Some (models_data !! m)) pre /\
         models_data !! model = None /\ e = KeyError model))) /\
  (forall i0 i1 start_date end_date pre model post,
     slider_range = [i0; i1] ->
     getitem date_list i0 = inr start_date ->
     getitem date_list i1 = inr end_date ->
     selected_models = pre ++ model :: post ->
     Forall (fun m => is_Some (models_data !! m)) pre ->
     models_data !! model = None ->
     update_graph_try models_data date_list selected_models slider_range
       = inl (KeyError model) /\
     data (update_graph models_data date_list selected_models slider_range)
       = [] /\
     title (layout (update_graph models_data date_list selected_models
                      slider_range))
       = Some (ErrorTitle (KeyError model))).
Proof.
  split.
  - unfold update_graph, update_graph_try.
    destruct (update_graph_loop models_data date_list selected_models
                slider_range) as [e | [[s e'] st]] eqn:H; simpl.
    + right. exists e. split; [reflexivity |]. split; [reflexivity |].
      unfold update_graph_loop in H.
      apply bind_inl in H as [H | (i0 & _ & H)];
        [left; eapply getitem_inl; eassumption |].
      apply bind_inl in H as [H | (s & _ & H)];
        [left; eapply getitem_inl; eassumption |].
      apply bind_inl in H as [H | (i1 & _ & H)];
        [left; eapply getitem_inl; eassumption |].
      apply bind_inl in H as [H | (e' & _ & H)];
        [left; eapply getitem_inl; eassumption |].
      apply bind_inl in H as [H | (st & _ & H)]; [| discriminate].
      right. eapply for_each_plot_inl_first. eassumption.
    + left. exists s, e', st. split; [reflexivity |]. split; [reflexivity |].
      apply update_graph_loop_inr in H as (i0 & i1 & _ & _ & _ & _ & Hloop).
      eapply for_each_plot_inr. eassumption.
  - intros i0 i1 s e pre model post -> H0 H1 -> Hpre Hmiss.
    assert (Hloop : update_graph_loop models_data date_list
                      (pre ++ model :: post) [i0; i1] = inl (KeyError model)).
    { unfold update_graph_loop.
      change (getitem [i0; i1] 0) with (@inr Exception Z i0).
      change (getitem [i0; i1] 1) with (@inr Exception Z i1).
      simpl. rewrite H0. simpl. rewrite H1. simpl.
      rewrite (for_each_plot_missing _ _ _ _ _ _ Hpre Hmiss). reflexivity. }
    unfold update_graph, update_graph_try. rewrite Hloop. simpl. auto.
Qed.

Lemma update_graph_never_raises_witness :
  update_graph_try sample_models_data sample_date_list ["A"; "Z"; "B"]
    [0%Z; 1%Z] = inl (KeyError "Z") /\
  data (update_graph sample_models_data sample_date_list ["A"; "Z"; "B"]
          [0%Z; 1%Z]) = [] /\
  title (layout (update_graph sample_models_data sample_date_list
                   ["A"; "Z"; "B"] [0%Z; 1%Z]))
    = Some (ErrorTitle (KeyError "Z")).
Proof.
  apply (proj2 (update_graph_never_raises sample_models_data sample_date_list
                  ["A"; "Z"; "B"] [0%Z; 1%Z])
           0%Z 1%Z 19723%Z 19724%Z ["A"] "Z" ["B"]).
  - reflexivity.
  - vm_compute. reflexivity.
  - vm_compute. reflexivity.
  - reflexivity.
  - repeat constructor. vm_compute. eexists. reflexivity.
  - vm_compute. reflexivity.
Defined.

(** ** Axis scaling *)

Lemma py_max_spec (values : list Q) :
  forall v,
    (v <= py_max v values)%Q /\ In (py_max v values) (v :: values) /\
    forall a, In a values -> (a <= py_max v values)%Q.
Proof.
  induction values as [| b vs IH]; intros v; simpl.
  - split; [apply Qle_refl |]. split; [auto |]. intros a [].
  - unfold py_max. simpl. fold (py_max (if Qle_bool b v then v else b) vs).
    destruct (IH (if Qle_bool b v then v else b)) as (H1 & H2 & H3).
    destruct (Qle_bool b v) eqn:E.
    + apply Qle_bool_iff in E. split; [assumption |]. split.
      * destruct H2 as [H2 | H2]; [left; exact H2 | right; right; exact H2].
      * intros a [<- | Ha]; [eapply Qle_trans; eassumption | auto].
    + assert (Hvb : (v <= b)%Q).
      { destruct (Qlt_le_dec v b) as [Hlt | Hle]; [apply Qlt_le_weak; assumption |].
        apply Qle_bool_iff in Hle. congruence. }
      split; [eapply Qle_trans; eassumption |]. split.
      * destruct H2 as [H2 | H2]; [right; left; exact H2 | right; right; exact H2].
      * intros a [<- | Ha]; [assumption | auto].
Qed.

Lemma floor_step_bounds (m : Q) :
  (m < inject_Z ((Qfloor (m / 2000) + 1) * 2000))%Q /\
  (inject_Z ((Qfloor (m / 2000) + 1) * 2000) - 2000 <= m)%Q.
Proof.
  pose proof (Qlt_floor (m / 2000)) as Hlt.
  pose proof (Qfloor_le (m / 2000)) as Hle.
  set (f := Qfloor (m / 2000)) in *.
  assert (H2000 : (0 < 2000)%Q) by reflexivity.
  assert (Hm : (m / 2000 * 2000 == m)%Q) by field.
  split.
  - rewrite inject_Z_mult. rewrite <- Hm at 1. apply Qmult_lt_r; assumption.
  - assert (E : (inject_Z ((f + 1) * 2000) - 2000 == inject_Z f * 2000)%Q).
    { rewrite inject_Z_mult, inject_Z_plus. change (inject_Z 2000) with 2000%Q.
      change (inject_Z 1) with 1%Q. ring. }
    rewrite E. rewrite <- Hm at 1. apply Qmult_le_r; assumption.
Qed.

(** *** Rounding to binary64 is exact on small whole numbers *)

Lemma round_half_even_1 (n : Z) : round_half_even n 1 = n.
Proof.
  unfold round_half_even. rewrite Z.mod_1_r, Z.div_1_r. reflexivity.
Qed.

Lemma exponent_of_1 (p : positive) : exponent_of p 1 = Z.log2 (Zpos p).
Proof.
  unfold exponent_of. change (Z.log2 1) with 0%Z. rewrite Z.sub_0_r.
  pose proof (Z.log2_nonneg (Zpos p)) as H0.
  pose proof (Z.log2_spec (Zpos p) ltac:(lia)) as [Hlo _].
  rewrite (Z.max_l 0 (- Z.log2 (Zpos p))) by lia.
  rewrite (Z.max_r 0 (Z.log2 (Zpos p))) by lia.
  replace (Zpos p * 2 ^ 0 <? 1 * 2 ^ Z.log2 (Zpos p))%Z with false;
    [reflexivity |].
  symmetry. apply Z.ltb_ge. lia.
Qed.

Lemma scale2_exact (n k : Z) :
  (0 <= k)%Z -> (scale2 (n * 2 ^ k) (- k) == inject_Z n)%Q.
Proof.
  intros Hk. unfold scale2.
  destruct (0 <=? - k)%Z eqn:E.
  - apply Z.leb_le in E. assert (k = 0%Z) by lia. subst k.
    change (- 0)%Z with 0%Z. change (2 ^ 0)%Z with 1%Z.
    rewrite !Z.mul_1_r. reflexivity.
  - rewrite Z.opp_involutive. unfold Qeq. simpl.
    rewrite Z2Pos.id by (apply Z.pow_pos_nonneg; lia). lia.
Qed.

Lemma round_pos_int (negative : bool) (p : positive) :
  (Zpos p < 2 ^ 53)%Z ->
  round_pos negative p 1 =
    Finite (inject_Z (if negative then Zneg p else Zpos p)).
Proof.
  intros Hp. unfold round_pos. rewrite exponent_of_1.
  pose proof (Z.log2_nonneg (Zpos p)) as H0.
  assert (He : (Z.log2 (Zpos p) < 53)%Z)
    by (apply Z.log2_lt_pow2; lia).
  set (e := Z.log2 (Zpos p)) in *.
  rewrite (Z.max_l (e - 52) (-1074)) by lia.
  set (k := (52 - e)%Z).
  assert (Hk : (0 <= k)%Z) by (unfold k; lia).
  replace (e - 52)%Z with (- k)%Z by (unfold k; lia).
  assert (Hm : (if (0 <=? - k)%Z
                then round_half_even (Zpos p) (1 * 2 ^ (- k))
                else round_half_even (Zpos p * 2 ^ (- - k)) 1)
               = (Zpos p * 2 ^ k)%Z).
  { destruct (0 <=? - k)%Z eqn:E.
    - apply Z.leb_le in E. assert (E0 : k = 0%Z) by lia. rewrite E0. simpl.
      rewrite round_half_even_1. lia.
    - rewrite Z.opp_involutive. apply round_half_even_1. }
  rewrite Hm.
  assert (Hov : (0 <=? - k)%Z && (2 ^ 1024 <=? Zpos p * 2 ^ k * 2 ^ (- k))%Z = false).
  { destruct (0 <=? - k)%Z eqn:E; [| reflexivity].
    apply Z.leb_le in E. assert (E0 : k = 0%Z) by lia. rewrite E0. simpl.
    apply Z.leb_gt. rewrite !Z.mul_1_r.
    assert (2 ^ 53 < 2 ^ 1024)%Z by (apply Z.pow_lt_mono_r; lia). lia. }
  rewrite Hov. f_equal.
  rewrite <- inject_Z_Qred. apply Qred_complete.
  destruct negative.
  - rewrite (scale2_exact (Zpos p) k Hk). reflexivity.
  - apply scale2_exact. assumption.
Qed.

Lemma round64_int (z : Z) :
  (Z.abs z < 2 ^ 53)%Z -> round64 (inject_Z z) = Finite (inject_Z z).
Proof.
  intros Hz. unfold round64. rewrite inject_Z_Qred. simpl.
  destruct z as [| p | p]; [reflexivity | |].
  - apply (round_pos_int false). lia.
  - apply (round_pos_int true). lia.
Qed.

Lemma round64_comp (x y : Q) : (x == y)%Q -> round64 x = round64 y.
Proof. intros H. unfold round64. rewrite (Qred_complete x y H). reflexivity. Qed.

Lemma round64_exact (x : Q) (z : Z) :
  (x == inject_Z z)%Q -> (Z.abs z < 2 ^ 53)%Z ->
  round64 x = Finite (inject_Z z).
Proof. intros H Hz. rewrite (round64_comp _ _ H). apply round64_int. exact Hz. Qed.

Lemma Qfloor_unique (x : Q) (k : Z) :
  (inject_Z k <= x)%Q -> (x < inject_Z (k + 1))%Q -> Qfloor x = k.
Proof.
  intros Hle Hlt.
  pose proof (Qfloor_le x) as H1. pose proof (Qlt_floor x) as H2.
  assert (Qfloor x < k + 1)%Z
    by (rewrite Zlt_Qlt; eapply Qle_lt_trans; eassumption).
  assert (k < Qfloor x + 1)%Z
    by (rewrite Zlt_Qlt; eapply Qle_lt_trans; eassumption).
  lia.
Qed.

Lemma Qmult_2000_le (a m : Q) :
  (a <= m / 2000)%Q <-> (a * 2000 <= m)%Q.
Proof.
  assert (Hm : (m / 2000 * 2000 == m)%Q) by field.
  rewrite <- Hm at 2. symmetry. apply Qmult_le_r. reflexivity.
Qed.

Lemma Qmult_2000_lt (a m : Q) :
  (m / 2000 < a)%Q <-> (m < a * 2000)%Q.
Proof.
  assert (Hm : (m / 2000 * 2000 == m)%Q) by field.
  rewrite <- Hm at 2. symmetry. apply Qmult_lt_r. reflexivity.
Qed.

(** On values of magnitude at most [2^52] the floor division by 2000 is the
    exact one. *)
Lemma float_floordiv_exact (m : Q) :
  (- inject_Z (2 ^ 52) <= m)%Q -> (m <= inject_Z (2 ^ 52))%Q ->
  float_floordiv m 2000 = Finite (inject_Z (Qfloor (m / 2000))).
Proof.
  intros Hlo Hhi.
  set (x := (m / 2000)%Q). set (f := Qfloor x).
  assert (Hf1 : (inject_Z f <= x)%Q) by apply Qfloor_le.
  assert (Hf2 : (x < inject_Z (f + 1))%Q) by apply Qlt_floor.
  assert (Hfz1 : (f * 2000 <= 2 ^ 52)%Z).
  { rewrite Zle_Qle, inject_Z_mult. eapply Qle_trans; [| exact Hhi].
    apply Qmult_2000_le. exact Hf1. }
  assert (Hfz2 : (- 2 ^ 52 < (f + 1) * 2000)%Z).
  { rewrite Zlt_Qlt, inject_Z_mult, inject_Z_opp.
    eapply Qle_lt_trans; [exact Hlo |]. apply Qmult_2000_lt. exact Hf2. }
  unfold float_floordiv, fmod. fold x.
  set (t := if Qle_bool 0 x then Qfloor x else Qceiling x).
  set (mod_ := (m - inject_Z t * 2000)%Q).
  assert (Hcase : (t = f /\ (0 <= mod_)%Q) \/ (t = (f + 1)%Z /\ (mod_ < 0)%Q)).
  { unfold t, mod_. destruct (Qle_bool 0 x) eqn:E.
    - left. split; [reflexivity |]. fold f.
      apply Qmult_2000_le in Hf1.
      unfold Qminus. rewrite <- (Qplus_opp_r (inject_Z f * 2000)).
      apply Qplus_le_l. exact Hf1.
    - assert (Hc1 : (x <= inject_Z (Qceiling x))%Q) by apply Qle_ceiling.
      assert (Hc2 : (inject_Z (Qceiling x - 1) < x)%Q) by apply Qceiling_lt.
      destruct (Qlt_le_dec x (inject_Z (Qceiling x))) as [Hlt | Hge].
      + right. assert (Hfc : f = (Qceiling x - 1)%Z).
        { apply Qfloor_unique; [apply Qlt_le_weak; exact Hc2 |].
          replace (Qceiling x - 1 + 1)%Z with (Qceiling x) by lia. exact Hlt. }
        split; [lia |].
        apply Qmult_2000_lt in Hlt.
        unfold Qminus. rewrite <- (Qplus_opp_r (inject_Z (Qceiling x) * 2000)).
        apply Qplus_lt_l. exact Hlt.
      + left. assert (Hfc : f = Qceiling x).
        { apply Qfloor_unique; [exact Hge |].
          eapply Qle_lt_trans; [exact Hc1 |]. rewrite <- Zlt_Qlt. lia. }
        split; [symmetry; exact Hfc |].
        apply Qmult_2000_le in Hge.
        unfold Qminus. rewrite <- (Qplus_opp_r (inject_Z (Qceiling x) * 2000)).
        apply Qplus_le_l. exact Hge. }
  assert (Hp52 : (2 ^ 52 + 2000 < 2 ^ 53)%Z) by (vm_compute; reflexivity).
  assert (Ht : (Z.abs (t * 2000) < 2 ^ 53)%Z) by (destruct Hcase as [[-> _] | [-> _]]; lia).
  assert (Ha : round64 (m - mod_) = Finite (inject_Z (t * 2000))).
  { apply round64_exact; [| exact Ht]. unfold mod_. rewrite inject_Z_mult.
    change (inject_Z 2000) with 2000%Q. ring. }
  rewrite Ha. cbn [float_bind].
  assert (Hd : round64 (inject_Z (t * 2000) / 2000) = Finite (inject_Z t)).
  { apply round64_exact; [| lia]. rewrite inject_Z_mult.
    change (inject_Z 2000) with 2000%Q. field. }
  rewrite Hd. cbn [float_bind].
  change (Qle_bool 0 2000) with true. cbn [negb].
  assert (Hdiv : (if negb (Qeq_bool mod_ 0)
                     && negb (Bool.eqb false (negb (Qle_bool 0 mod_)))
                  then round64 (inject_Z t - 1) else Finite (inject_Z t))
                 = Finite (inject_Z f)).
  { destruct Hcase as [[-> Hm] | [-> Hm]].
    - apply Qle_bool_iff in Hm. rewrite Hm. cbn [negb Bool.eqb].
      rewrite andb_false_r. reflexivity.
    - assert (E1 : Qle_bool 0 mod_ = false).
      { destruct (Qle_bool 0 mod_) eqn:E; [| reflexivity].
        apply Qle_bool_iff in E. exfalso. eapply Qlt_irrefl.
        eapply Qlt_le_trans; eassumption. }
      assert (E2 : Qeq_bool mod_ 0 = false).
      { destruct (Qeq_bool mod_ 0) eqn:E; [| reflexivity].
        apply Qeq_bool_iff in E. rewrite E in Hm. discriminate Hm. }
      rewrite E1, E2. cbn [negb andb Bool.eqb].
      apply (round64_exact _ f); [| lia].
      rewrite inject_Z_plus. change (inject_Z 1) with 1%Q. ring. }
  rewrite Hdiv. cbn [float_bind].
  destruct (Qeq_bool (inject_Z f) 0) eqn:E0.
  - apply Qeq_bool_iff in E0. f_equal.
    assert (f = 0%Z).
    { unfold Qeq in E0. simpl in E0. lia. }
    subst f. rewrite H. reflexivity.
  - rewrite Qfloor_Z.
    rewrite (round64_exact (inject_Z f - inject_Z f) 0) by (ring || (vm_compute; reflexivity)).
    cbn. reflexivity.
Qed.

Lemma y_max_float_exact (m : Q) :
  (- inject_Z (2 ^ 52) <= m)%Q -> (m <= inject_Z (2 ^ 52))%Q ->
  y_max_float m = Finite (inject_Z ((Qfloor (m / 2000) + 1) * 2000)).
Proof.
  intros Hlo Hhi. unfold y_max_float.
  assert (Hr : (Qred m == m)%Q) by apply Qred_correct.
  rewrite float_floordiv_exact by (rewrite Hr; assumption).
  assert (Hx : (Qred m / 2000 == m / 2000)%Q) by (rewrite Hr; reflexivity).
  rewrite (Qfloor_comp _ _ Hx).
  set (x := (m / 2000)%Q). set (f := Qfloor x).
  assert (Hf1 : (inject_Z f <= x)%Q) by apply Qfloor_le.
  assert (Hf2 : (x < inject_Z (f + 1))%Q) by apply Qlt_floor.
  assert (Hfz1 : (f * 2000 <= 2 ^ 52)%Z).
  { rewrite Zle_Qle, inject_Z_mult. eapply Qle_trans; [| exact Hhi].
    apply Qmult_2000_le. exact Hf1. }
  assert (Hfz2 : (- 2 ^ 52 < (f + 1) * 2000)%Z).
  { rewrite Zlt_Qlt, inject_Z_mult, inject_Z_opp.
    eapply Qle_lt_trans; [exact Hlo |]. apply Qmult_2000_lt. exact Hf2. }
  assert (Hp52 : (2 ^ 52 + 2000 < 2 ^ 53)%Z) by (vm_compute; reflexivity).
  cbn [float_bind].
  rewrite (round64_exact (inject_Z f + 1) (f + 1))
    by (lia || (rewrite inject_Z_plus; reflexivity)).
  cbn [float_bind].
  apply round64_exact; [| lia].
  rewrite inject_Z_mult. reflexivity.
Qed.

Lemma y_max_float_comp (m m' : Q) : (m == m')%Q -> y_max_float m = y_max_float m'.
Proof.
  intros H. unfold y_max_float. rewrite (Qred_complete m m' H). reflexivity.
Qed.

(** C4 (as the code has it): whenever [all_values] is non-empty after the
    loop, the figure has a y axis with range [[0, y_max]] and tick step 2000.
    When the maximum of [all_values] has magnitude at most [2^52], no
    operation of [((max(all_values) // 2000) + 1) * 2000] rounds: [y_max] is
    then the exact value, a multiple of 2000, strictly greater than the
    maximum (hence than every plotted value) and at most 2000 above it.  A
    maximum of 1999 gives 2000 and a maximum of 2000 gives 4000. *)
Theorem axis_scaling (models_data : gmap string DataFrame) (date_list : list Z)
    (selected_models : list string) (slider_range : list Z)
    (start_date end_date : Z) (st : LoopState) :
  update_graph_loop models_data date_list selected_models slider_range
    = inr (start_date, end_date, st) ->
  all_values st <> [] ->
  exists m y_max,
    In m (all_values st) /\
    (forall v, In v (all_values st) -> (v <= m)%Q) /\
    yaxis (layout (update_graph models_data date_list selected_models
                     slider_range))
      = Some {| range := (0%Q, y_max); tickmode := "linear"; dtick := 2000 |} /\
    ((- inject_Z (2 ^ 52) <= m)%Q -> (m <= inject_Z (2 ^ 52))%Q ->
     exists q,
       y_max = Finite q /\
       q = inject_Z ((Qfloor (m / 2000) + 1) * 2000) /\
       (exists k, q = inject_Z (2000 * k)) /\
       (m < q)%Q /\
       (q - 2000 <= m)%Q /\
       (forall v, In v (all_values st) -> (v < q)%Q)) /\
    ((m == 1999)%Q -> y_max = Finite 2000%Q) /\
    ((m == 2000)%Q -> y_max = Finite 4000%Q).
Proof.
  intros Hloop Hne.
  destruct (update_graph_of_loop _ _ _ _ _ _ _ Hloop) as [_ ->].
  unfold finish_figure.
  destruct (all_values st) as [| v values] eqn:Hall; [congruence |].
  destruct (py_max_spec values v) as (Hv & Hin & Hge).
  exists (py_max v values), (y_max_of v values).
  assert (Hmax : forall a, In a (v :: values) -> (a <= py_max v values)%Q).
  { intros a [<- | Ha]; auto. }
  split; [assumption |]. split; [assumption |].
  split; [reflexivity |]. split; [| split].
  - intros Hlo Hhi.
    destruct (floor_step_bounds (py_max v values)) as [Hlt Hle].
    eexists. split; [apply y_max_float_exact; assumption |].
    split; [reflexivity |]. split; [| split; [| split]].
    + exists (Qfloor (py_max v values / 2000) + 1)%Z. f_equal. lia.
    + exact Hlt.
    + exact Hle.
    + intros a Ha. eapply Qle_lt_trans; [apply Hmax; assumption | exact Hlt].
  - intros E. unfold y_max_of. rewrite (y_max_float_comp _ _ E).
    vm_compute. reflexivity.
  - intros E. unfold y_max_of. rewrite (y_max_float_comp _ _ E).
    vm_compute. reflexivity.
Qed.

Lemma axis_scaling_witness :
  exists m y_max,
    In m (all_values (sample_state ["A"] [0%Z; 2%Z])) /\
    (forall v, In v (all_values (sample_state ["A"] [0%Z; 2%Z])) -> (v <= m)%Q) /\
    yaxis (layout (update_graph sample_models_data sample_date_list ["A"]
                     [0%Z; 2%Z]))
      = Some {| range := (0%Q, y_max); tickmode := "linear"; dtick := 2000 |} /\
    ((- inject_Z (2 ^ 52) <= m)%Q -> (m <= inject_Z (2 ^ 52))%Q ->
     exists q,
       y_max = Finite q /\
       q = inject_Z ((Qfloor (m / 2000) + 1) * 2000) /\
       (exists k, q = inject_Z (2000 * k)) /\
       (m < q)%Q /\
       (q - 2000 <= m)%Q /\
       (forall v,
          In v (all_values (sample_state ["A"] [0%Z; 2%Z])) -> (v < q)%Q)) /\
    ((m == 1999)%Q -> y_max = Finite 2000%Q) /\
    ((m == 2000)%Q -> y_max = Finite 4000%Q).
Proof.
  apply (axis_scaling sample_models_data sample_date_list ["A"] [0%Z; 2%Z]
           19723 19725).
  - vm_compute. reflexivity.
  - vm_compute. discriminate.
Defined.

(** C4, counterexample to the claim as stated: a model whose only prediction
    is 1e20.  The maximum of [all_values] is 1e20; in binary64
    [1e20 // 2000] is 5e16, [5e16 + 1] rounds back to 5e16, and the upper
    bound of the y axis is 1e20 itself: not strictly greater than the
    maximum.  For a maximum of 3e17 the bound is 300000000000001984, which
    is not a multiple of 2000. *)
Lemma large_values_break_axis_bound :
  exists models_data date_list st,
    startup "model_data" (Some [("H.csv", csv_H)])
      = inr (models_data, date_list) /\
    update_graph_loop models_data date_list ["H"] [0%Z; 0%Z]
      = inr (19723%Z, 19723%Z, st) /\
    all_values st = [inject_Z (10 ^ 20)] /\
    yaxis (layout (update_graph models_data date_list ["H"] [0%Z; 0%Z]))
      = Some {| range := (0%Q, Finite (inject_Z (10 ^ 20)));
                tickmode := "linear"; dtick := 2000 |} /\
    ~ (inject_Z (10 ^ 20) < inject_Z (10 ^ 20))%Q /\
    y_max_float (inject_Z (3 * 10 ^ 17))
      = Finite (inject_Z 300000000000001984) /\
    (300000000000001984 mod 2000 = 1984)%Z.
Proof.
  do 3 eexists.
  split; [vm_compute; reflexivity |]. split; [vm_compute; reflexivity |].
  split; [vm_compute; reflexivity |]. split; [vm_compute; reflexivity |].
  split; [apply Qlt_irrefl |]. split; vm_compute; reflexivity.
Qed.

(** ** Slider indices *)

Lemma getitem_out_of_range {A : Type} (l : list A) (i : Z) :
  ~ (- Z.of_nat (length l) <= i < Z.of_nat (length l))%Z ->
  getitem l i = inl (IndexError "list index out of range").
Proof.
  intros H. unfold getitem.
  destruct (i <? 0)%Z eqn:Hneg;
    [apply Z.ltb_lt in Hneg | apply Z.ltb_ge in Hneg].
  - destruct (0 <=? i + Z.of_nat (length l))%Z eqn:H0; simpl.
    + apply Z.leb_le in H0. lia.
    + reflexivity.
  - destruct (0 <=? i)%Z eqn:H0; simpl; [| reflexivity].
    destruct (i <? Z.of_nat (length l))%Z eqn:H1; [| reflexivity].
    apply Z.ltb_lt in H1. lia.
Qed.

Lemma getitem_in_range {A : Type} (l : list A) (i : Z) :
  (- Z.of_nat (length l) <= i < Z.of_nat (length l))%Z ->
  exists a,
    getitem l i = inr a /\
    l !! Z.to_nat (i mod Z.of_nat (length l)) = Some a.
Proof.
  intros H. unfold getitem.
  set (n := Z.of_nat (length l)) in *.
  set (j := if (i <? 0)%Z then (i + n)%Z else i).
  assert (Hj : (0 <= j < n)%Z).
  { unfold j. destruct (i <? 0)%Z eqn:Hneg;
      [apply Z.ltb_lt in Hneg | apply Z.ltb_ge in Hneg]; lia. }
  assert (Hmod : (i mod n = j)%Z).
  { unfold j. destruct (i <? 0)%Z eqn:Hneg;
      [apply Z.ltb_lt in Hneg | apply Z.ltb_ge in Hneg].
    - symmetry. apply (Z.mod_unique i n (-1) (i + n)); lia.
    - apply Z.mod_small. lia. }
  rewrite Hmod.
  replace ((0 <=? j)%Z && (j <? n)%Z) with true
    by (symmetry; apply andb_true_iff; split;
        [apply Z.leb_le | apply Z.ltb_lt]; lia).
  destruct (l !! Z.to_nat j) as [a |] eqn:Hl; [eauto |].
  apply lookup_ge_None in Hl. unfold n in Hj. lia.
Qed.

Lemma getitem_inr {A : Type} (l : list A) (i : Z) (a : A) :
  getitem l i = inr a ->
  (- Z.of_nat (length l) <= i < Z.of_nat (length l))%Z.
Proof.
  intros H.
  destruct (decide (- Z.of_nat (length l) <= i < Z.of_nat (length l))%Z)
    as [Hin | Hout]; [assumption |].
  rewrite (getitem_out_of_range l i Hout) in H. discriminate.
Qed.

(** ** Nothing to scale *)

(** C8 (as the code has it): when the loop ends with an empty [all_values],
    the [try] block returns, without raising, the figure made of the traces
    added so far and an untouched layout: no y axis is configured and no
    title is set either.  With an empty selection and slider positions that
    resolve to dates, that figure has no trace at all. *)
Theorem empty_all_values_untouched_layout :
  (forall (models_data : gmap string DataFrame) (date_list : list Z)
          (selected_models : list string) (slider_range : list Z)
          (start_date end_date : Z) (st : LoopState),
     update_graph_loop models_data date_list selected_models slider_range
       = inr (start_date, end_date, st) ->
     all_values st = [] ->
     update_graph_try models_data date_list selected_models slider_range
       = inr {| data := fig_data st; layout := empty_layout |} /\
     update_graph models_data date_list selected_models slider_range
       = {| data := fig_data st; layout := empty_layout |} /\
     yaxis (layout (update_graph models_data date_list selected_models
                      slider_range)) = None /\
     title (layout (update_graph models_data date_list selected_models
                      slider_range)) = None) /\
  (forall (models_data : gmap string DataFrame) (date_list : list Z)
          (i0 i1 start_date end_date : Z),
     getitem date_list i0 = inr start_date ->
     getitem date_list i1 = inr end_date ->
     update_graph_try models_data date_list [] [i0; i1]
       = inr {| data := []; layout := empty_layout |} /\
     update_graph models_data date_list [] [i0; i1]
       = {| data := []; layout := empty_layout |}).
Proof.
  split.
  - intros md dl sel sr s e st Hloop Hall.
    destruct (update_graph_of_loop _ _ _ _ _ _ _ Hloop) as [Htry Hfig].
    rewrite Htry, Hfig. unfold finish_figure. rewrite Hall. auto.
  - intros md dl i0 i1 s e H0 H1.
    destruct (update_graph_loop_ok md dl [] i0 i1 s e H0 H1 (List.Forall_nil _))
      as (st & Hst & Hloop).
    simpl in Hst. injection Hst as <-.
    destruct (update_graph_of_loop _ _ _ _ _ _ _ Hloop) as [Htry Hfig].
    rewrite Htry, Hfig. auto.
Qed.

Lemma empty_all_values_untouched_layout_witness :
  (update_graph_try sample_models_data sample_date_list ["A"] [3%Z; 3%Z]
     = inr {| data := fig_data (sample_state ["A"] [3%Z; 3%Z]);
              layout := empty_layout |} /\
   update_graph sample_models_data sample_date_list ["A"] [3%Z; 3%Z]
     = {| data := fig_data (sample_state ["A"] [3%Z; 3%Z]);
          layout := empty_layout |} /\
   yaxis (layout (update_graph sample_models_data sample_date_list ["A"]
                    [3%Z; 3%Z])) = None /\
   title (layout (update_graph sample_models_data sample_date_list ["A"]
                    [3%Z; 3%Z])) = None) /\
  (update_graph_try sample_models_data sample_date_list [] [0%Z; 2%Z]
     = inr {| data := []; layout := empty_layout |} /\
   update_graph sample_models_data sample_date_list [] [0%Z; 2%Z]
     = {| data := []; layout := empty_layout |}).
Proof.
  split.
  - apply (proj1 empty_all_values_untouched_layout sample_models_data
             sample_date_list ["A"] [3%Z; 3%Z] 19726%Z 19726%Z).
    + vm_compute. reflexivity.
    + vm_compute. reflexivity.
  - apply (proj2 empty_all_values_untouched_layout sample_models_data
             sample_date_list 0%Z 2%Z 19723%Z 19725%Z).
    + vm_compute. reflexivity.
    + vm_compute. reflexivity.
Defined.

(** C8, counterexample to the claim as stated: on the sample store, the empty
    selection over the window of days 19723 to 19725 ends the loop without
    error and with an empty [all_values], and the returned figure has no
    title: in particular its title is not the one of the date window. *)
Lemma empty_selection_has_no_title :
  update_graph_loop sample_models_data sample_date_list [] [0%Z; 2%Z]
    = inr (19723%Z, 19725%Z, initial_state) /\
  all_values initial_state = [] /\
  title (layout (update_graph sample_models_data sample_date_list []
                   [0%Z; 2%Z])) = None /\
  title (layout (update_graph sample_models_data sample_date_list []
                   [0%Z; 2%Z])) <> Some (SmoothTitle 19723 19725).
Proof.
  assert (H : update_graph_loop sample_models_data sample_date_list []
                [0%Z; 2%Z] = inr (19723%Z, 19725%Z, initial_state))
    by (vm_compute; reflexivity).
  split; [exact H |]. split; [reflexivity |].
  destruct (update_graph_of_loop _ _ _ _ _ _ _ H) as [_ ->].
  split; [reflexivity | discriminate].
Qed.

(** ** Slider indices outside the date list *)

(** C9 (as the code has it): when one of the two slider indices is not a
    valid Python index of [date_list], that is lies outside
    [[-len(date_list), len(date_list) - 1]], the [IndexError] is caught and
    [update_graph] returns the trace-less error figure whose title carries
    "list index out of range", whatever the selection.  An index inside that
    interval, negative or not, is not an error: it resolves to the date at
    position [i mod len(date_list)]. *)
Theorem out_of_range_index_gives_error_figure :
  (forall (models_data : gmap string DataFrame) (date_list : list Z)
          (selected_models : list string) (i0 i1 : Z),
     ~ (- Z.of_nat (length date_list) <= i0 < Z.of_nat (length date_list))%Z \/
     ~ (- Z.of_nat (length date_list) <= i1 < Z.of_nat (length date_list))%Z ->
     update_graph models_data date_list selected_models [i0; i1]
       = error_figure (IndexError "list index out of range") /\
     data (update_graph models_data date_list selected_models [i0; i1]) = [] /\
     title (layout (update_graph models_data date_list selected_models [i0; i1]))
       = Some (ErrorTitle (IndexError "list index out of range"))) /\
  (forall (date_list : list Z) (i : Z),
     (- Z.of_nat (length date_list) <= i < Z.of_nat (length date_list))%Z ->
     exists d,
       getitem date_list i = inr d /\
       date_list !! Z.to_nat (i mod Z.of_nat (length date_list)) = Some d).
Proof.
  split.
  - intros md dl sel i0 i1 Hout.
    assert (Hloop : update_graph_loop md dl sel [i0; i1]
                    = inl (IndexError "list index out of range")).
    { unfold update_graph_loop.
      change (getitem [i0; i1] 0) with (@inr Exception Z i0).
      change (getitem [i0; i1] 1) with (@inr Exception Z i1).
      simpl.
      destruct (getitem dl i0) as [e | s] eqn:H0; simpl.
      - apply getitem_inl in H0. congruence.
      - destruct (getitem dl i1) as [e | e'] eqn:H1; simpl.
        + apply getitem_inl in H1. congruence.
        + apply getitem_inr in H0. apply getitem_inr in H1. tauto. }
    unfold update_graph, update_graph_try. rewrite Hloop. simpl. auto.
  - intros dl i H. apply getitem_in_range. assumption.
Qed.

Lemma out_of_range_index_gives_error_figure_witness :
  (update_graph sample_models_data sample_date_list ["A"] [0%Z; 4%Z]
     = error_figure (IndexError "list index out of range") /\
   data (update_graph sample_models_data sample_date_list ["A"] [0%Z; 4%Z])
     = [] /\
   title (layout (update_graph sample_models_data sample_date_list ["A"]
                    [0%Z; 4%Z]))
     = Some (ErrorTitle (IndexError "list index out of range"))) /\
  (exists d,
     getitem sample_date_list (-1)%Z = inr d /\
     sample_date_list
       !! Z.to_nat ((-1) mod Z.of_nat (length sample_date_list)) = Some d).
Proof.
  assert (Hlen : length sample_date_list = 4%nat) by (vm_compute; reflexivity).
  split.
  - apply (proj1 out_of_range_index_gives_error_figure sample_models_data
             sample_date_list ["A"] 0%Z 4%Z).
    right. rewrite Hlen. lia.
  - apply (proj2 out_of_range_index_gives_error_figure sample_date_list (-1)%Z).
    rewrite Hlen. lia.
Defined.

(** C9, counterexample to the claim as stated: on the sample store, whose
    date list has four days, the slider range [[-4, -1]] breaks
    [0 <= startIndex] yet raises nothing: the figure is the ordinary chart of
    the whole window, not an error figure. *)
Lemma negative_index_is_not_an_error :
  length sample_date_list = 4%nat /\
  title (layout (update_graph sample_models_data sample_date_list ["A"]
                   [(-4)%Z; (-1)%Z]))
    = Some (SmoothTitle 19723 19726) /\
  length (data (update_graph sample_models_data sample_date_list ["A"]
                  [(-4)%Z; (-1)%Z])) = 2%nat /\
  forall e,
    update_graph sample_models_data sample_date_list ["A"] [(-4)%Z; (-1)%Z]
      <> error_figure e.
Proof.
  assert (H : exists st,
             update_graph_loop sample_models_data sample_date_list ["A"]
               [(-4)%Z; (-1)%Z] = inr (19723%Z, 19726%Z, st) /\
             length (fig_data st) = 2%nat /\ all_values st <> [])
    by (eexists; split; [vm_compute; reflexivity | split; [reflexivity | discriminate]]).
  destruct H as (st & Hloop & Hlen & Hne).
  destruct (update_graph_of_loop _ _ _ _ _ _ _ Hloop) as [_ ->].
  split; [vm_compute; reflexivity |].
  unfold finish_figure. destruct (all_values st) as [| v vs]; [congruence |].
  simpl. split; [reflexivity |]. split; [assumption |].
  intros e. unfold error_figure. intros H. discriminate H.
Qed.

(** ** The solid line of actual values *)

(** C1 (as the code has it): in one iteration, the solid line is added
    exactly when [ground_truth_plotted] is still false and the table of the
    model has a [groundtruth] column, whether or not a value of that column
    in the window is non-null; the line then carries the [groundtruth] cell
    of every filtered row, nulls included, its non-null values are appended
    to [all_values], and the flag is set.  Over the whole selection the solid
    line therefore comes from the first selected model, in selection order,
    whose table has a [groundtruth] column. *)
Theorem ground_truth_line_rule :
  (forall (models_data : gmap string DataFrame) (start_date end_date : Z)
          (st : LoopState) (model : string) (df : DataFrame),
     models_data !! model = Some df ->
     exists st',
       plot_model models_data start_date end_date st model = inr st' /\
       if negb (ground_truth_plotted st) && has_column "groundtruth" df
       then
         List.filter is_actual (fig_data st') =
           List.filter is_actual (fig_data st)
             ++ [actual_trace (df_filter start_date end_date df)] /\
         y (actual_trace (df_filter start_date end_date df)) =
           map groundtruth (rows (df_filter start_date end_date df)) /\
         (exists more,
            all_values st' =
              all_values st
                ++ dropna (map groundtruth
                             (rows (df_filter start_date end_date df)))
                ++ more) /\
         ground_truth_plotted st' = true
       else
         List.filter is_actual (fig_data st') =
           List.filter is_actual (fig_data st) /\
         ground_truth_plotted st' = ground_truth_plotted st) /\
  (forall (models_data : gmap string DataFrame) (date_list : list Z)
          (selected_models : list string) (i0 i1 start_date end_date : Z),
     getitem date_list i0 = inr start_date ->
     getitem date_list i1 = inr end_date ->
     Forall (fun m => is_Some (models_data !! m)) selected_models ->
     exists st,
       update_graph_loop models_data date_list selected_models [i0; i1]
         = inr (start_date, end_date, st) /\
       List.filter is_actual
         (data (update_graph models_data date_list selected_models [i0; i1])) =
         match first_with_groundtruth models_data selected_models with
         | Some df => [actual_trace (df_filter start_date end_date df)]
         | None => []
         end).
Proof.
  split.
  - intros md s e st model df Hdf.
    eexists. split; [apply (plot_model_found _ _ _ _ _ _ Hdf) |]. simpl.
    rewrite !List.filter_app, filter_actual_actual_part,
      filter_actual_predicted_part, app_nil_r.
    unfold actual_part, actual_values_part. rewrite has_column_filter.
    destruct (ground_truth_plotted st), (has_column "groundtruth" df); simpl;
      rewrite ?app_nil_r; repeat split; eauto.
  - intros md dl sel i0 i1 s e H0 H1 Hsel.
    destruct (update_graph_loop_ok md dl sel i0 i1 s e H0 H1 Hsel)
      as (st & Hst & Hloop).
    exists st. split; [assumption |].
    destruct (update_graph_of_loop _ _ _ _ _ _ _ Hloop) as [_ ->].
    rewrite data_finish_figure, (actual_traces_of_loop _ _ _ _ _ _ Hst).
    reflexivity.
Qed.

Lemma ground_truth_line_rule_witness :
  (exists st',
     plot_model sample_models_data 19723 19726 initial_state "A" = inr st' /\
     List.filter is_actual (fig_data st')
       = [actual_trace (df_filter 19723 19726 (sample_df "A"))] /\
     ground_truth_plotted st' = true) /\
  (exists st,
     update_graph_loop sample_models_data sample_date_list ["A"; "B"]
       [0%Z; 3%Z] = inr (19723%Z, 19726%Z, st) /\
     List.filter is_actual
       (data (update_graph sample_models_data sample_date_list ["A"; "B"]
                [0%Z; 3%Z])) =
       match first_with_groundtruth sample_models_data ["A"; "B"] with
       | Some df => [actual_trace (df_filter 19723 19726 df)]
       | None => []
       end).
Proof.
  split.
  - assert (Hdf : sample_models_data !! "A" = Some (sample_df "A"))
      by (vm_compute; reflexivity).
    destruct (proj1 ground_truth_line_rule sample_models_data 19723%Z 19726%Z
                initial_state "A" (sample_df "A") Hdf) as (st' & Hst & Hrule).
    assert (Hc : has_column "groundtruth" (sample_df "A") = true)
      by (vm_compute; reflexivity).
    rewrite Hc in Hrule. simpl in Hrule.
    destruct Hrule as (Hf & _ & _ & Hp).
    exists st'. split; [exact Hst |]. split; [exact Hf | exact Hp].
  - apply (proj2 ground_truth_line_rule sample_models_data sample_date_list
             ["A"; "B"] 0%Z 3%Z 19723%Z 19726%Z).
    + vm_compute. reflexivity.
    + vm_compute. reflexivity.
    + repeat constructor; vm_compute; eexists; reflexivity.
Defined.

(** C1, counterexample to the claim as stated: on the sample store, model E
    has a [groundtruth] column without a single value and model B has
    ground truth 50, 60, 70 in the window.  Selecting E then B, the solid
    line is the one of E, all null, although the window of E carries no
    non-null ground truth. *)
Lemma actual_line_from_all_null_column :
  exists dfE dfB,
    sample_models_data !! "E" = Some dfE /\
    sample_models_data !! "B" = Some dfB /\
    dropna (column "groundtruth" (df_filter 19723 19726 dfE)) = [] /\
    dropna (column "groundtruth" (df_filter 19723 19726 dfB))
      = [50%Q; 60%Q; 70%Q] /\
    List.filter is_actual
      (data (update_graph sample_models_data sample_date_list ["E"; "B"]
               [0%Z; 3%Z]))
      = [actual_trace (df_filter 19723 19726 dfE)] /\
    y (actual_trace (df_filter 19723 19726 dfE)) = [None; None].
Proof.
  do 2 eexists.
  split; [vm_compute; reflexivity |]. split; [vm_compute; reflexivity |].
  split; [vm_compute; reflexivity |]. split; [vm_compute; reflexivity |].
  split; vm_compute; reflexivity.
Qed.

(** ** The dashed lines of predicted values *)

(** C6 (as the code has it): when the slider positions resolve to dates and
    every selected model is a key of the store, the dashed traces of the
    figure are, in selection order, one per selected model whose table has a
    predicted column ([predictions], else [predicted values]), whether or not
    the solid line was added; such a trace is labelled with the model name
    from which every occurrence of "results-csv_" and then of "result-csv_"
    has been removed, carries the predicted cells of the filtered rows, and
    its non-null values are in [all_values].  A model without a predicted
    column contributes no dashed trace. *)
Theorem dashed_line_per_predicted_column
    (models_data : gmap string DataFrame) (date_list : list Z)
    (selected_models : list string) (i0 i1 start_date end_date : Z) :
  getitem date_list i0 = inr start_date ->
  getitem date_list i1 = inr end_date ->
  Forall (fun m => is_Some (models_data !! m)) selected_models ->
  exists st,
    update_graph_loop models_data date_list selected_models [i0; i1]
      = inr (start_date, end_date, st) /\
    update_graph_try models_data date_list selected_models [i0; i1]
      = inr (update_graph models_data date_list selected_models [i0; i1]) /\
    List.filter is_dashed
      (data (update_graph models_data date_list selected_models [i0; i1])) =
      flat_map (predicted_traces_of models_data start_date end_date)
        selected_models /\
    forall model df,
      In model selected_models -> models_data !! model = Some df ->
      match pred_col_of df with
      | Some pred_col =>
          let t := predicted_trace model pred_col
                     (df_filter start_date end_date df) in
          predicted_traces_of models_data start_date end_date model = [t] /\
          In t (data (update_graph models_data date_list selected_models
                        [i0; i1])) /\
          name t = replace "result-csv_" "" (replace "results-csv_" "" model) /\
          dash (line t) = Some "dash" /\
          y t = column pred_col (df_filter start_date end_date df) /\
          forall v, In v (dropna (y t)) -> In v (all_values st)
      | None =>
          predicted_traces_of models_data start_date end_date model = []
      end.
Proof.
  intros H0 H1 Hsel.
  destruct (update_graph_loop_ok models_data date_list selected_models i0 i1
              start_date end_date H0 H1 Hsel) as (st & Hst & Hloop).
  exists st. split; [assumption |].
  destruct (update_graph_of_loop _ _ _ _ _ _ _ Hloop) as [Htry Hfig].
  rewrite Htry, Hfig, data_finish_figure.
  pose proof (dashed_traces_of_loop _ _ _ _ _ _ Hst) as Hdashed.
  simpl in Hdashed.
  split; [reflexivity |]. split; [assumption |].
  intros model df Hin Hdf.
  destruct (pred_col_of df) as [c |] eqn:Hc.
  - assert (Ht : predicted_traces_of models_data start_date end_date model
                 = [predicted_trace model c (df_filter start_date end_date df)])
      by (unfold predicted_traces_of; rewrite Hdf, Hc; reflexivity).
    simpl. split; [assumption |]. split.
    + assert (Hd : In (predicted_trace model c (df_filter start_date end_date df))
                     (List.filter is_dashed (fig_data st))).
      { rewrite Hdashed. apply in_flat_map. exists model.
        split; [assumption |]. rewrite Ht. left. reflexivity. }
      apply List.filter_In in Hd. tauto.
    + repeat split.
      intros v Hv.
      eapply predicted_values_in_all_values; eassumption.
  - unfold predicted_traces_of. rewrite Hdf, Hc. reflexivity.
Qed.

Lemma dashed_line_per_predicted_column_witness :
  exists st,
    update_graph_loop sample_models_data sample_date_list ["A"; "B"]
      [0%Z; 3%Z] = inr (19723%Z, 19726%Z, st) /\
    update_graph_try sample_models_data sample_date_list ["A"; "B"] [0%Z; 3%Z]
      = inr (update_graph sample_models_data sample_date_list ["A"; "B"]
               [0%Z; 3%Z]) /\
    List.filter is_dashed
      (data (update_graph sample_models_data sample_date_list ["A"; "B"]
               [0%Z; 3%Z])) =
      flat_map (predicted_traces_of sample_models_data 19723 19726) ["A"; "B"] /\
    forall model df,
      In model ["A"; "B"] -> sample_models_data !! model = Some df ->
      match pred_col_of df with
      | Some pred_col =>
          let t := predicted_trace model pred_col (df_filter 19723 19726 df) in
          predicted_traces_of sample_models_data 19723 19726 model = [t] /\
          In t (data (update_graph sample_models_data sample_date_list
                        ["A"; "B"] [0%Z; 3%Z])) /\
          name t = replace "result-csv_" "" (replace "results-csv_" "" model) /\
          dash (line t) = Some "dash" /\
          y t = column pred_col (df_filter 19723 19726 df) /\
          forall v, In v (dropna (y t)) -> In v (all_values st)
      | None => predicted_traces_of sample_models_data 19723 19726 model = []
      end.
Proof.
  apply (dashed_line_per_predicted_column sample_models_data sample_date_list
           ["A"; "B"] 0%Z 3%Z 19723%Z 19726%Z).
  - vm_compute. reflexivity.
  - vm_compute. reflexivity.
  - repeat constructor; vm_compute; eexists; reflexivity.
Defined.

(** C6, counterexample to the claim as stated: on the sample store, model G
    has a [groundtruth] column and no predicted column; selecting it yields
    the solid line only, and no dashed line. *)
Lemma model_without_predicted_column_has_no_dashed_line :
  exists dfG,
    sample_models_data !! "G" = Some dfG /\
    pred_col_of dfG = None /\
    length (data (update_graph sample_models_data sample_date_list ["G"]
                    [0%Z; 3%Z])) = 1%nat /\
    List.filter is_actual
      (data (update_graph sample_models_data sample_date_list ["G"]
               [0%Z; 3%Z]))
      = [actual_trace (df_filter 19723 19726 dfG)] /\
    List.filter is_dashed
      (data (update_graph sample_models_data sample_date_list ["G"]
               [0%Z; 3%Z])) = [].
Proof.
  eexists.
  split; [vm_compute; reflexivity |]. split; [vm_compute; reflexivity |].
  split; [vm_compute; reflexivity |]. split; vm_compute; reflexivity.
Qed.

(** ** Interpolation *)

Lemma valid_points_app (a b : list (option Q)) :
  forall i,
    valid_points i (a ++ b) =
      valid_points i a ++ valid_points (i + Z.of_nat (length a)) b.
Proof.
  induction a as [| c a IH]; intros i.
  - simpl. rewrite Z.add_0_r. reflexivity.
  - destruct c; cbn [app valid_points length]; rewrite IH, Nat2Z.inj_succ;
      replace (i + 1 + Z.of_nat (length a))%Z
        with (i + Z.succ (Z.of_nat (length a)))%Z by lia;
      reflexivity.
Qed.

Lemma valid_points_replicate_None (n : nat) (i : Z) :
  valid_points i (replicate n None) = [].
Proof. revert i. induction n as [| n IH]; intros i; simpl; [reflexivity | apply IH]. Qed.

Lemma valid_points_bounds (ys : list (option Q)) :
  forall i p, In p (valid_points i ys) ->
    (i <= fst p < i + Z.of_nat (length ys))%Z.
Proof.
  induction ys as [| [v |] ys IH]; intros i p Hp; simpl in *.
  - destruct Hp.
  - destruct Hp as [<- | Hp]; [simpl; lia | apply IH in Hp; lia].
  - apply IH in Hp. lia.
Qed.

Lemma valid_points_length (ys : list (option Q)) :
  forall i, (length (valid_points i ys) <= length ys)%nat.
Proof.
  induction ys as [| [v |] ys IH]; intros i; simpl; [lia | |];
    specialize (IH (i + 1)%Z); lia.
Qed.

Lemma fill_from_app (fv : Z) (pts : list (Z * Q)) (a b : list (option Q)) :
  forall i,
    fill_from i fv pts (a ++ b) =
      fill_from i fv pts a ++ fill_from (i + Z.of_nat (length a)) fv pts b.
Proof.
  induction a as [| c a IH]; intros i.
  - simpl. rewrite Z.add_0_r. reflexivity.
  - destruct c; cbn [app fill_from length]; rewrite IH, Nat2Z.inj_succ;
      replace (i + 1 + Z.of_nat (length a))%Z
        with (i + Z.succ (Z.of_nat (length a)))%Z by lia;
      reflexivity.
Qed.

Lemma fill_from_length (fv : Z) (pts : list (Z * Q)) (ys : list (option Q)) :
  forall i, length (fill_from i fv pts ys) = length ys.
Proof.
  induction ys as [| [v |] ys IH]; intros i; simpl; [reflexivity | |];
    rewrite IH; reflexivity.
Qed.

Lemma interpolate_length (ys : list (option Q)) :
  length (interpolate ys) = length ys.
Proof.
  unfold interpolate. destruct (valid_points 0 ys) as [| [fv v] more]; [reflexivity |].
  match goal with |- context [Nat.eqb ?a ?b] => destruct (Nat.eqb a b) end;
    [reflexivity | apply fill_from_length].
Qed.

Lemma fill_from_leading (fv : Z) (pts : list (Z * Q)) (n : nat) :
  forall i, (i + Z.of_nat n <= fv)%Z ->
    fill_from i fv pts (replicate n None) = replicate n None.
Proof.
  induction n as [| n IH]; intros i Hi; simpl; [reflexivity |].
  replace (i <? fv)%Z with true by (symmetry; apply Z.ltb_lt; lia).
  rewrite IH by lia. reflexivity.
Qed.

Lemma np_interp_beyond (x : Z) (v : Q) (front : list (Z * Q)) (xl : Z) :
  (forall p, In p (front ++ [(xl, v)]) -> (fst p < x)%Z) ->
  np_interp x (front ++ [(xl, v)]) = Some v.
Proof.
  induction front as [| [x0 y0] front IH]; intros H; simpl.
  - replace (x <=? xl)%Z with false; [reflexivity |].
    symmetry. apply Z.leb_gt. apply (H (xl, v)). simpl. left. reflexivity.
  - replace (x <=? x0)%Z with false
      by (symmetry; apply Z.leb_gt; apply (H (x0, y0)); simpl; left; reflexivity).
    assert (IH' : np_interp x (front ++ [(xl, v)]) = Some v)
      by (apply IH; intros p Hp; apply H; simpl; right; exact Hp).
    destruct (front ++ [(xl, v)]) as [| [x1 y1] rest] eqn:E.
    + destruct front; discriminate.
    + replace (x <? x1)%Z with false; [exact IH' |].
      symmetry. apply Z.ltb_ge.
      assert (x1 < x)%Z by (apply (H (x1, y1)); simpl; right; rewrite E; left; reflexivity). lia.
Qed.

Lemma fill_from_trailing (fv : Z) (v : Q) (front : list (Z * Q)) (xl : Z) (n : nat) :
  forall i,
    (fv <= i)%Z ->
    (forall p, In p (front ++ [(xl, v)]) -> (fst p < i)%Z) ->
    fill_from i fv (front ++ [(xl, v)]) (replicate n None)
      = replicate n (Some v).
Proof.
  induction n as [| n IH]; intros i Hfv Hpts; simpl; [reflexivity |].
  replace (i <? fv)%Z with false by (symmetry; apply Z.ltb_ge; lia).
  rewrite np_interp_beyond by assumption.
  rewrite IH; [reflexivity | lia |].
  intros p Hp. specialize (Hpts p Hp). lia.
Qed.

(** ** The loading loop *)

Lemma insert_by_date_perm (r : Row) (sorted : list Row) :
  Permutation (insert_by_date r sorted) (r :: sorted).
Proof.
  induction sorted as [| r' rest IH]; simpl; [reflexivity |].
  destruct (dates r' <? dates r)%Z; [| reflexivity].
  rewrite IH. apply perm_swap.
Qed.

Lemma sort_values_perm (rs : list Row) : Permutation (sort_values rs) rs.
Proof.
  induction rs as [| r rs IH]; simpl; [reflexivity |].
  rewrite insert_by_date_perm. constructor. exact IH.
Qed.

Lemma fold_min_spec (rest : list Z) :
  forall d,
    (fold_left Z.min rest d <= d)%Z /\
    In (fold_left Z.min rest d) (d :: rest) /\
    forall a, In a rest -> (fold_left Z.min rest d <= a)%Z.
Proof.
  induction rest as [| b rest IH]; intros d; simpl.
  - split; [lia |]. split; [auto |]. intros a [].
  - destruct (IH (Z.min d b)) as (H1 & H2 & H3).
    split; [lia |]. split.
    + destruct H2 as [H2 | H2]; [| right; right; exact H2].
      destruct (Z.min_spec d b) as [[_ E] | [_ E]]; rewrite E in *;
        simpl; auto.
    + intros a [<- | Ha]; [lia | auto].
Qed.

Lemma fold_max_spec (rest : list Z) :
  forall d,
    (d <= fold_left Z.max rest d)%Z /\
    In (fold_left Z.max rest d) (d :: rest) /\
    forall a, In a rest -> (a <= fold_left Z.max rest d)%Z.
Proof.
  induction rest as [| b rest IH]; intros d; simpl.
  - split; [lia |]. split; [auto |]. intros a [].
  - destruct (IH (Z.max d b)) as (H1 & H2 & H3).
    split; [lia |]. split.
    + destruct H2 as [H2 | H2]; [| right; right; exact H2].
      destruct (Z.max_spec d b) as [[_ E] | [_ E]]; rewrite E in *;
        simpl; auto.
    + intros a [<- | Ha]; [lia | auto].
Qed.

Lemma series_min_spec (ds : list Z) (m : Z) :
  series_min ds = Some m <-> In m ds /\ forall d, In d ds -> (m <= d)%Z.
Proof.
  destruct ds as [| d rest]; simpl.
  - split; [discriminate | intros [[] _]].
  - destruct (fold_min_spec rest d) as (H1 & H2 & H3). split.
    + intros [= <-]. split; [exact H2 |]. intros a [<- | Ha]; auto.
    + intros [Hin Hle]. f_equal.
      assert (m <= fold_left Z.min rest d)%Z by (apply Hle; exact H2).
      assert (fold_left Z.min rest d <= m)%Z
        by (destruct Hin as [<- | Hin]; auto).
      lia.
Qed.

Lemma series_max_spec (ds : list Z) (m : Z) :
  series_max ds = Some m <-> In m ds /\ forall d, In d ds -> (d <= m)%Z.
Proof.
  destruct ds as [| d rest]; simpl.
  - split; [discriminate | intros [[] _]].
  - destruct (fold_max_spec rest d) as (H1 & H2 & H3). split.
    + intros [= <-]. split; [exact H2 |]. intros a [<- | Ha]; auto.
    + intros [Hin Hle]. f_equal.
      assert (fold_left Z.max rest d <= m)%Z by (apply Hle; exact H2).
      assert (m <= fold_left Z.max rest d)%Z
        by (destruct Hin as [<- | Hin]; auto).
      lia.
Qed.

Lemma series_min_perm (ds ds' : list Z) :
  Permutation ds ds' -> series_min ds = series_min ds'.
Proof.
  intros HP. destruct (series_min ds) as [m |] eqn:E.
  - symmetry. apply series_min_spec. apply series_min_spec in E as [Hin Hle].
    split; [eapply Permutation_in; eassumption |].
    intros d Hd. apply Hle. eapply Permutation_in; [symmetry |]; eassumption.
  - destruct ds; [| discriminate]. apply Permutation_nil in HP. subst. reflexivity.
Qed.

Lemma series_max_perm (ds ds' : list Z) :
  Permutation ds ds' -> series_max ds = series_max ds'.
Proof.
  intros HP. destruct (series_max ds) as [m |] eqn:E.
  - symmetry. apply series_max_spec. apply series_max_spec in E as [Hin Hle].
    split; [eapply Permutation_in; eassumption |].
    intros d Hd. apply Hle. eapply Permutation_in; [symmetry |]; eassumption.
  - destruct ds; [| discriminate]. apply Permutation_nil in HP. subst. reflexivity.
Qed.

Lemma filter_date_NoDup (d : Z) (rs : list Row) :
  List.NoDup (map dates rs) ->
  (length (List.filter (fun r => (dates r =? d)%Z) rs) <= 1)%nat.
Proof.
  induction rs as [| r rs IH]; intros Hnd; simpl; [lia |].
  inversion Hnd as [| ? ? Hnotin Hnd']; subst.
  destruct (dates r =? d)%Z eqn:E; [| auto].
  apply Z.eqb_eq in E. simpl.
  destruct (List.filter (fun r0 => (dates r0 =? d)%Z) rs) as [| r' l] eqn:F;
    [simpl; lia |].
  exfalso. apply Hnotin.
  assert (Hr' : In r' (List.filter (fun r0 => (dates r0 =? d)%Z) rs))
    by (rewrite F; left; reflexivity).
  apply List.filter_In in Hr' as [Hin Hd]. apply Z.eqb_eq in Hd.
  rewrite E, <- Hd. apply in_map. exact Hin.
Qed.

Lemma merge_left_dates (full : list Z) (rs : list Row) :
  List.NoDup (map dates rs) -> map dates (merge_left full rs) = full.
Proof.
  intros Hnd. unfold merge_left.
  induction full as [| d full IH]; simpl; [reflexivity |].
  rewrite map_app, IH. 
  pose proof (filter_date_NoDup d rs Hnd) as Hlen.
  destruct (List.filter (fun r => (dates r =? d)%Z) rs) as [| r l] eqn:F;
    [reflexivity |].
  destruct l; [| simpl in Hlen; lia].
  assert (Hr : In r (List.filter (fun r => (dates r =? d)%Z) rs))
    by (rewrite F; left; reflexivity).
  apply List.filter_In in Hr as [_ Hd]. apply Z.eqb_eq in Hd.
  simpl. rewrite Hd. reflexivity.
Qed.

Lemma zip_with_keeps {B : Type} (proj : Row -> B) (set : option Q -> Row -> Row) :
  (forall v r, proj (set v r) = proj r) ->
  forall vs rs, length vs = length rs ->
    map proj (zip_with set vs rs) = map proj rs.
Proof.
  intros Hset vs. induction vs as [| v vs IH]; intros [| r rs] Hlen;
    simpl in *; try discriminate; [reflexivity |].
  rewrite Hset, IH by lia. reflexivity.
Qed.

Lemma zip_with_sets (get : Row -> option Q) (set : option Q -> Row -> Row) :
  (forall v r, get (set v r) = v) ->
  forall vs rs, length vs = length rs ->
    map get (zip_with set vs rs) = vs.
Proof.
  intros Hset vs. induction vs as [| v vs IH]; intros [| r rs] Hlen;
    simpl in *; try discriminate; [reflexivity |].
  rewrite Hset, IH by lia. reflexivity.
Qed.

Lemma interpolate_column_keeps {B : Type} (proj : Row -> B) get set rs :
  (forall v r, proj (set v r) = proj r) ->
  map proj (interpolate_column get set rs) = map proj rs.
Proof.
  intros Hset. unfold interpolate_column. apply zip_with_keeps; [assumption |].
  rewrite interpolate_length, length_map. reflexivity.
Qed.

Lemma interpolate_column_sets get set rs :
  (forall v r, get (set v r) = v) ->
  map get (interpolate_column get set rs) = interpolate (map get rs).
Proof.
  intros Hset. unfold interpolate_column. apply zip_with_sets; [assumption |].
  rewrite interpolate_length, length_map. reflexivity.
Qed.

(** The rows of a loaded table have the dates of the merge. *)
Lemma load_model_inr (df out : DataFrame) :
  load_model df = inr out ->
  exists lo hi,
    series_min (map dates (rows df)) = Some lo /\
    series_max (map dates (rows df)) = Some hi /\
    map dates (rows out) =
      map dates (merge_left
                   (map (fun i => (lo + Z.of_nat i)%Z)
                        (seq 0 (Z.to_nat (hi - lo + 1))))
                   (sort_values (rows df))).
Proof.
  unfold load_model. destruct (has_column "dates" df); simpl; [| discriminate].
  rewrite <- (series_min_perm _ _ (Permutation_map dates (sort_values_perm (rows df)))).
  rewrite <- (series_max_perm _ _ (Permutation_map dates (sort_values_perm (rows df)))).
  destruct (series_min (map dates (sort_values (rows df)))) as [lo |];
    [| discriminate].
  destruct (series_max (map dates (sort_values (rows df)))) as [hi |];
    [| discriminate].
  simpl. intros [= <-]. exists lo, hi. split; [reflexivity |].
  split; [reflexivity |]. simpl.
  destruct (has_column "predictions" df), (has_column "predicted values" df),
    (has_column "groundtruth" df);
    rewrite ?(interpolate_column_keeps dates) by reflexivity; reflexivity.
Qed.

Lemma load_model_ok (df : DataFrame) :
  has_column "dates" df = true -> rows df <> [] ->
  exists out, load_model df = inr out.
Proof.
  intros Hd Hne. unfold load_model. rewrite Hd. simpl.
  assert (Hs : map dates (sort_values (rows df)) <> []).
  { intros E. apply Hne. apply map_eq_nil in E.
    apply Permutation_nil. rewrite <- E. apply sort_values_perm. }
  destruct (map dates (sort_values (rows df))) as [| d ds]; [congruence |].
  simpl. eexists. reflexivity.
Qed.

Lemma load_model_empty (df : DataFrame) :
  rows df = [] ->
  load_model df =
    inl (if has_column "dates" df
         then ValueError "Neither `start` nor `end` can be NaT"
         else KeyError "dates").
Proof.
  intros E. unfold load_model. rewrite E.
  destruct (has_column "dates" df); reflexivity.
Qed.

Lemma load_models_fails (model_files : list (string * DataFrame)) file df e :
  In (file, df) model_files -> load_model df = inl e ->
  forall models_data, exists e', load_models model_files models_data = inl e'.
Proof.
  induction model_files as [| [f d] rest IH]; intros Hin He md; [destruct Hin |].
  simpl. destruct (load_model d) as [e1 | out] eqn:E; simpl; [eauto |].
  destruct Hin as [[= -> ->] | Hin]; [congruence | apply IH; assumption].
Qed.

Lemma startup_fails models_dir files file df e :
  In (file, df) files -> endswith file ".csv" = true ->
  load_model df = inl e ->
  exists e', startup models_dir (Some files) = inl e'.
Proof.
  intros Hin Hcsv He. unfold startup.
  assert (Hmf : In (file, df)
                  (List.filter (fun f => endswith (fst f) ".csv") files))
    by (apply List.filter_In; auto).
  destruct (List.filter (fun f => endswith (fst f) ".csv") files) as [| p l] eqn:F;
    [destruct Hmf |].
  destruct (load_models_fails (p :: l) file df e Hmf He ∅) as [e' He'].
  rewrite He'. simpl. eauto.
Qed.

(** C5 (as the code has it): for a record with a [dates] column and at
    least two rows whose dates are pairwise distinct, loading succeeds and
    the loaded table has exactly [N + 1] rows, [N] being the number of days
    between the smallest date [lo] and the largest date [hi] of the record;
    the dates of these rows are [lo, lo + 1, .., hi]. *)
Theorem canonical_series_is_daily (df : DataFrame) :
  has_column "dates" df = true ->
  (2 <= length (rows df))%nat ->
  List.NoDup (map dates (rows df)) ->
  exists lo hi out,
    series_min (map dates (rows df)) = Some lo /\
    series_max (map dates (rows df)) = Some hi /\
    (lo < hi)%Z /\
    load_model df = inr out /\
    length (rows out) = S (Z.to_nat (hi - lo)) /\
    map dates (rows out) =
      map (fun i => (lo + Z.of_nat i)%Z) (seq 0 (S (Z.to_nat (hi - lo)))).
Proof.
  intros Hd Hlen Hnd.
  assert (Hne : rows df <> []) by (destruct (rows df); [simpl in Hlen; lia | discriminate]).
  destruct (load_model_ok df Hd Hne) as [out Hout].
  destruct (load_model_inr df out Hout) as (lo & hi & Hlo & Hhi & Hdates).
  assert (Hlt : (lo < hi)%Z).
  { apply series_min_spec in Hlo as [_ Hlo].
    apply series_max_spec in Hhi as [_ Hhi].
    destruct (rows df) as [| r1 [| r2 rs]]; simpl in Hlen; try lia.
    simpl in Hnd. inversion Hnd as [| ? ? Hnotin _]; subst.
    assert (dates r1 <> dates r2) by (intros E; apply Hnotin; left; auto).
    pose proof (Hlo (dates r1) (or_introl eq_refl)).
    pose proof (Hlo (dates r2) (or_intror (or_introl eq_refl))).
    pose proof (Hhi (dates r1) (or_introl eq_refl)).
    pose proof (Hhi (dates r2) (or_intror (or_introl eq_refl))).
    lia. }
  rewrite merge_left_dates in Hdates.
  2: { eapply Permutation_NoDup; [| exact Hnd].
       apply Permutation_map. symmetry. apply sort_values_perm. }
  replace (Z.to_nat (hi - lo + 1)) with (S (Z.to_nat (hi - lo))) in Hdates by lia.
  exists lo, hi, out. repeat split; try assumption.
  rewrite <- (length_map dates), Hdates, length_map, length_seq. reflexivity.
Qed.

Lemma canonical_series_is_daily_witness :
  exists lo hi out,
    series_min (map dates (rows csv_A)) = Some lo /\
    series_max (map dates (rows csv_A)) = Some hi /\
    (lo < hi)%Z /\
    load_model csv_A = inr out /\
    length (rows out) = S (Z.to_nat (hi - lo)) /\
    map dates (rows out) =
      map (fun i => (lo + Z.of_nat i)%Z) (seq 0 (S (Z.to_nat (hi - lo)))).
Proof.
  apply (canonical_series_is_daily csv_A).
  - vm_compute. reflexivity.
  - simpl. lia.
  - simpl. apply List.NoDup_cons.
    + intros [H | []]. discriminate H.
    + apply List.NoDup_cons; [intros [] | apply List.NoDup_nil].
Defined.

(** C5, counterexample to the claim as stated: a record with three rows, two
    of them on day 19723 and one on day 19724, spans one day, and its loaded
    table has three rows, not two; the day 19723 occurs twice. *)
Lemma duplicate_dates_give_extra_rows :
  length (rows csv_dup) = 3%nat /\
  series_min (map dates (rows csv_dup)) = Some 19723%Z /\
  series_max (map dates (rows csv_dup)) = Some 19724%Z /\
  exists out,
    load_model csv_dup = inr out /\
    map dates (rows out) = [19723; 19723; 19724]%Z /\
    length (rows out) <> S (Z.to_nat (19724 - 19723)).
Proof.
  split; [reflexivity |]. split; [reflexivity |]. split; [reflexivity |].
  eexists. split; [vm_compute; reflexivity |].
  split; [reflexivity | discriminate].
Qed.








(** ** The interpolated columns of a loaded table *)

(** The numeric columns of a loaded table are the interpolated columns of the
    merge. *)
Lemma load_model_columns (df out : DataFrame) :
  load_model df = inr out ->
  exists lo hi,
    series_min (map dates (rows df)) = Some lo /\
    series_max (map dates (rows df)) = Some hi /\
    let merged :=
      merge_left (map (fun i => (lo + Z.of_nat i)%Z)
                      (seq 0 (Z.to_nat (hi - lo + 1))))
                 (sort_values (rows df)) in
    (has_column "groundtruth" df = true ->
     map groundtruth (rows out) = interpolate (map groundtruth merged)) /\
    (has_column "predictions" df = true ->
     map predictions (rows out) = interpolate (map predictions merged)) /\
    (has_column "predictions" df = false ->
     has_column "predicted values" df = true ->
     map predicted_values (rows out)
       = interpolate (map predicted_values merged)).
Proof.
  unfold load_model. destruct (has_column "dates" df); simpl; [| discriminate].
  rewrite <- (series_min_perm _ _ (Permutation_map dates (sort_values_perm (rows df)))).
  rewrite <- (series_max_perm _ _ (Permutation_map dates (sort_values_perm (rows df)))).
  destruct (series_min (map dates (sort_values (rows df)))) as [lo |];
    [| discriminate].
  destruct (series_max (map dates (sort_values (rows df)))) as [hi |];
    [| discriminate].
  simpl. intros [= <-]. exists lo, hi. split; [reflexivity |].
  split; [reflexivity |]. simpl.
  destruct (has_column "predictions" df), (has_column "predicted values" df),
    (has_column "groundtruth" df);
    repeat split; intros; try discriminate;
    rewrite ?(interpolate_column_keeps groundtruth predictions set_predictions)
      by reflexivity;
    rewrite ?(interpolate_column_keeps groundtruth predicted_values
                set_predicted_values) by reflexivity;
    rewrite ?(interpolate_column_sets groundtruth set_groundtruth) by reflexivity;
    rewrite ?(interpolate_column_sets predictions set_predictions) by reflexivity;
    rewrite ?(interpolate_column_sets predicted_values set_predicted_values)
      by reflexivity;
    rewrite ?(interpolate_column_keeps predictions groundtruth set_groundtruth)
      by reflexivity;
    rewrite ?(interpolate_column_keeps predicted_values groundtruth
                set_groundtruth) by reflexivity;
    reflexivity.
Qed.

(** C3 (as the code has it): the loading loop replaces every numeric column
    it interpolates ([groundtruth], and [predictions] or else
    [predicted values]) by [interpolate] of the merged column.  [interpolate]
    keeps the length of the column; it leaves a leading run of nulls null,
    whatever follows, and a column without any value entirely null; but the
    nulls that follow the last value of a column are filled with that
    value. *)
Theorem interpolate_edges :
  (forall df out,
     load_model df = inr out ->
     exists lo hi,
       series_min (map dates (rows df)) = Some lo /\
       series_max (map dates (rows df)) = Some hi /\
       let merged :=
         merge_left (map (fun i => (lo + Z.of_nat i)%Z)
                         (seq 0 (Z.to_nat (hi - lo + 1))))
                    (sort_values (rows df)) in
       (has_column "groundtruth" df = true ->
        map groundtruth (rows out) = interpolate (map groundtruth merged)) /\
       (has_column "predictions" df = true ->
        map predictions (rows out) = interpolate (map predictions merged)) /\
       (has_column "predictions" df = false ->
        has_column "predicted values" df = true ->
        map predicted_values (rows out)
          = interpolate (map predicted_values merged))) /\
  (forall ys, length (interpolate ys) = length ys) /\
  (forall n rest,
     take n (interpolate (replicate n None ++ rest)) = replicate n None) /\
  (forall n, interpolate (replicate n None) = replicate n None) /\
  (forall pre v n,
     drop (length pre) (interpolate (pre ++ Some v :: replicate n None))
       = Some v :: replicate n (Some v)).
Proof.
  split; [exact load_model_columns |].
  split; [exact interpolate_length |]. split; [| split].
  - intros n rest. unfold interpolate.
    rewrite valid_points_app, valid_points_replicate_None, length_replicate.
    rewrite app_nil_l.
    destruct (valid_points (0 + Z.of_nat n) rest) as [| [fv v] more] eqn:E.
    + rewrite <- (length_replicate n (@None Q)) at 1. apply take_app_length.
    + match goal with |- context [Nat.eqb ?a ?b] => destruct (Nat.eqb a b) end.
      * rewrite <- (length_replicate n (@None Q)) at 1. apply take_app_length.
      * rewrite fill_from_app, fill_from_leading.
        -- rewrite <- (length_replicate n (@None Q)) at 1. apply take_app_length.
        -- pose proof (valid_points_bounds rest (0 + Z.of_nat n) (fv, v)) as Hb.
           rewrite E in Hb. simpl in Hb. specialize (Hb (or_introl eq_refl)). lia.
  - intros n. unfold interpolate. rewrite valid_points_replicate_None. reflexivity.
  - intros pre v n. unfold interpolate.
    rewrite valid_points_app. cbn [valid_points].
    rewrite valid_points_replicate_None.
    set (xl := (0 + Z.of_nat (length pre))%Z).
    assert (Hb : forall p, In p (valid_points 0 pre ++ [(xl, v)]) ->
                   (fst p <= xl)%Z).
    { intros p Hp. apply in_app_or in Hp as [Hp | [<- | []]]; [| simpl; lia].
      apply valid_points_bounds in Hp. unfold xl. lia. }
    destruct (valid_points 0 pre ++ [(xl, v)]) as [| [fv v0] more] eqn:E.
    { destruct (valid_points 0 pre); discriminate. }
    match goal with |- context [Nat.eqb ?a ?b] => destruct (Nat.eqb a b) eqn:Hlen end.
    + apply Nat.eqb_eq in Hlen.
      assert (Hn : n = 0%nat).
      { assert (Hl : length ((fv, v0) :: more) = S (length (valid_points 0 pre)))
          by (rewrite <- E, length_app; simpl; lia).
        rewrite Hl, length_app in Hlen. simpl in Hlen.
        rewrite length_replicate in Hlen.
        pose proof (valid_points_length pre 0). lia. }
      subst n. rewrite drop_app_length. reflexivity.
    + rewrite fill_from_app. simpl.
      rewrite <- (fill_from_length fv ((fv, v0) :: more) pre 0) at 1.
      rewrite drop_app_length. f_equal.
      rewrite <- E. apply fill_from_trailing.
      * specialize (Hb (fv, v0) (or_introl eq_refl)). simpl in Hb. lia.
      * intros p Hp. rewrite E in Hp. specialize (Hb p Hp). lia.
Qed.

Lemma interpolate_edges_witness :
  exists lo hi,
    series_min (map dates (rows csv_B)) = Some lo /\
    series_max (map dates (rows csv_B)) = Some hi /\
    let merged :=
      merge_left (map (fun i => (lo + Z.of_nat i)%Z)
                      (seq 0 (Z.to_nat (hi - lo + 1))))
                 (sort_values (rows csv_B)) in
    (has_column "groundtruth" csv_B = true ->
     map groundtruth (rows (sample_df "B"))
       = interpolate (map groundtruth merged)) /\
    (has_column "predictions" csv_B = true ->
     map predictions (rows (sample_df "B"))
       = interpolate (map predictions merged)) /\
    (has_column "predictions" csv_B = false ->
     has_column "predicted values" csv_B = true ->
     map predicted_values (rows (sample_df "B"))
       = interpolate (map predicted_values merged)).
Proof.
  apply (proj1 interpolate_edges csv_B (sample_df "B")).
  vm_compute. reflexivity.
Defined.

(** C3, counterexample to the claim as stated: for the two-row record of the
    worked example (ground truth 100 on day 19723 only), the loaded table has
    ground truth 100 on days 19724 and 19725 too, although no ground truth
    is known after day 19723. *)
Lemma trailing_nulls_are_filled :
  map groundtruth (merge_left [19723; 19724; 19725]%Z (rows csv_A))
    = [Some 100%Q; None; None] /\
  load_model csv_A =
    inr {| columns := ["dates"; "groundtruth"; "predictions"];
           rows := [mk_row 19723 (Some 100%Q) None;
                    mk_row 19724 (Some 100%Q) None;
                    mk_row 19725 (Some 100%Q) (Some 110%Q)] |}.
Proof. split; vm_compute; reflexivity. Qed.

(** * Further properties *)

(** ** More on interpolation *)

Lemma np_interp_some (x : Z) (pts : list (Z * Q)) :
  pts <> [] -> exists q, np_interp x pts = Some q.
Proof.
  induction pts as [| [x0 y0] rest IH]; intros Hne; [congruence |].
  simpl. destruct (x <=? x0)%Z; [eauto |].
  destruct rest as [| [x1 y1] rest']; [eauto |].
  destruct (x <? x1)%Z; [eauto |]. apply IH. discriminate.
Qed.

Lemma fill_from_lookup_valid (fv : Z) (pts : list (Z * Q)) (ys : list (option Q)) :
  forall i j v,
    ys !! j = Some (Some v) -> fill_from i fv pts ys !! j = Some (Some v).
Proof.
  induction ys as [| c ys IH]; intros i j v H; [discriminate |].
  destruct j as [| j]; simpl in H.
  - injection H as ->. reflexivity.
  - destruct c; simpl; apply IH; assumption.
Qed.

Lemma fill_from_lookup_null (fv : Z) (pts : list (Z * Q)) (ys : list (option Q)) :
  forall i j,
    ys !! j = Some None ->
    fill_from i fv pts ys !! j =
      Some (if (i + Z.of_nat j <? fv)%Z then None
            else np_interp (i + Z.of_nat j) pts).
Proof.
  induction ys as [| c ys IH]; intros i j H; [discriminate |].
  destruct j as [| j]; simpl in H.
  - injection H as ->. simpl. rewrite Z.add_0_r. reflexivity.
  - replace (i + Z.of_nat (S j))%Z with (i + 1 + Z.of_nat j)%Z by lia.
    destruct c; simpl; apply IH; assumption.
Qed.

Lemma fill_from_valid (fv : Z) (pts : list (Z * Q)) (vs : list Q) :
  forall i, fill_from i fv pts (map Some vs) = map Some vs.
Proof.
  induction vs as [| v vs IH]; intros i; simpl; [reflexivity |].
  rewrite IH. reflexivity.
Qed.

Lemma fill_from_filled (fv : Z) (pts : list (Z * Q)) (ys : list (option Q)) :
  pts <> [] ->
  forall i, (fv <= i)%Z ->
    exists vs, fill_from i fv pts ys = map Some vs.
Proof.
  intros Hne. induction ys as [| c ys IH]; intros i Hi.
  - exists []. reflexivity.
  - destruct (IH (i + 1)%Z ltac:(lia)) as [vs Hvs].
    destruct c as [v |]; simpl; rewrite Hvs.
    + exists (v :: vs). reflexivity.
    + replace (i <? fv)%Z with false by (symmetry; apply Z.ltb_ge; lia).
      destruct (np_interp_some i pts Hne) as [q ->].
      exists (q :: vs). reflexivity.
Qed.

Lemma valid_points_all_valid (ys : list (option Q)) :
  forall i, length (valid_points i ys) = length ys ->
    exists vs, ys = map Some vs.
Proof.
  induction ys as [| c ys IH]; intros i H.
  - exists []. reflexivity.
  - destruct c as [v |]; simpl in H.
    + destruct (IH (i + 1)%Z ltac:(lia)) as [vs ->].
      exists (v :: vs). reflexivity.
    + pose proof (valid_points_length ys (i + 1)). lia.
Qed.

Lemma leading_nulls_split (ys : list (option Q)) :
  exists rest,
    ys = replicate (leading_nulls ys) None ++ rest /\
    (rest = [] \/ exists v tl, rest = Some v :: tl).
Proof.
  induction ys as [| c ys IH].
  - exists []. auto.
  - destruct c as [v |]; simpl.
    + exists (Some v :: ys). eauto.
    + destruct IH as (rest & E & Hrest). exists rest.
      split; [rewrite E at 1; reflexivity | exact Hrest].
Qed.

Lemma leading_nulls_canonical (k : nat) (vs : list Q) :
  leading_nulls (replicate k None ++ map Some vs) = k.
Proof.
  induction k as [| k IH]; simpl; [destruct vs; reflexivity | rewrite IH; reflexivity].
Qed.

(** After interpolation a column is a run of nulls followed by values
    only. *)
Lemma interpolate_shape (ys : list (option Q)) :
  exists vs, interpolate ys = replicate (leading_nulls ys) None ++ map Some vs.
Proof.
  destruct (leading_nulls_split ys) as (rest & E & Hrest).
  remember (leading_nulls ys) as k eqn:Hk. clear Hk. subst ys.
  destruct Hrest as [-> | (v & tl & ->)].
  - exists []. simpl. rewrite !app_nil_r.
    unfold interpolate. rewrite valid_points_replicate_None. reflexivity.
  - unfold interpolate.
    rewrite valid_points_app, valid_points_replicate_None, length_replicate,
      app_nil_l.
    cbn [valid_points].
    match goal with |- context [Nat.eqb ?a ?b] => destruct (Nat.eqb a b) eqn:Hlen end.
    + apply Nat.eqb_eq in Hlen.
      assert (Hk : k = 0%nat).
      { rewrite length_app, length_replicate in Hlen. simpl in Hlen.
        pose proof (valid_points_length tl (0 + Z.of_nat k + 1)). lia. }
      subst k. simpl in *.
      destruct (valid_points_all_valid tl _ ltac:(injection Hlen as Hlen; exact Hlen)) as [vs ->].
      exists (v :: vs). reflexivity.
    + rewrite fill_from_app, fill_from_leading, length_replicate by lia.
      edestruct (fill_from_filled (0 + Z.of_nat k)) as [vs ->];
        [| | exists vs; reflexivity]; [discriminate | lia].
Qed.

Lemma interpolate_canonical (k : nat) (vs : list Q) :
  interpolate (replicate k None ++ map Some vs)
    = replicate k None ++ map Some vs.
Proof.
  unfold interpolate.
  rewrite valid_points_app, valid_points_replicate_None, length_replicate,
    app_nil_l.
  destruct (valid_points (0 + Z.of_nat k) (map Some vs)) as [| [fv v] more] eqn:E;
    [reflexivity |].
  match goal with |- context [Nat.eqb ?a ?b] => destruct (Nat.eqb a b) end;
    [reflexivity |].
  assert (Hfv : fv = (0 + Z.of_nat k)%Z).
  { destruct vs as [| v0 vs]; simpl in E; [discriminate |]. congruence. }
  rewrite fill_from_app, fill_from_leading, length_replicate, fill_from_valid by lia.
  reflexivity.
Qed.

Lemma interpolate_lookup_valid (ys : list (option Q)) (j : nat) (v : Q) :
  ys !! j = Some (Some v) -> interpolate ys !! j = Some (Some v).
Proof.
  intros H. unfold interpolate.
  destruct (valid_points 0 ys) as [| [fv v0] more]; [assumption |].
  match goal with |- context [Nat.eqb ?a ?b] => destruct (Nat.eqb a b) end;
    [assumption | apply fill_from_lookup_valid; assumption].
Qed.

(** X7: known values are kept, the result is a run of nulls (the leading nulls of
    the column) followed by values only, and interpolating again changes
    nothing. *)
Theorem interpolate_fills_all_but_leading (ys : list (option Q)) :
  (forall j v, ys !! j = Some (Some v) -> interpolate ys !! j = Some (Some v)) /\
  (exists vs,
     interpolate ys = replicate (leading_nulls ys) None ++ map Some vs) /\
  interpolate (interpolate ys) = interpolate ys.
Proof.
  split; [intros j v; apply interpolate_lookup_valid |].
  destruct (interpolate_shape ys) as [vs E].
  split; [eauto |]. rewrite E. apply interpolate_canonical.
Qed.

Lemma np_interp_between (x : Z) (front : list (Z * Q)) (x0 : Z) (y0 : Q)
    (x1 : Z) (y1 : Q) (back : list (Z * Q)) :
  (forall p, In p front -> (fst p < x)%Z) ->
  (x0 < x < x1)%Z ->
  np_interp x (front ++ (x0, y0) :: (x1, y1) :: back) =
    Some (Qred ((y1 - y0) / inject_Z (x1 - x0) * inject_Z (x - x0) + y0)).
Proof.
  intros Hfront Hx. induction front as [| [xa ya] front IH]; simpl.
  - replace (x <=? x0)%Z with false by (symmetry; apply Z.leb_gt; lia).
    replace (x <? x1)%Z with true by (symmetry; apply Z.ltb_lt; lia).
    reflexivity.
  - assert (Hxa : (xa < x)%Z) by (apply (Hfront (xa, ya)); left; reflexivity).
    replace (x <=? xa)%Z with false by (symmetry; apply Z.leb_gt; lia).
    assert (IH' := IH (fun p Hp => Hfront p (or_intror Hp))).
    destruct front as [| [xb yb] front']; simpl in *.
    + replace (x <? x0)%Z with false by (symmetry; apply Z.ltb_ge; lia).
      exact IH'.
    + assert (Hxb : (xb < x)%Z)
        by (apply (Hfront (xb, yb)); right; left; reflexivity).
      replace (x <? xb)%Z with false by (symmetry; apply Z.ltb_ge; lia).
      exact IH'.
Qed.

Lemma lookup_map_Some_null (vs : list Q) (j : nat) :
  map Some vs !! j <> Some None.
Proof.
  revert j. induction vs as [| v vs IH]; intros [| j]; simpl; try discriminate.
  apply IH.
Qed.

Lemma interpolate_lookup_null (ys : list (option Q)) (j : nat) (fv : Z) (v : Q)
    (more : list (Z * Q)) :
  valid_points 0 ys = (fv, v) :: more ->
  ys !! j = Some None ->
  interpolate ys !! j =
    Some (if (Z.of_nat j <? fv)%Z then None
          else np_interp (Z.of_nat j) ((fv, v) :: more)).
Proof.
  intros Hpts Hj. unfold interpolate. rewrite Hpts.
  match goal with |- context [Nat.eqb ?a ?b] => destruct (Nat.eqb a b) eqn:Hlen end.
  - apply Nat.eqb_eq in Hlen. rewrite <- Hpts in Hlen.
    destruct (valid_points_all_valid ys 0 Hlen) as [vs ->].
    destruct (lookup_map_Some_null vs j Hj).
  - rewrite (fill_from_lookup_null fv _ ys 0 j Hj). reflexivity.
Qed.

(** X8: a run of [n] nulls between two known values [v0] and [v1] is filled
    linearly: the cell [j + 1] places after [v0] gets
    [v0 + (v1 - v0) * (j + 1) / (n + 1)]. *)
Theorem interpolate_linear_between (pre : list (option Q)) (v0 : Q) (n : nat)
    (v1 : Q) (post : list (option Q)) (j : nat) :
  (j < n)%nat ->
  exists q,
    interpolate (pre ++ Some v0 :: replicate n None ++ Some v1 :: post)
      !! (length pre + S j)%nat = Some (Some q) /\
    (q == v0 + (v1 - v0)
               * (inject_Z (Z.of_nat (S j)) / inject_Z (Z.of_nat (S n))))%Q.
Proof.
  intros Hj.
  set (ys := pre ++ Some v0 :: replicate n None ++ Some v1 :: post).
  set (p0 := (0 + Z.of_nat (length pre))%Z).
  assert (Hpts : valid_points 0 ys =
                 valid_points 0 pre ++ (p0, v0)
                   :: (p0 + 1 + Z.of_nat n, v1)%Z
                   :: valid_points (p0 + 1 + Z.of_nat n + 1) post).
  { unfold ys. rewrite valid_points_app. cbn [valid_points].
    rewrite valid_points_app, valid_points_replicate_None, length_replicate.
    reflexivity. }
  assert (Hnull : ys !! (length pre + S j)%nat = Some None).
  { unfold ys. rewrite lookup_app_r by lia.
    replace (length pre + S j - length pre)%nat with (S j) by lia.
    simpl. rewrite lookup_app_l by (rewrite length_replicate; lia).
    apply lookup_replicate. split; [reflexivity | lia]. }
  assert (Hfront : forall p, In p (valid_points 0 pre) ->
                     (fst p < Z.of_nat (length pre + S j))%Z).
  { intros p Hp. apply valid_points_bounds in Hp. lia. }
  assert (Hhead : exists fv v more,
             valid_points 0 ys = (fv, v) :: more /\ (fv <= p0)%Z).
  { rewrite Hpts. destruct (valid_points 0 pre) as [| [fv v] more] eqn:E.
    - simpl. do 3 eexists. split; [reflexivity | lia].
    - simpl. do 3 eexists. split; [reflexivity |].
      pose proof (valid_points_bounds pre 0 (fv, v)) as Hb. rewrite E in Hb.
      specialize (Hb (or_introl eq_refl)). simpl in Hb. unfold p0. lia. }
  destruct Hhead as (fv & v & more & Hhd & Hfv).
  rewrite (interpolate_lookup_null ys _ fv v more Hhd Hnull).
  replace (Z.of_nat (length pre + S j) <? fv)%Z with false
    by (symmetry; apply Z.ltb_ge; unfold p0 in Hfv; lia).
  rewrite <- Hhd, Hpts.
  rewrite (np_interp_between _ _ _ _ _ _ _ Hfront) by (unfold p0; lia).
  eexists. split; [reflexivity |].
  rewrite Qred_correct.
  replace (p0 + 1 + Z.of_nat n - p0)%Z with (Z.of_nat (S n)) by lia.
  replace (Z.of_nat (length pre + S j) - p0)%Z with (Z.of_nat (S j))
    by (unfold p0; lia).
  assert (Hn : ~ (inject_Z (Z.of_nat (S n)) == 0)%Q).
  { unfold Qeq. simpl. lia. }
  field. exact Hn.
Qed.

(** ** More on the loaded tables *)

Lemma count_date_perm (d : Z) (l l' : list Row) :
  Permutation l l' -> count_date d l = count_date d l'.
Proof.
  unfold count_date. induction 1 as [| r l l' _ IH | r r' l | l l' l'' _ IH1 _ IH2];
    simpl; [reflexivity | | | congruence].
  - destruct (dates r =? d)%Z; simpl; congruence.
  - destruct (dates r =? d)%Z, (dates r' =? d)%Z; reflexivity.
Qed.

Lemma filter_date_dates (d : Z) (rs : list Row) :
  map dates (List.filter (fun r => (dates r =? d)%Z) rs)
    = replicate (count_date d rs) d.
Proof.
  unfold count_date. induction rs as [| r rs IH]; simpl; [reflexivity |].
  destruct (dates r =? d)%Z eqn:E; [| exact IH].
  apply Z.eqb_eq in E. simpl. rewrite IH, E. reflexivity.
Qed.

Lemma merge_left_dates_count (full : list Z) (rs : list Row) :
  map dates (merge_left full rs)
    = flat_map (fun d => replicate (Nat.max 1 (count_date d rs)) d) full.
Proof.
  unfold merge_left. induction full as [| d full IH]; simpl; [reflexivity |].
  rewrite map_app, IH. f_equal.
  pose proof (filter_date_dates d rs) as Hd. unfold count_date in *.
  destruct (List.filter (fun r => (dates r =? d)%Z) rs) as [| r l]; [reflexivity |].
  exact Hd.
Qed.

Lemma days_In (lo hi d : Z) : In d (days lo hi) <-> (lo <= d <= hi)%Z.
Proof.
  unfold days. rewrite in_map_iff. split.
  - intros (i & <- & Hi). apply in_seq in Hi. lia.
  - intros H. exists (Z.to_nat (d - lo)). split; [lia |]. apply in_seq. lia.
Qed.

Lemma days_length (lo hi : Z) :
  (lo <= hi)%Z -> length (days lo hi) = S (Z.to_nat (hi - lo)).
Proof. intros H. unfold days. rewrite length_map, length_seq. lia. Qed.

Lemma days_lookup (lo hi : Z) (i : nat) :
  (Z.of_nat i <= hi - lo)%Z -> days lo hi !! i = Some (lo + Z.of_nat i)%Z.
Proof.
  intros H. unfold days.
  change (map ?f ?l) with (f <$> l). rewrite list_lookup_fmap, lookup_seq_lt by lia.
  reflexivity.
Qed.

Lemma In_replicate {A : Type} (n : nat) (a b : A) :
  In b (replicate n a) <-> b = a /\ (0 < n)%nat.
Proof.
  induction n as [| n IH]; simpl.
  - split; [intros [] | intros [_ H]; lia].
  - rewrite IH. split.
    + intros [<- | [-> _]]; split; auto; lia.
    + intros [-> _]. auto.
Qed.

(** The dates of a loaded table, day by day. *)
Lemma load_model_dates (df out : DataFrame) :
  load_model df = inr out ->
  exists lo hi,
    series_min (map dates (rows df)) = Some lo /\
    series_max (map dates (rows df)) = Some hi /\
    (lo <= hi)%Z /\
    map dates (rows out) =
      flat_map (fun d => replicate (Nat.max 1 (count_date d (rows df))) d)
        (days lo hi) /\
    (forall d, In d (map dates (rows out)) <-> (lo <= d <= hi)%Z) /\
    rows out <> [].
Proof.
  intros Hout.
  destruct (load_model_inr df out Hout) as (lo & hi & Hlo & Hhi & Hdates).
  exists lo, hi. split; [assumption |]. split; [assumption |].
  assert (Hle : (lo <= hi)%Z).
  { apply series_min_spec in Hlo as [Hin _].
    apply series_max_spec in Hhi as [_ Hmax]. auto. }
  split; [assumption |].
  rewrite merge_left_dates_count in Hdates. fold (days lo hi) in Hdates.
  assert (Hcount : map dates (rows out) =
            flat_map (fun d => replicate (Nat.max 1 (count_date d (rows df))) d)
              (days lo hi)).
  { rewrite Hdates. apply flat_map_ext. intros d.
    rewrite (count_date_perm d _ _ (sort_values_perm (rows df))). reflexivity. }
  assert (Hmem : forall d, In d (map dates (rows out)) <-> (lo <= d <= hi)%Z).
  { intros d. rewrite Hcount, in_flat_map. split.
    - intros (d' & Hd' & Hrep). apply In_replicate in Hrep as [-> _].
      apply days_In. assumption.
    - intros Hd. exists d. split; [apply days_In; assumption |].
      apply In_replicate. split; [reflexivity | lia]. }
  split; [assumption |]. split; [assumption |].
  intros E. assert (Hin : In lo (map dates (rows out))) by (apply Hmem; lia).
  rewrite E in Hin. destruct Hin.
Qed.

(** X5: the dates of a loaded table are the days from the smallest to the
    largest date of the record, each day repeated as many times as the record
    has rows on it, and once when it has none; so the table is never empty
    and has a row on every day of that range. *)
Theorem loaded_dates (df out : DataFrame) :
  load_model df = inr out ->
  exists lo hi,
    series_min (map dates (rows df)) = Some lo /\
    series_max (map dates (rows df)) = Some hi /\
    (lo <= hi)%Z /\
    map dates (rows out) =
      flat_map (fun d => replicate (Nat.max 1 (count_date d (rows df))) d)
        (days lo hi) /\
    (forall d, In d (map dates (rows out)) <-> (lo <= d <= hi)%Z) /\
    rows out <> [].
Proof. exact (load_model_dates df out). Qed.

Lemma load_model_inr_record (df out : DataFrame) :
  load_model df = inr out -> has_column "dates" df = true /\ rows df <> [].
Proof.
  intros H. split.
  - unfold load_model in H. destruct (has_column "dates" df); [reflexivity | discriminate].
  - intros E. rewrite (load_model_empty df E) in H. discriminate.
Qed.

(** ** More on the start-up *)

Lemma load_models_app (a b : list (string * DataFrame)) :
  forall md0,
    load_models (a ++ b) md0 = (md <- load_models a md0 ;; load_models b md).
Proof.
  induction a as [| [file df] a IH]; intros md0; simpl; [reflexivity |].
  destruct (load_model df) as [e | out]; simpl; [reflexivity | apply IH].
Qed.

Lemma load_models_inr (model_files : list (string * DataFrame)) :
  forall md0 md,
    load_models model_files md0 = inr md ->
    Forall (fun p => exists out, load_model (snd p) = inr out) model_files /\
    (forall k df',
       md !! k = Some df' ->
       md0 !! k = Some df' \/
       exists file df,
         In (file, df) model_files /\ k = replace ".csv" "" file /\
         load_model df = inr df') /\
    (forall file df,
       In (file, df) model_files -> is_Some (md !! replace ".csv" "" file)) /\
    (forall k, is_Some (md0 !! k) -> is_Some (md !! k)).
Proof.
  induction model_files as [| [file df] rest IH]; intros md0 md H; simpl in H.
  - injection H as <-. repeat split; auto. intros ? ? [].
  - apply bind_inr in H as (out & Hout & H).
    destruct (IH _ _ H) as (IH1 & IH2 & IH3 & IH4).
    split; [constructor; simpl; eauto |]. split; [| split].
    + intros k df' Hk. destruct (IH2 k df' Hk) as [Hins | (f & d & Hin & -> & Hl)].
      * destruct (decide (replace ".csv" "" file = k)) as [<- | Hne].
        -- rewrite lookup_insert_eq in Hins. injection Hins as <-.
           right. exists file, df. simpl. auto.
        -- rewrite lookup_insert_ne in Hins by assumption. auto.
      * right. exists f, d. simpl. auto.
    + intros f d [[= -> ->] | Hin]; [| eauto].
      apply IH4. rewrite lookup_insert_eq. eauto.
    + intros k Hk. apply IH4.
      destruct (decide (replace ".csv" "" file = k)) as [<- | Hne].
      * rewrite lookup_insert_eq. eauto.
      * rewrite lookup_insert_ne by assumption. assumption.
Qed.

Lemma load_models_ok (model_files : list (string * DataFrame)) :
  Forall (fun p => exists out, load_model (snd p) = inr out) model_files ->
  forall md0, exists md, load_models model_files md0 = inr md.
Proof.
  induction 1 as [| [file df] rest [out Hout] _ IH]; intros md0; simpl.
  - eexists. reflexivity.
  - simpl in Hout. rewrite Hout. simpl. apply IH.
Qed.

Lemma load_models_other (model_files : list (string * DataFrame)) (k : string) :
  (forall p, In p model_files -> replace ".csv" "" (fst p) <> k) ->
  forall md0 md, load_models model_files md0 = inr md -> md !! k = md0 !! k.
Proof.
  induction model_files as [| [file df] rest IH]; intros Hne md0 md H; simpl in H.
  - injection H as <-. reflexivity.
  - apply bind_inr in H as (out & Hout & H).
    rewrite (IH (fun p Hp => Hne p (or_intror Hp)) _ _ H).
    apply lookup_insert_ne. apply (Hne (file, df)). left. reflexivity.
Qed.

Lemma all_dates_In (models_data : gmap string DataFrame) (d : Z) :
  In d (all_dates models_data) <->
  exists k df, models_data !! k = Some df /\ In d (map dates (rows df)).
Proof.
  unfold all_dates. rewrite in_concat. split.
  - intros (l & Hl & Hd). apply in_map_iff in Hl as ([k df] & <- & Hkv).
    apply list_elem_of_In, elem_of_map_to_list in Hkv. eauto.
  - intros (k & df & Hk & Hd). exists (map dates (rows df)). split; [| assumption].
    apply in_map_iff. exists (k, df). split; [reflexivity |].
    apply list_elem_of_In, elem_of_map_to_list. assumption.
Qed.

Lemma startup_inr (models_dir : string)
    (listing : option (list (string * DataFrame)))
    (models_data : gmap string DataFrame) (date_list : list Z) :
  startup models_dir listing = inr (models_data, date_list) ->
  exists files,
    listing = Some files /\
    List.filter (fun f => endswith (fst f) ".csv") files <> [] /\
    load_models (List.filter (fun f => endswith (fst f) ".csv") files) ∅
      = inr models_data /\
    date_range (series_min (all_dates models_data))
               (series_max (all_dates models_data)) = inr date_list.
Proof.
  unfold startup. destruct listing as [files |]; [| discriminate].
  intros H. exists files. split; [reflexivity |].
  destruct (List.filter (fun f => endswith (fst f) ".csv") files) as [| p l] eqn:F;
    [discriminate |].
  split; [discriminate |].
  apply bind_inr in H as (md & Hmd & H). apply bind_inr in H as (dl & Hdl & H).
  injection H as <- <-. auto.
Qed.

Lemma startup_of_parts (models_dir : string) (files : list (string * DataFrame))
    (models_data : gmap string DataFrame) (date_list : list Z) :
  List.filter (fun f => endswith (fst f) ".csv") files <> [] ->
  load_models (List.filter (fun f => endswith (fst f) ".csv") files) ∅
    = inr models_data ->
  date_range (series_min (all_dates models_data))
             (series_max (all_dates models_data)) = inr date_list ->
  startup models_dir (Some files) = inr (models_data, date_list).
Proof.
  intros Hne Hmd Hdl. unfold startup.
  destruct (List.filter (fun f => endswith (fst f) ".csv") files) as [| p l] eqn:F;
    [congruence |].
  rewrite Hmd. simpl. fold (all_dates models_data). rewrite Hdl. reflexivity.
Qed.

(** Every table of a store built from the empty store is a loaded record,
    and the store is not empty when a file was read. *)
Lemma loaded_store_dates (model_files : list (string * DataFrame))
    (models_data : gmap string DataFrame) :
  model_files <> [] ->
  load_models model_files ∅ = inr models_data ->
  all_dates models_data <> [].
Proof.
  intros Hne H. destruct (load_models_inr _ _ _ H) as (_ & H2 & H3 & _).
  destruct model_files as [| [file df] rest]; [congruence |].
  destruct (H3 file df (or_introl eq_refl)) as [df' Hdf'].
  destruct (H2 _ _ Hdf') as [Hempty | (f & d & _ & _ & Hload)];
    [rewrite lookup_empty in Hempty; discriminate |].
  destruct (load_model_dates d df' Hload) as (lo & hi & _ & _ & Hle & _ & Hmem & _).
  intros E. assert (Hin : In lo (all_dates models_data)).
  { apply all_dates_In. exists (replace ".csv" "" file), df'.
    split; [assumption |]. apply Hmem. lia. }
  rewrite E in Hin. destruct Hin.
Qed.

(** X1: what a successful start-up requires.  The start-up fails when the
    directory is missing, when it lists no file whose name ends in ".csv",
    and when one of its ".csv" files has no [dates] column or no dated row;
    so whenever the start-up succeeds the directory exists, lists at least
    one ".csv" file, and every such file has a [dates] column and at least
    one dated row. *)
Theorem startup_requires (models_dir : string) :
  (exists e, startup models_dir None = inl e) /\
  (forall files,
     List.filter (fun f => endswith (fst f) ".csv") files = [] ->
     exists e, startup models_dir (Some files) = inl e) /\
  (forall files file df,
     In (file, df) files -> endswith file ".csv" = true ->
     has_column "dates" df = false \/ rows df = [] ->
     exists e, startup models_dir (Some files) = inl e) /\
  (forall listing models_data date_list,
     startup models_dir listing = inr (models_data, date_list) ->
     exists files,
       listing = Some files /\
       (exists file df, In (file, df) files /\ endswith file ".csv" = true) /\
       (forall file df,
          In (file, df) files -> endswith file ".csv" = true ->
          has_column "dates" df = true /\ rows df <> [])).
Proof.
  split; [eexists; reflexivity |]. split; [| split].
  - intros files F. unfold startup. rewrite F. eexists. reflexivity.
  - intros files file df Hin Hcsv Hbad.
    destruct (load_model df) as [e | out] eqn:E.
    + eapply startup_fails; eassumption.
    + destruct (load_model_inr_record df out E) as [Hd Hr].
      destruct Hbad as [Hbad | Hbad]; congruence.
  - intros listing md dl H.
    destruct (startup_inr _ _ _ _ H) as (files & -> & Hne & Hmd & _).
    exists files. split; [reflexivity |].
    destruct (load_models_inr _ _ _ Hmd) as (Hall & _). split.
    + destruct (List.filter (fun f => endswith (fst f) ".csv") files)
        as [| [file df] l] eqn:F; [congruence |].
      assert (Hin : In (file, df)
                      (List.filter (fun f => endswith (fst f) ".csv") files))
        by (rewrite F; left; reflexivity).
      apply List.filter_In in Hin as [Hin Hcsv]. eauto.
    + intros file df Hin Hcsv.
      rewrite List.Forall_forall in Hall.
      destruct (Hall (file, df)) as [out Hout];
        [apply List.filter_In; auto |].
      eapply load_model_inr_record. exact Hout.
Qed.

Lemma getitem_days (lo hi i : Z) :
  (0 <= i <= hi - lo)%Z -> getitem (days lo hi) i = inr (lo + i)%Z.
Proof.
  intros H. unfold getitem. rewrite days_length by lia.
  replace (i <? 0)%Z with false by (symmetry; apply Z.ltb_ge; lia).
  replace ((0 <=? i)%Z && (i <? Z.of_nat (S (Z.to_nat (hi - lo))))%Z) with true
    by (symmetry; apply andb_true_iff; split;
        [apply Z.leb_le | apply Z.ltb_lt]; lia).
  rewrite days_lookup by lia. unfold Ok. f_equal. lia.
Qed.

Lemma filter_all {A : Type} (f : A -> bool) (l : list A) :
  (forall a, In a l -> f a = true) -> List.filter f l = l.
Proof.
  induction l as [| a l IH]; intros H; simpl; [reflexivity |].
  rewrite (H a (or_introl eq_refl)), IH; [reflexivity |].
  intros b Hb. apply H. right. exact Hb.
Qed.

Lemma filter_none {A : Type} (f : A -> bool) (l : list A) :
  (forall a, In a l -> f a = false) -> List.filter f l = [].
Proof.
  induction l as [| a l IH]; intros H; simpl; [reflexivity |].
  rewrite (H a (or_introl eq_refl)). apply IH.
  intros b Hb. apply H. right. exact Hb.
Qed.

(** The date list of a successful start-up. *)
Lemma date_list_of_startup (models_dir : string)
    (listing : option (list (string * DataFrame)))
    (models_data : gmap string DataFrame) (date_list : list Z) :
  startup models_dir listing = inr (models_data, date_list) ->
  exists min_date max_date,
    series_min (all_dates models_data) = Some min_date /\
    series_max (all_dates models_data) = Some max_date /\
    (min_date <= max_date)%Z /\
    date_list = days min_date max_date /\
    length date_list = S (Z.to_nat (max_date - min_date)) /\
    (forall d, In d date_list <-> (min_date <= d <= max_date)%Z) /\
    (forall k df d,
       models_data !! k = Some df -> In d (map dates (rows df)) ->
       In d date_list).
Proof.
  intros H. destruct (startup_inr _ _ _ _ H) as (files & _ & _ & _ & Hdl).
  unfold date_range in Hdl.
  destruct (series_min (all_dates models_data)) as [lo |] eqn:Hlo; [| discriminate].
  destruct (series_max (all_dates models_data)) as [hi |] eqn:Hhi; [| discriminate].
  injection Hdl as <-. fold (days lo hi).
  exists lo, hi. split; [reflexivity |]. split; [reflexivity |].
  apply series_min_spec in Hlo as [Hlo_in Hlo].
  apply series_max_spec in Hhi as [Hhi_in Hhi].
  assert (Hle : (lo <= hi)%Z) by auto.
  split; [assumption |]. split; [reflexivity |].
  split; [apply days_length; assumption |].
  split; [intros d; apply days_In |].
  intros k df d Hk Hd. apply days_In.
  assert (Hin : In d (all_dates models_data)) by (apply all_dates_In; eauto).
  split; auto.
Qed.

(** X3: after a successful start-up the date list is the run of days from the
    smallest to the largest date found in the store; it is not empty and
    contains every date of every stored table. *)
Theorem startup_date_list (models_dir : string)
    (listing : option (list (string * DataFrame)))
    (models_data : gmap string DataFrame) (date_list : list Z) :
  startup models_dir listing = inr (models_data, date_list) ->
  exists min_date max_date,
    series_min (all_dates models_data) = Some min_date /\
    series_max (all_dates models_data) = Some max_date /\
    (min_date <= max_date)%Z /\
    date_list = days min_date max_date /\
    length date_list = S (Z.to_nat (max_date - min_date)) /\
    (forall d, In d date_list <-> (min_date <= d <= max_date)%Z) /\
    (forall k df d,
       models_data !! k = Some df -> In d (map dates (rows df)) ->
       In d date_list).
Proof.
  exact (date_list_of_startup models_dir listing models_data date_list).
Qed.

(** X4: the range slider built from the date list never produces an
    [IndexError]: every position between its [min] and its [max] resolves to
    a date, position [i] to the day [min_date + i]; with its initial value
    the window is the whole date list and the filter keeps every row of
    every stored table. *)
Theorem default_slider_covers_store (models_dir : string)
    (listing : option (list (string * DataFrame)))
    (models_data : gmap string DataFrame) (date_list : list Z) :
  startup models_dir listing = inr (models_data, date_list) ->
  exists min_date max_date,
    series_min (all_dates models_data) = Some min_date /\
    series_max (all_dates models_data) = Some max_date /\
    let slider := date_range_slider date_list min_date max_date in
    (forall i,
       (slider_min slider <= i <= slider_max slider)%Z ->
       getitem date_list i = inr (min_date + i)%Z) /\
    (forall selected_models,
       Forall (fun m => is_Some (models_data !! m)) selected_models ->
       exists st,
         update_graph_loop models_data date_list selected_models
           (slider_value slider) = inr (min_date, max_date, st)) /\
    (forall k df,
       models_data !! k = Some df -> df_filter min_date max_date df = df).
Proof.
  intros H.
  destruct (date_list_of_startup _ _ _ _ H)
    as (lo & hi & Hlo & Hhi & Hle & Hdl & Hlen & _ & Hin).
  exists lo, hi. split; [assumption |]. split; [assumption |].
  unfold date_range_slider. cbn [slider_min slider_max slider_value].
  rewrite Hlen.
  assert (Hget : forall i,
            (0 <= i <= Z.of_nat (S (Z.to_nat (hi - lo))) - 1)%Z ->
            getitem date_list i = inr (lo + i)%Z).
  { intros i Hi. rewrite Hdl. apply getitem_days. lia. }
  split; [exact Hget |]. split.
  - intros sel Hsel.
    destruct (update_graph_loop_ok models_data date_list sel 0
                (Z.of_nat (S (Z.to_nat (hi - lo))) - 1) lo hi) as (st & _ & Hst).
    + rewrite Hget by lia. f_equal. lia.
    + rewrite Hget by lia. f_equal. lia.
    + assumption.
    + eauto.
  - intros k df Hk. destruct df as [cols rs]. unfold df_filter. simpl. f_equal.
    apply filter_all. intros r Hr.
    assert (Hd : In (dates r) date_list).
    { apply (Hin k _ _ Hk). simpl. apply in_map. exact Hr. }
    rewrite Hdl in Hd. apply days_In in Hd.
    apply andb_true_iff. split; apply Z.leb_le; lia.
Qed.

(** X2: the keys of the store are the names of the ".csv" files with every
    ".csv" removed; the table under a key is the loaded record of such a
    file, and when several files give the same key the last one listed is
    the one kept. *)
Theorem store_keys (models_dir : string) (files : list (string * DataFrame))
    (models_data : gmap string DataFrame) (date_list : list Z) :
  startup models_dir (Some files) = inr (models_data, date_list) ->
  (forall k,
     is_Some (models_data !! k) <->
     exists file df,
       In (file, df) files /\ endswith file ".csv" = true /\
       k = replace ".csv" "" file) /\
  (forall k df',
     models_data !! k = Some df' ->
     exists file df,
       In (file, df) files /\ endswith file ".csv" = true /\
       k = replace ".csv" "" file /\ load_model df = inr df') /\
  (forall pre file df post,
     files = pre ++ (file, df) :: post ->
     endswith file ".csv" = true ->
     (forall p, In p post -> endswith (fst p) ".csv" = true ->
                replace ".csv" "" (fst p) <> replace ".csv" "" file) ->
     exists out,
       load_model df = inr out /\
       models_data !! replace ".csv" "" file = Some out).
Proof.
  intros H. destruct (startup_inr _ _ _ _ H) as (files' & [= <-] & _ & Hmd & _).
  destruct (load_models_inr _ _ _ Hmd) as (_ & H2 & H3 & _).
  assert (Hfrom : forall k df',
            models_data !! k = Some df' ->
            exists file df,
              In (file, df) files /\ endswith file ".csv" = true /\
              k = replace ".csv" "" file /\ load_model df = inr df').
  { intros k df' Hk.
    destruct (H2 k df' Hk) as [Hempty | (file & df & Hin & -> & Hload)];
      [rewrite lookup_empty in Hempty; discriminate |].
    apply List.filter_In in Hin as [Hin Hcsv]. exists file, df. auto. }
  split; [| split; [exact Hfrom |]].
  - intros k. split.
    + intros [df' Hk]. destruct (Hfrom k df' Hk) as (file & df & ? & ? & ? & _).
      eauto.
    + intros (file & df & Hin & Hcsv & ->). apply (H3 file df).
      apply List.filter_In. auto.
  - intros pre file df post -> Hcsv Hpost.
    rewrite List.filter_app in Hmd. simpl in Hmd. rewrite Hcsv in Hmd.
    rewrite load_models_app in Hmd.
    apply bind_inr in Hmd as (md1 & _ & Hmd). simpl in Hmd.
    apply bind_inr in Hmd as (out & Hout & Hmd).
    exists out. split; [assumption |].
    assert (Hother : forall p,
              In p (List.filter (fun f => endswith (fst f) ".csv") post) ->
              replace ".csv" "" (fst p) <> replace ".csv" "" file).
    { intros p Hp. apply List.filter_In in Hp as [Hp Hc]. auto. }
    rewrite (load_models_other _ _ Hother _ _ Hmd). apply lookup_insert_eq.
Qed.

(** ** More on the traces of a figure *)

Lemma pred_col_of_cases (df : DataFrame) (c : string) :
  pred_col_of df = Some c -> c = "predictions" \/ c = "predicted values".
Proof.
  unfold pred_col_of.
  destruct (has_column "predictions" df); [intros [= <-]; auto |].
  destruct (has_column "predicted values" df); [intros [= <-]; auto | discriminate].
Qed.

Lemma traces_of_loop models_data start_date end_date selected_models :
  forall st st',
    for_each (plot_model models_data start_date end_date) selected_models st
      = inr st' ->
    forall t, In t (fig_data st') ->
      In t (fig_data st) \/
      exists model df,
        In model selected_models /\ models_data !! model = Some df /\
        (t = actual_trace (df_filter start_date end_date df) \/
         exists pred_col,
           pred_col_of df = Some pred_col /\
           t = predicted_trace model pred_col
                 (df_filter start_date end_date df)).
Proof.
  induction selected_models as [| m ms IH]; intros st st' H t Ht; simpl in H.
  - injection H as <-. auto.
  - apply bind_inr in H as (st1 & H1 & H2).
    destruct (plot_model_inr _ _ _ _ _ _ H1) as [df Hdf].
    rewrite (plot_model_found _ _ _ _ _ _ Hdf) in H1. injection H1 as <-.
    destruct (IH _ _ H2 t Ht) as [Hin | (model & df' & Hm & Hdf' & Hcase)].
    + simpl in Hin. apply in_app_or in Hin as [Hin | Hin]; [auto |].
      right. exists m, df. split; [left; reflexivity |]. split; [assumption |].
      apply in_app_or in Hin as [Hin | Hin].
      * unfold actual_part in Hin.
        destruct (negb (ground_truth_plotted st) && _); [| destruct Hin].
        destruct Hin as [<- | []]. auto.
      * unfold predicted_part in Hin. rewrite pred_col_of_filter in Hin.
        destruct (pred_col_of df) as [c |]; [| destruct Hin].
        destruct Hin as [<- | []]. eauto.
    + right. exists model, df'. split; [right; assumption | auto].
Qed.

Lemma filter_map_dates (f : Z -> bool) (rs : list Row) :
  map dates (List.filter (fun r => f (dates r)) rs)
    = List.filter f (map dates rs).
Proof.
  induction rs as [| r rs IH]; simpl; [reflexivity |].
  destruct (f (dates r)); simpl; rewrite IH; reflexivity.
Qed.

(** X9: every trace of a figure built without error plots one selected model
    of the store: its [x] are the dates of that model that fall in the
    window, in order; its [y] are the cells of one numeric column on the
    same rows, so that [x] and [y] have the same length. *)
Theorem trace_points (models_data : gmap string DataFrame) (date_list : list Z)
    (selected_models : list string) (slider_range : list Z)
    (start_date end_date : Z) (st : LoopState) :
  update_graph_loop models_data date_list selected_models slider_range
    = inr (start_date, end_date, st) ->
  forall t,
    In t (data (update_graph models_data date_list selected_models
                  slider_range)) ->
    exists model df,
      In model selected_models /\ models_data !! model = Some df /\
      let window := rows (df_filter start_date end_date df) in
      x t = map dates window /\
      x t = List.filter
              (fun d => (start_date <=? d)%Z && (d <=? end_date)%Z)
              (map dates (rows df)) /\
      (y t = map groundtruth window \/ y t = map predictions window \/
       y t = map predicted_values window) /\
      length (x t) = length (y t) /\
      (forall d, In d (x t) -> (start_date <= d <= end_date)%Z) /\
      mode t = "lines".
Proof.
  intros Hloop t Ht.
  destruct (update_graph_of_loop _ _ _ _ _ _ _ Hloop) as [_ Hfig].
  rewrite Hfig, data_finish_figure in Ht.
  apply update_graph_loop_inr in Hloop as (i0 & i1 & _ & _ & _ & _ & Hfor).
  destruct (traces_of_loop _ _ _ _ _ _ Hfor t Ht)
    as [[] | (model & df & Hm & Hdf & Hcase)].
  exists model, df. split; [assumption |]. split; [assumption |].
  assert (Hx : forall d,
            In d (map dates (rows (df_filter start_date end_date df))) ->
            (start_date <= d <= end_date)%Z).
  { intros d Hd. apply in_map_iff in Hd as (r & <- & Hr).
    simpl in Hr. apply List.filter_In in Hr as [_ Hr].
    apply andb_true_iff in Hr as [H1 H2].
    apply Z.leb_le in H1. apply Z.leb_le in H2. lia. }
  assert (Hf : map dates (rows (df_filter start_date end_date df)) =
               List.filter
                 (fun d => (start_date <=? d)%Z && (d <=? end_date)%Z)
                 (map dates (rows df))).
  { simpl.
    apply (filter_map_dates
             (fun d => (start_date <=? d)%Z && (d <=? end_date)%Z)). }
  destruct Hcase as [-> | (c & Hc & ->)]; cbn zeta.
  - split; [reflexivity |]. split; [exact Hf |]. split; [left; reflexivity |].
    split; [unfold actual_trace, column; simpl; rewrite !length_map; reflexivity |].
    split; [exact Hx | reflexivity].
  - split; [reflexivity |]. split; [exact Hf |].
    destruct (pred_col_of_cases df c Hc) as [-> | ->].
    + split; [right; left; reflexivity |].
      split; [unfold predicted_trace, column; simpl; rewrite !length_map; reflexivity |].
      split; [exact Hx | reflexivity].
    + split; [right; right; reflexivity |].
      split; [unfold predicted_trace, column; simpl; rewrite !length_map; reflexivity |].
      split; [exact Hx | reflexivity].
Qed.

Lemma dropna_In (ys : list (option Q)) (v : Q) :
  In v (dropna ys) <-> In (Some v) ys.
Proof.
  unfold dropna. induction ys as [| [a |] ys IH]; simpl.
  - reflexivity.
  - rewrite IH. split; intros [H | H]; auto; left; congruence.
  - rewrite IH. split; [auto | intros [H | H]; [discriminate | assumption]].
Qed.

Lemma all_values_of_loop models_data start_date end_date selected_models :
  forall st st',
    for_each (plot_model models_data start_date end_date) selected_models st
      = inr st' ->
    all_values st = flat_map (fun t => dropna (y t)) (fig_data st) ->
    all_values st' = flat_map (fun t => dropna (y t)) (fig_data st').
Proof.
  induction selected_models as [| m ms IH]; intros st st' H Hinv; simpl in H.
  - injection H as <-. assumption.
  - apply bind_inr in H as (st1 & H1 & H2).
    destruct (plot_model_inr _ _ _ _ _ _ H1) as [df Hdf].
    rewrite (plot_model_found _ _ _ _ _ _ Hdf) in H1. injection H1 as <-.
    apply (IH _ _ H2). simpl. rewrite !flat_map_app, <- Hinv. f_equal.
    unfold actual_values_part, actual_part, predicted_values_part, predicted_part.
    destruct (negb (ground_truth_plotted st) && _),
      (pred_col_of (df_filter start_date end_date df));
      simpl; rewrite ?app_nil_r; reflexivity.
Qed.

(** X10: [all_values] is exactly the list of the non-null values the traces
    plot, in the order of the traces.  Hence the layout is left untouched
    exactly when no trace has a non-null point; otherwise the figure has the
    title of the window and a y axis from 0 with a tick step of 2000, and
    when every plotted value has magnitude at most [2^52] the upper bound of
    that axis is a finite number above every plotted value. *)
Theorem axis_follows_plotted_values (models_data : gmap string DataFrame)
    (date_list : list Z) (selected_models : list string)
    (slider_range : list Z) (start_date end_date : Z) (st : LoopState) :
  update_graph_loop models_data date_list selected_models slider_range
    = inr (start_date, end_date, st) ->
  let fig := update_graph models_data date_list selected_models slider_range in
  all_values st = flat_map (fun t => dropna (y t)) (data fig) /\
  (layout fig = empty_layout <->
   forall t v, In t (data fig) -> ~ In (Some v) (y t)) /\
  (forall t v,
     In t (data fig) -> In (Some v) (y t) ->
     exists y_max,
       title (layout fig) = Some (SmoothTitle start_date end_date) /\
       yaxis (layout fig)
         = Some {| range := (0%Q, y_max); tickmode := "linear";
                   dtick := 2000 |} /\
       ((forall t' v',
           In t' (data fig) -> In (Some v') (y t') ->
           (- inject_Z (2 ^ 52) <= v')%Q /\ (v' <= inject_Z (2 ^ 52))%Q) ->
        exists q,
          y_max = Finite q /\
          forall t' v',
            In t' (data fig) -> In (Some v') (y t') -> (v' < q)%Q)).
Proof.
  intros Hloop fig.
  destruct (update_graph_of_loop _ _ _ _ _ _ _ Hloop) as [_ Hfig].
  unfold fig. rewrite Hfig, data_finish_figure. clear fig Hfig.
  apply update_graph_loop_inr in Hloop as (i0 & i1 & _ & _ & _ & _ & Hfor).
  pose proof (all_values_of_loop _ _ _ _ _ _ Hfor eq_refl) as Hall.
  assert (Hmem : forall v,
            In v (all_values st) <->
            exists t, In t (fig_data st) /\ In (Some v) (y t)).
  { intros v. rewrite Hall, in_flat_map. split.
    - intros (t & Ht & Hv). apply dropna_In in Hv. eauto.
    - intros (t & Ht & Hv). exists t. split; [assumption |].
      apply dropna_In. assumption. }
  split; [assumption |]. unfold finish_figure.
  destruct (all_values st) as [| a values] eqn:E.
  - split.
    + split; [| reflexivity]. intros _ t v Ht Hv.
      destruct (proj2 (Hmem v)) as []. eauto.
    + intros t v Ht Hv. destruct (proj2 (Hmem v)) as []. eauto.
  - split.
    + split; [discriminate |]. intros Hnone. exfalso.
      destruct (proj1 (Hmem a) (or_introl eq_refl)) as (t & Ht & Hv).
      exact (Hnone t a Ht Hv).
    + intros t v Ht Hv. exists (y_max_of a values).
      split; [reflexivity |]. split; [reflexivity |].
      intros Hsmall.
      destruct (py_max_spec values a) as (Ha & Hin & Hge).
      destruct (floor_step_bounds (py_max a values)) as [Hlt _].
      destruct (proj1 (Hmem (py_max a values)) Hin) as (tm & Htm & Hvm).
      destruct (Hsmall tm _ Htm Hvm) as [Hlo Hhi].
      eexists. split; [apply y_max_float_exact; assumption |].
      intros t' v' Ht' Hv'.
      assert (Hin' : In v' (a :: values)) by (apply Hmem; eauto).
      eapply Qle_lt_trans; [| exact Hlt].
      destruct Hin' as [<- | Hin']; auto.
Qed.

Lemma length_filter_split {A : Type} (f g : A -> bool) (l : list A) :
  (forall a, In a l -> f a = negb (g a)) ->
  length l = (length (List.filter f l) + length (List.filter g l))%nat.
Proof.
  induction l as [| a l IH]; intros H; simpl; [reflexivity |].
  rewrite (H a (or_introl eq_refl)).
  rewrite (IH (fun b Hb => H b (or_intror Hb))).
  destruct (g a); simpl; lia.
Qed.

Lemma length_predicted_traces models_data start_date end_date selected_models :
  length (flat_map (predicted_traces_of models_data start_date end_date)
            selected_models) =
  length (List.filter
            (fun model =>
               match models_data !! model with
               | Some df => bool_decide (is_Some (pred_col_of df))
               | None => false
               end) selected_models).
Proof.
  induction selected_models as [| m ms IH]; simpl; [reflexivity |].
  rewrite length_app, IH. unfold predicted_traces_of.
  destruct (models_data !! m) as [df |]; [| reflexivity].
  destruct (pred_col_of df); reflexivity.
Qed.

(** X11: a figure built without error has one dashed trace per selected model
    with a predicted column (a model selected twice counts twice), plus one
    solid trace when some selected model has a [groundtruth] column, and
    nothing else: at most one trace more than there are selected models. *)
Theorem trace_count (models_data : gmap string DataFrame) (date_list : list Z)
    (selected_models : list string) (slider_range : list Z)
    (start_date end_date : Z) (st : LoopState) :
  update_graph_loop models_data date_list selected_models slider_range
    = inr (start_date, end_date, st) ->
  let fig := update_graph models_data date_list selected_models slider_range in
  (forall t, In t (data fig) -> is_actual t = negb (is_dashed t)) /\
  length (data fig) =
    (length (List.filter
               (fun model =>
                  match models_data !! model with
                  | Some df => bool_decide (is_Some (pred_col_of df))
                  | None => false
                  end) selected_models)
     + match first_with_groundtruth models_data selected_models with
       | Some _ => 1
       | None => 0
       end)%nat /\
  (length (data fig) <= length selected_models + 1)%nat.
Proof.
  intros Hloop fig.
  destruct (update_graph_of_loop _ _ _ _ _ _ _ Hloop) as [_ Hfig].
  unfold fig. rewrite Hfig, data_finish_figure. clear fig Hfig.
  apply update_graph_loop_inr in Hloop as (i0 & i1 & _ & _ & _ & _ & Hfor).
  assert (Hkind : forall t, In t (fig_data st) -> is_actual t = negb (is_dashed t)).
  { intros t Ht.
    destruct (traces_of_loop _ _ _ _ _ _ Hfor t Ht)
      as [[] | (model & df & _ & _ & [-> | (c & _ & ->)])]; [reflexivity |].
    unfold is_actual, is_dashed. simpl. apply andb_false_r. }
  assert (Hlen : length (fig_data st) =
            (length (List.filter
                       (fun model =>
                          match models_data !! model with
                          | Some df => bool_decide (is_Some (pred_col_of df))
                          | None => false
                          end) selected_models)
             + match first_with_groundtruth models_data selected_models with
               | Some _ => 1
               | None => 0
               end)%nat).
  { rewrite (length_filter_split is_actual is_dashed _ Hkind).
    rewrite (actual_traces_of_loop _ _ _ _ _ _ Hfor).
    rewrite (dashed_traces_of_loop _ _ _ _ _ _ Hfor).
    simpl. rewrite length_predicted_traces.
    destruct (first_with_groundtruth models_data selected_models); simpl; lia. }
  split; [assumption |]. split; [assumption |].
  rewrite Hlen.
  pose proof (List.filter_length_le
                (fun model =>
                   match models_data !! model with
                   | Some df => bool_decide (is_Some (pred_col_of df))
                   | None => false
                   end) selected_models).
  destruct (first_with_groundtruth models_data selected_models); lia.
Qed.

(** X12: when the slider range is reversed, the end date coming before the
    start date, nothing raises: every selected model still gets its traces,
    but none of them has a point, and the layout is left untouched. *)
Theorem reversed_window_plots_nothing (models_data : gmap string DataFrame)
    (date_list : list Z) (selected_models : list string)
    (slider_range : list Z) (start_date end_date : Z) (st : LoopState) :
  update_graph_loop models_data date_list selected_models slider_range
    = inr (start_date, end_date, st) ->
  (end_date < start_date)%Z ->
  let fig := update_graph models_data date_list selected_models slider_range in
  (forall t, In t (data fig) -> x t = [] /\ y t = []) /\
  all_values st = [] /\
  layout fig = empty_layout.
Proof.
  intros Hloop Hrev fig.
  destruct (update_graph_of_loop _ _ _ _ _ _ _ Hloop) as [_ Hfig].
  unfold fig. rewrite Hfig, data_finish_figure. clear fig Hfig.
  apply update_graph_loop_inr in Hloop as (i0 & i1 & _ & _ & _ & _ & Hfor).
  assert (Hrows : forall df, rows (df_filter start_date end_date df) = []).
  { intros df. simpl. apply filter_none. intros r _.
    apply andb_false_iff.
    destruct (Z_le_gt_dec start_date (dates r));
      [right; apply Z.leb_gt; lia | left; apply Z.leb_gt; lia]. }
  assert (Hempty : forall t, In t (fig_data st) -> x t = [] /\ y t = []).
  { intros t Ht.
    destruct (traces_of_loop _ _ _ _ _ _ Hfor t Ht)
      as [[] | (model & df & _ & _ & [-> | (c & Hc & ->)])].
    - unfold actual_trace, column. simpl x. simpl y.
      change (List.filter _ (rows df)) with (rows (df_filter start_date end_date df)).
      rewrite Hrows. auto.
    - unfold predicted_trace. simpl x. simpl y.
      destruct (pred_col_of_cases df c Hc) as [-> | ->]; unfold column; simpl;
        change (List.filter _ (rows df)) with (rows (df_filter start_date end_date df));
        rewrite Hrows; auto. }
  assert (Hall : all_values st = []).
  { rewrite (all_values_of_loop _ _ _ _ _ _ Hfor eq_refl).
    induction (fig_data st) as [| t l IH]; [reflexivity |].
    simpl. destruct (Hempty t (or_introl eq_refl)) as [_ ->]. simpl.
    apply IH. intros t' Ht'. apply Hempty. right. exact Ht'. }
  split; [assumption |]. split; [assumption |].
  unfold finish_figure. rewrite Hall. reflexivity.
Qed.

(** ** Names *)

Lemma replace_from_absent (old new s : string) :
  occurs old s = false -> replace_from old new 0 s = s.
Proof.
  induction s as [| c rest IH]; intros H; [reflexivity |].
  cbn [occurs] in H. apply orb_false_iff in H as [Hp Hrest].
  cbn [replace_from]. rewrite Hp, IH by assumption. reflexivity.
Qed.

Lemma replace_from_skip (old new a s : string) :
  replace_from old new (String.length a) (a +:+ s) = replace_from old new 0 s.
Proof.
  induction a as [| c a IH]; simpl; [reflexivity | exact IH].
Qed.

Lemma prefix_append (a s : string) : String.prefix a (a +:+ s) = true.
Proof.
  induction a as [| c a IH]; simpl; [destruct s; reflexivity |].
  destruct (Ascii.ascii_dec c c); [exact IH | congruence].
Qed.

Lemma replace_prefix_once (old new s : string) :
  old <> EmptyString -> occurs old s = false ->
  replace old new (old +:+ s) = new +:+ s.
Proof.
  intros Hne Habs. unfold replace.
  destruct old as [| c old']; [congruence |].
  change (String c old' +:+ s) with (String c (old' +:+ s)).
  cbn [replace_from].
  change (String c (old' +:+ s)) with (String c old' +:+ s).
  rewrite prefix_append.
  replace (String.length (String c old') - 1)%nat with (String.length old')
    by (simpl; lia).
  rewrite replace_from_skip, replace_from_absent by assumption. reflexivity.
Qed.

(** X13: a model name in which neither "results-csv_" nor "result-csv_" occurs
    is displayed as it is, and with one of the two prefixes in front of it
    the prefix is removed. *)
Theorem display_name_strips_prefix (model : string) :
  occurs "results-csv_" model = false ->
  occurs "result-csv_" model = false ->
  display_name model = model /\
  display_name ("results-csv_" +:+ model) = model /\
  display_name ("result-csv_" +:+ model) = model.
Proof.
  intros H1 H2. unfold display_name.
  assert (Hid : replace "result-csv_" "" (replace "results-csv_" "" model) = model).
  { unfold replace.
    rewrite (replace_from_absent "results-csv_" "" model H1).
    apply replace_from_absent. assumption. }
  split; [exact Hid |]. split.
  - rewrite (replace_prefix_once "results-csv_" "" model);
      [| discriminate | assumption].
    unfold replace. simpl String.append.
    apply replace_from_absent. assumption.
  - assert (Hmix : occurs "results-csv_" ("result-csv_" +:+ model) = false).
    { simpl. exact H1. }
    unfold replace at 2. rewrite replace_from_absent by assumption.
    rewrite (replace_prefix_once "result-csv_" "" model);
      [reflexivity | discriminate | assumption].
Qed.

Lemma length_append (a b : string) :
  String.length (a +:+ b) = (String.length a + String.length b)%nat.
Proof. induction a as [| c a IH]; simpl; [reflexivity | rewrite IH; reflexivity]. Qed.

Lemma substring_append (a b : string) (n : nat) :
  String.substring (String.length a) n (a +:+ b) = String.substring 0 n b.
Proof. induction a as [| c a IH]; simpl; [reflexivity | exact IH]. Qed.

Lemma substring_whole (b : string) :
  String.substring 0 (String.length b) b = b.
Proof. induction b as [| c b IH]; simpl; [reflexivity | rewrite IH; reflexivity]. Qed.

Lemma endswith_append (a suffix : string) : endswith (a +:+ suffix) suffix = true.
Proof.
  unfold endswith. rewrite length_append.
  replace (String.length a + String.length suffix - String.length suffix)%nat
    with (String.length a) by lia.
  rewrite substring_append, substring_whole, String.eqb_refl, andb_true_r.
  apply Nat.leb_le. lia.
Qed.

Lemma occurs_dot_csv (name : string) :
  occurs "." name = false -> occurs ".csv" (name +:+ ".csv") = true /\
  replace_from ".csv" "" 0 (name +:+ ".csv") = name.
Proof.
  induction name as [| c name IH]; intros H.
  - split; reflexivity.
  - cbn [occurs] in H. apply orb_false_iff in H as [Hp Hrest].
    destruct (IH Hrest) as [IH1 IH2].
    change (String c name +:+ ".csv") with (String c (name +:+ ".csv")).
    split.
    + cbn [occurs]. rewrite IH1. apply orb_true_r.
    + assert (Hc : String.prefix ".csv" (String c (name +:+ ".csv")) = false).
      { cbn [String.prefix] in Hp |- *.
        destruct (Ascii.ascii_dec _ c); [| reflexivity].
        destruct name; discriminate. }
      cbn [replace_from]. rewrite Hc, IH2. reflexivity.
Qed.

(** X14: a file called [name ++ ".csv"] is always taken as a model file, and when
    [name] has no dot the model is stored and offered under [name]. *)
Theorem model_name_of_file (name : string) :
  endswith (name +:+ ".csv") ".csv" = true /\
  (occurs "." name = false -> replace ".csv" "" (name +:+ ".csv") = name).
Proof.
  split; [apply endswith_append |].
  intros H. apply (occurs_dot_csv name H).
Qed.

(** ** Known values survive loading *)

Lemma merge_left_In (full : list Z) (rs : list Row) (r : Row) :
  In r rs -> In (dates r) full -> In r (merge_left full rs).
Proof.
  intros Hr Hd. unfold merge_left. apply in_flat_map. exists (dates r).
  split; [assumption |].
  assert (Hf : In r (List.filter (fun r0 => (dates r0 =? dates r)%Z) rs))
    by (apply List.filter_In; split; [assumption | apply Z.eqb_refl]).
  destruct (List.filter (fun r0 => (dates r0 =? dates r)%Z) rs); [destruct Hf | exact Hf].
Qed.

Lemma load_model_column_cases (df out : DataFrame) :
  load_model df = inr out ->
  exists lo hi,
    series_min (map dates (rows df)) = Some lo /\
    series_max (map dates (rows df)) = Some hi /\
    let merged := merge_left (days lo hi) (sort_values (rows df)) in
    map dates (rows out) = map dates merged /\
    (map groundtruth (rows out) = interpolate (map groundtruth merged) \/
     map groundtruth (rows out) = map groundtruth merged) /\
    (map predictions (rows out) = interpolate (map predictions merged) \/
     map predictions (rows out) = map predictions merged) /\
    (map predicted_values (rows out) = interpolate (map predicted_values merged) \/
     map predicted_values (rows out) = map predicted_values merged).
Proof.
  unfold load_model. destruct (has_column "dates" df); simpl; [| discriminate].
  rewrite <- (series_min_perm _ _ (Permutation_map dates (sort_values_perm (rows df)))).
  rewrite <- (series_max_perm _ _ (Permutation_map dates (sort_values_perm (rows df)))).
  destruct (series_min (map dates (sort_values (rows df)))) as [lo |];
    [| discriminate].
  destruct (series_max (map dates (sort_values (rows df)))) as [hi |];
    [| discriminate].
  simpl. intros [= <-]. exists lo, hi. split; [reflexivity |].
  split; [reflexivity |]. simpl. fold (days lo hi).
  destruct (has_column "predictions" df), (has_column "predicted values" df),
    (has_column "groundtruth" df);
    rewrite ?(interpolate_column_keeps dates) by reflexivity;
    rewrite ?(interpolate_column_keeps groundtruth predictions set_predictions)
      by reflexivity;
    rewrite ?(interpolate_column_keeps groundtruth predicted_values
                set_predicted_values) by reflexivity;
    rewrite ?(interpolate_column_keeps predicted_values predictions
                set_predictions) by reflexivity;
    rewrite ?(interpolate_column_keeps predictions predicted_values
                set_predicted_values) by reflexivity;
    rewrite ?(interpolate_column_sets groundtruth set_groundtruth) by reflexivity;
    rewrite ?(interpolate_column_sets predictions set_predictions) by reflexivity;
    rewrite ?(interpolate_column_sets predicted_values set_predicted_values)
      by reflexivity;
    rewrite ?(interpolate_column_keeps predictions groundtruth set_groundtruth)
      by reflexivity;
    rewrite ?(interpolate_column_keeps predicted_values groundtruth
                set_groundtruth) by reflexivity;
    auto 10.
Qed.

Lemma column_keeps_known (proj : Row -> option Q) (out merged : list Row)
    (i : nat) (r : Row) (v : Q) :
  map proj out = interpolate (map proj merged) \/ map proj out = map proj merged ->
  merged !! i = Some r -> proj r = Some v ->
  exists r', out !! i = Some r' /\ proj r' = Some v.
Proof.
  intros Hcol Hi Hv.
  assert (Hm : map proj merged !! i = Some (Some v)).
  { change (map proj merged) with (proj <$> merged).
    rewrite list_lookup_fmap, Hi. simpl. rewrite Hv. reflexivity. }
  assert (Ho : map proj out !! i = Some (Some v)).
  { destruct Hcol as [-> | ->]; [apply interpolate_lookup_valid |]; assumption. }
  change (map proj out) with (proj <$> out) in Ho.
  rewrite list_lookup_fmap in Ho.
  destruct (out !! i) as [r' |]; [| discriminate].
  simpl in Ho. injection Ho as Ho. eauto.
Qed.

Lemma dated_rows_In (strptime : string -> result Z) (rs : list CsvRow) :
  forall ds r text d,
    to_datetime strptime (map csv_dates rs) = inr ds ->
    In r rs -> csv_dates r = Some text -> strptime text = inr d ->
    In {| dates := d; groundtruth := csv_groundtruth r;
          predictions := csv_predictions r;
          predicted_values := csv_predicted_values r |} (dated_rows ds rs).
Proof.
  induction rs as [| r0 rs IH]; intros ds r text d Hds Hin Hc Hd;
    [destruct Hin |].
  simpl in Hds. destruct (csv_dates r0) as [t0 |] eqn:E0.
  - destruct (strptime t0) as [e0 | d0] eqn:Et; [discriminate |]. simpl in Hds.
    destruct (to_datetime strptime (map csv_dates rs)) as [e1 | ds'] eqn:Er;
      [discriminate |].
    simpl in Hds. injection Hds as <-. simpl.
    destruct Hin as [-> | Hin].
    + left. replace t0 with text in Et by congruence.
      replace d0 with d by congruence. reflexivity.
    + right. eapply IH; eauto.
  - destruct (to_datetime strptime (map csv_dates rs)) as [e1 | ds'] eqn:Er;
      [discriminate |].
    simpl in Hds. injection Hds as <-. simpl.
    destruct Hin as [-> | Hin]; [congruence |].
    eapply IH; eauto.
Qed.

Lemma load_model_keeps_row (df out : DataFrame) (r : Row) :
  load_model df = inr out ->
  In r (rows df) ->
  exists r',
    In r' (rows out) /\ dates r' = dates r /\
    (forall v, groundtruth r = Some v -> groundtruth r' = Some v) /\
    (forall v, predictions r = Some v -> predictions r' = Some v) /\
    (forall v, predicted_values r = Some v -> predicted_values r' = Some v).
Proof.
  intros Hout Hr.
  destruct (load_model_column_cases df out Hout)
    as (lo & hi & Hlo & Hhi & Hd & Hg & Hp & Hpv).
  cbn zeta in *.
  set (merged := merge_left (days lo hi) (sort_values (rows df))) in *.
  assert (Hin : In r merged).
  { apply merge_left_In.
    - eapply Permutation_in; [symmetry; apply sort_values_perm | exact Hr].
    - apply days_In.
      apply series_min_spec in Hlo as [_ Hlo].
      apply series_max_spec in Hhi as [_ Hhi].
      split; [apply Hlo | apply Hhi]; apply in_map; exact Hr. }
  apply list_elem_of_In, list_elem_of_lookup in Hin as [i Hi].
  assert (Hdate : map dates (rows out) !! i = Some (dates r)).
  { rewrite Hd. change (map dates merged) with (dates <$> merged).
    rewrite list_lookup_fmap, Hi. reflexivity. }
  change (map dates (rows out)) with (dates <$> rows out) in Hdate.
  rewrite list_lookup_fmap in Hdate.
  destruct (rows out !! i) as [r' |] eqn:Hr'; [| discriminate].
  simpl in Hdate. injection Hdate as Hdate.
  exists r'. split; [apply list_elem_of_In, list_elem_of_lookup; eauto |].
  split; [assumption |].
  split; [| split]; intros v Hv.
  - destruct (column_keeps_known groundtruth _ _ i r v Hg Hi Hv) as (r'' & E & H).
    congruence.
  - destruct (column_keeps_known predictions _ _ i r v Hp Hi Hv) as (r'' & E & H).
    congruence.
  - destruct (column_keeps_known predicted_values _ _ i r v Hpv Hi Hv)
      as (r'' & E & H).
    congruence.
Qed.

(** X6: loading keeps the known values that are binary64 numbers.  When a
    file loads, every row of it whose date parses is found again in the loaded
    table, on the parsed date, and each of its non-null cells whose value is a
    binary64 number is unchanged.  (A row with a blank date is not in the
    loaded table, and an integer that binary64 cannot hold is rounded when
    the merge turns its column into floats: nothing is stated for them.) *)
Theorem loaded_table_keeps_known_values (strptime : string -> result Z)
    (raw : CsvFrame) (out : DataFrame) (r : CsvRow) (text : string) (d : Z) :
  read_model strptime raw = inr out ->
  In r (csv_rows raw) ->
  csv_dates r = Some text ->
  strptime text = inr d ->
  exists r',
    In r' (rows out) /\ dates r' = d /\
    (forall v, csv_groundtruth r = Some v -> representable v = true ->
               groundtruth r' = Some v) /\
    (forall v, csv_predictions r = Some v -> representable v = true ->
               predictions r' = Some v) /\
    (forall v, csv_predicted_values r = Some v -> representable v = true ->
               predicted_values r' = Some v).
Proof.
  intros Hout Hr Hc Hd. unfold read_model in Hout.
  destruct (negb (bool_decide ("dates" ∈ csv_columns raw))); [discriminate |].
  destruct (to_datetime strptime (map csv_dates (csv_rows raw)))
    as [e | ds] eqn:Hds; [discriminate |].
  simpl in Hout.
  pose proof (dated_rows_In strptime (csv_rows raw) ds r text d Hds Hr Hc Hd)
    as Hin.
  destruct (load_model_keeps_row _ out _ Hout Hin)
    as (r' & Hr' & Hdate & Hg & Hp & Hpv).
  exists r'. simpl in *. repeat split; auto.
Qed.

(** ** The properties on the sample data *)

Lemma sample_startup :
  startup "model_data" (Some sample_listing)
    = inr (sample_models_data, sample_date_list).
Proof. vm_compute. reflexivity. Qed.

Lemma sample_loop (selected_models : list string) (slider_range : list Z)
    (start_date end_date : Z) :
  (match update_graph_loop sample_models_data sample_date_list selected_models
           slider_range with
   | inr (s, e, _) => (s =? start_date)%Z && (e =? end_date)%Z
   | inl _ => false
   end = true) ->
  update_graph_loop sample_models_data sample_date_list selected_models
    slider_range
    = inr (start_date, end_date, sample_state selected_models slider_range).
Proof.
  unfold sample_state.
  destruct (update_graph_loop sample_models_data sample_date_list
              selected_models slider_range) as [e | [[s e] st]];
    [discriminate |].
  intros H. apply andb_true_iff in H as [H1 H2].
  apply Z.eqb_eq in H1. apply Z.eqb_eq in H2. subst. reflexivity.
Qed.

Lemma startup_requires_witness :
  (exists e,
     startup "model_data" (Some [("A.csv", csv_A); ("empty.csv", csv_empty)])
       = inl e) /\
  (exists files,
     Some sample_listing = Some files /\
     (exists file df, In (file, df) files /\ endswith file ".csv" = true) /\
     (forall file df,
        In (file, df) files -> endswith file ".csv" = true ->
        has_column "dates" df = true /\ rows df <> [])).
Proof.
  split.
  - apply (proj1 (proj2 (proj2 (startup_requires "model_data")))
             [("A.csv", csv_A); ("empty.csv", csv_empty)] "empty.csv" csv_empty).
    + right. left. reflexivity.
    + vm_compute. reflexivity.
    + right. reflexivity.
  - apply (proj2 (proj2 (proj2 (startup_requires "model_data")))
             (Some sample_listing) sample_models_data sample_date_list).
    vm_compute. reflexivity.
Defined.

Lemma store_keys_witness :
  is_Some (sample_models_data !! "A") <->
  exists file df,
    In (file, df) sample_listing /\ endswith file ".csv" = true /\
    "A" = replace ".csv" "" file.
Proof.
  exact (proj1 (store_keys "model_data" sample_listing sample_models_data
                  sample_date_list sample_startup) "A").
Defined.

Lemma startup_date_list_witness :
  exists min_date max_date,
    series_min (all_dates sample_models_data) = Some min_date /\
    series_max (all_dates sample_models_data) = Some max_date /\
    (min_date <= max_date)%Z /\
    sample_date_list = days min_date max_date /\
    length sample_date_list = S (Z.to_nat (max_date - min_date)) /\
    (forall d, In d sample_date_list <-> (min_date <= d <= max_date)%Z) /\
    (forall k df d,
       sample_models_data !! k = Some df -> In d (map dates (rows df)) ->
       In d sample_date_list).
Proof.
  exact (startup_date_list "model_data" (Some sample_listing)
           sample_models_data sample_date_list sample_startup).
Defined.

Lemma default_slider_covers_store_witness :
  exists min_date max_date,
    series_min (all_dates sample_models_data) = Some min_date /\
    series_max (all_dates sample_models_data) = Some max_date /\
    let slider := date_range_slider sample_date_list min_date max_date in
    (forall i,
       (slider_min slider <= i <= slider_max slider)%Z ->
       getitem sample_date_list i = inr (min_date + i)%Z) /\
    (forall selected_models,
       Forall (fun m => is_Some (sample_models_data !! m)) selected_models ->
       exists st,
         update_graph_loop sample_models_data sample_date_list selected_models
           (slider_value slider) = inr (min_date, max_date, st)) /\
    (forall k df,
       sample_models_data !! k = Some df ->
       df_filter min_date max_date df = df).
Proof.
  exact (default_slider_covers_store "model_data" (Some sample_listing)
           sample_models_data sample_date_list sample_startup).
Defined.

Lemma loaded_dates_witness :
  exists lo hi,
    series_min (map dates (rows csv_dup)) = Some lo /\
    series_max (map dates (rows csv_dup)) = Some hi /\
    (lo <= hi)%Z /\
    map dates (rows {| columns := ["dates"; "predictions"];
                       rows := rows csv_dup |}) =
      flat_map (fun d => replicate (Nat.max 1 (count_date d (rows csv_dup))) d)
        (days lo hi) /\
    (forall d,
       In d (map dates (rows {| columns := ["dates"; "predictions"];
                                rows := rows csv_dup |}))
       <-> (lo <= d <= hi)%Z) /\
    rows {| columns := ["dates"; "predictions"]; rows := rows csv_dup |} <> [].
Proof.
  apply (loaded_dates csv_dup). vm_compute. reflexivity.
Defined.

Lemma loaded_table_keeps_known_values_witness :
  exists r',
    In r' (rows {| columns := ["dates"; "predictions"];
                   rows := [mk_row 19723 None (Some 1%Q);
                            mk_row 19724 None (Some 2%Q);
                            mk_row 19725 None (Some 3%Q)] |}) /\
    dates r' = 19725%Z /\
    (forall v, None = Some v -> representable v = true ->
               groundtruth r' = Some v) /\
    (forall v, Some 3%Q = Some v -> representable v = true ->
               predictions r' = Some v) /\
    (forall v, None = Some v -> representable v = true ->
               predicted_values r' = Some v).
Proof.
  apply (loaded_table_keeps_known_values sample_strptime raw_P _
           (mk_csv_row (Some "01/03/24") None (Some 3%Q)) "01/03/24" 19725%Z).
  - vm_compute. reflexivity.
  - right. left. reflexivity.
  - reflexivity.
  - reflexivity.
Defined.

Lemma interpolate_fills_all_but_leading_witness :
  interpolate [None; Some 1%Q; None; Some 3%Q] !! 1%nat = Some (Some 1%Q).
Proof.
  apply (proj1 (interpolate_fills_all_but_leading
                  [None; Some 1%Q; None; Some 3%Q]) 1%nat 1%Q).
  reflexivity.
Defined.

Lemma interpolate_linear_between_witness :
  exists q,
    interpolate ([None] ++ Some 50%Q :: replicate 1 None ++ Some 70%Q :: [])
      !! (length [@None Q] + 1)%nat = Some (Some q) /\
    (q == 50 + (70 - 50)
               * (inject_Z (Z.of_nat 1) / inject_Z (Z.of_nat 2)))%Q.
Proof.
  apply (interpolate_linear_between [None] 50%Q 1 70%Q [] 0). lia.
Defined.

Lemma trace_points_witness :
  List.Forall
    (fun t =>
       length (x t) = length (y t) /\
       forall d, In d (x t) -> (19724 <= d <= 19725)%Z)
    (data (update_graph sample_models_data sample_date_list ["A"; "B"]
             [1%Z; 2%Z])).
Proof.
  apply List.Forall_forall. intros t Ht.
  destruct (trace_points sample_models_data sample_date_list ["A"; "B"]
              [1%Z; 2%Z] 19724%Z 19725%Z (sample_state ["A"; "B"] [1%Z; 2%Z])
              (sample_loop ["A"; "B"] [1%Z; 2%Z] 19724%Z 19725%Z
                 ltac:(vm_compute; reflexivity)) t Ht)
    as (model & df & _ & _ & _ & _ & _ & Hlen & Hwin & _).
  split; assumption.
Defined.

Lemma axis_follows_plotted_values_witness :
  all_values (sample_state ["A"; "B"] [1%Z; 2%Z]) =
  flat_map (fun t => dropna (y t))
    (data (update_graph sample_models_data sample_date_list ["A"; "B"]
             [1%Z; 2%Z])).
Proof.
  exact (proj1 (axis_follows_plotted_values sample_models_data sample_date_list
                  ["A"; "B"] [1%Z; 2%Z] 19724%Z 19725%Z
                  (sample_state ["A"; "B"] [1%Z; 2%Z])
                  (sample_loop ["A"; "B"] [1%Z; 2%Z] 19724%Z 19725%Z
                     ltac:(vm_compute; reflexivity)))).
Defined.

Lemma trace_count_witness :
  (length (data (update_graph sample_models_data sample_date_list
                   ["G"; "A"; "B"] [0%Z; 3%Z])) <= 3 + 1)%nat.
Proof.
  exact (proj2 (proj2 (trace_count sample_models_data sample_date_list
                         ["G"; "A"; "B"] [0%Z; 3%Z] 19723%Z 19726%Z
                         (sample_state ["G"; "A"; "B"] [0%Z; 3%Z])
                         (sample_loop ["G"; "A"; "B"] [0%Z; 3%Z] 19723%Z
                            19726%Z ltac:(vm_compute; reflexivity))))).
Defined.

Lemma reversed_window_plots_nothing_witness :
  layout (update_graph sample_models_data sample_date_list ["A"; "B"]
            [3%Z; 0%Z]) = empty_layout.
Proof.
  refine (proj2 (proj2 (reversed_window_plots_nothing sample_models_data
                          sample_date_list ["A"; "B"] [3%Z; 0%Z]
                          19726%Z 19723%Z
                          (sample_state ["A"; "B"] [3%Z; 0%Z])
                          (sample_loop ["A"; "B"] [3%Z; 0%Z] 19726%Z 19723%Z
                             ltac:(vm_compute; reflexivity)) _))).
  lia.
Defined.

Lemma display_name_strips_prefix_witness :
  display_name "lstm" = "lstm" /\
  display_name ("results-csv_" +:+ "lstm") = "lstm" /\
  display_name ("result-csv_" +:+ "lstm") = "lstm".
Proof.
  apply (display_name_strips_prefix "lstm"); reflexivity.
Defined.

Lemma model_name_of_file_witness :
  replace ".csv" "" ("lstm" +:+ ".csv") = "lstm".
Proof.
  apply (proj2 (model_name_of_file "lstm")). reflexivity.
Defined.
